(** * conda-smithy recipe linter: [conda_smithy/lint_recipe.py]

    A shallow embedding of the linter and the properties of its rule
    engine.  Text is modelled as [string] (characters are code points
    below 256), YAML values as a tagged union, mappings as association
    lists (key order is observable), lint messages as the strings the
    code builds, exceptions as an error result, and the Python objects
    that the linter allocates and mutates as cells of a store. *)

From Stdlib Require Import String Ascii List ZArith Lia Bool Arith.
From Stdlib Require Import DecimalString DecimalNat Sorted.
From stdpp Require Import gmap strings.
Import ListNotations.

Local Open Scope string_scope.
Local Open Scope list_scope.
Local Open Scope nat_scope.

(** ** Text *)

Module Text.

Definition nl : ascii := ascii_of_nat 10.

(** The double quote, for the messages that carry one. *)
Definition dq : string := String (ascii_of_nat 34) EmptyString.

(** [str.isspace] on code points below 256; also the class [\s] of [re]
    on text patterns. *)
Definition py_isspace (c : ascii) : bool :=
  let n := nat_of_ascii c in
  ((9 <=? n) && (n <=? 13)) || ((28 <=? n) && (n <=? 32))
  || (n =? 133) || (n =? 160).

Fixpoint lstrip (s : string) : string :=
  match s with
  | String c s' => if py_isspace c then lstrip s' else s
  | EmptyString => EmptyString
  end.

Fixpoint rstrip (s : string) : string :=
  match s with
  | String c s' =>
      match rstrip s' with
      | EmptyString => if py_isspace c then EmptyString else String c EmptyString
      | r => String c r
      end
  | EmptyString => EmptyString
  end.

Definition strip (s : string) : string := rstrip (lstrip s).

(** [str.lower] on code points below 256: the ASCII capitals and the
    Latin-1 ones (the multiplication sign, 215, is not a letter). *)
Definition lower_char (c : ascii) : ascii :=
  let n := nat_of_ascii c in
  if ((65 <=? n) && (n <=? 90))
     || ((192 <=? n) && (n <=? 222) && negb (n =? 215))
  then ascii_of_nat (n + 32) else c.

Fixpoint lower (s : string) : string :=
  match s with
  | String c s' => String (lower_char c) (lower s')
  | EmptyString => EmptyString
  end.

(** [t] is how [s] starts. *)
Fixpoint has_prefix (t s : string) : bool :=
  match t with
  | EmptyString => true
  | String a t' =>
      match s with
      | String b s' => Ascii.eqb a b && has_prefix t' s'
      | EmptyString => false
      end
  end.

(** [s.startswith(p)] *)
Definition startswith (s p : string) : bool := has_prefix p s.

(** [needle in hay] on two texts. *)
Fixpoint contains (needle hay : string) : bool :=
  has_prefix needle hay ||
  match hay with
  | String _ hay' => contains needle hay'
  | EmptyString => false
  end.

Fixpoint take (n : nat) (s : string) : string :=
  match n, s with
  | S n', String c s' => String c (take n' s')
  | _, _ => EmptyString
  end.

(** [sep.join(l)] *)
Fixpoint join (sep : string) (l : list string) : string :=
  match l with
  | [] => ""
  | [x] => x
  | x :: l' => x +:+ sep +:+ join sep l'
  end.

(** [s.split('\n')]: the pieces between newlines, always at least one. *)
Fixpoint split_nl (s : string) : list string :=
  match s with
  | EmptyString => [""]
  | String c s' =>
      if Ascii.eqb c nl then "" :: split_nl s'
      else match split_nl s' with
           | x :: r => String c x :: r
           | [] => [String c ""]
           end
  end.

(** Iterating a text file: the lines, each with its newline, the last
    one without when the text does not end in a newline. *)
Fixpoint file_lines (s : string) : list string :=
  match s with
  | EmptyString => []
  | String c s' =>
      if Ascii.eqb c nl then String c "" :: file_lines s'
      else match file_lines s' with
           | x :: r => String c x :: r
           | [] => [String c ""]
           end
  end.

Definition of_nat (n : nat) : string := NilEmpty.string_of_uint (Nat.to_uint n).

Definition of_Z (z : Z) : string :=
  match z with
  | Zneg p => "-" +:+ of_nat (Pos.to_nat p)
  | _ => of_nat (Z.to_nat z)
  end.

(** [repr] of a list of integers, as [str.format] prints it. *)
Definition repr_nats (l : list nat) : string :=
  "[" +:+ join ", " (map of_nat l) +:+ "]".

(** [os.path.join(a, b)] on POSIX paths. *)
Definition path_join (a b : string) : string :=
  if has_prefix "/" b then b
  else if String.eqb a "" then b
  else if String.eqb (substring (String.length a - 1) 1 a) "/" then a +:+ b
  else a +:+ "/" +:+ b.

(** [os.path.basename]: what follows the last slash. *)
Fixpoint basename (p : string) : string :=
  match p with
  | EmptyString => EmptyString
  | String c p' =>
      if contains "/" p then basename p' else p
  end.

End Text.

Import Text.

(** ** Regular expressions

    The patterns of the module, as [re.match] decides them: a match
    anchored at the start of the text.  Whether a match exists does not
    depend on the order in which alternatives are tried, so greedy and
    lazy repetitions are the same constructor.  Repetition is only ever
    applied to a character class in these patterns. *)

Module Re.

Inductive re : Type :=
| Chr (p : ascii -> bool)          (* one character of a class *)
| Many (p : ascii -> bool)         (* class*, class*? *)
| Cat (a b : re)
| Group (g : nat) (a : re)         (* ( a ), the g-th group *)
| Opt (a : re)                     (* a? *)
| IfGroup (g : nat) (a : re)       (* (?(g) a ) *)
| Eos                              (* $ *)
| Eps.

Definition dot (c : ascii) : bool := negb (Ascii.eqb c nl).
Definition space : ascii -> bool := py_isspace.
Definition non_space (c : ascii) : bool := negb (py_isspace c).
Definition lit (x : ascii) (c : ascii) : bool := Ascii.eqb c x.
Definition none_of (xs : string) (c : ascii) : bool :=
  negb (existsb (Ascii.eqb c) (list_ascii_of_string xs)).

(** a+ for a class *)
Definition Many1 (p : ascii -> bool) : re := Cat (Chr p) (Many p).

(** a literal word *)
Fixpoint Lit (w : string) : re :=
  match w with
  | EmptyString => Eps
  | String c w' => Cat (Chr (lit c)) (Lit w')
  end.

Fixpoint seq (rs : list re) : re :=
  match rs with
  | [] => Eps
  | [r] => r
  | r :: rs' => Cat r (seq rs')
  end.

(** Every way of taking characters of the class off the front. *)
Fixpoint many (p : ascii -> bool) (s : string) (k : string -> bool) : bool :=
  if k s then true
  else match s with
       | String c s' => if p c then many p s' k else false
       | EmptyString => false
       end.

(** [$] without MULTILINE: the end, or just before a final newline. *)
Definition at_end (s : string) : bool :=
  match s with
  | EmptyString => true
  | String c EmptyString => Ascii.eqb c nl
  | _ => false
  end.

(** Backtracking match with a continuation; [gs] lists the groups that
    took part so far. *)
Fixpoint run (r : re) (s : string) (gs : list nat)
    (k : string -> list nat -> bool) : bool :=
  match r with
  | Chr p =>
      match s with
      | String c s' => if p c then k s' gs else false
      | EmptyString => false
      end
  | Many p => many p s (fun s' => k s' gs)
  | Cat a b => run a s gs (fun s' gs' => run b s' gs' k)
  | Group g a => run a s gs (fun s' gs' => k s' (g :: gs'))
  | Opt a => if run a s gs k then true else k s gs
  | IfGroup g a => if existsb (Nat.eqb g) gs then run a s gs k else k s gs
  | Eos => if at_end s then k s gs else false
  | Eps => k s gs
  end.

(** [pattern.match(s)] is not [None] *)
Definition matches (r : re) (s : string) : bool :=
  run r s [] (fun _ _ => true).

End Re.

Import Re.

(** The patterns, with the text the module compiles them from. *)
Definition sel_pat_text : string := "(.+?)\s*(#.*)?\[([^\[\]]+)\](?(2).*)$".
Definition sel_pat : re :=
  seq [ Group 1 (Many1 dot); Many space; Opt (Group 2 (Cat (Lit "#") (Many dot)));
        Lit "["; Group 3 (Many1 (none_of "[]")); Lit "]";
        IfGroup 2 (Many dot); Eos ].

Definition jinja_pat_text : string :=
  "\s*\{%\s*(set)\s+[^\s]+\s*=\s*[^\s]+\s*%\}".
Definition jinja_pat : re :=
  seq [ Many space; Lit "{%"; Many space; Group 1 (Lit "set"); Many1 space;
        Many1 non_space; Many space; Lit "="; Many space; Many1 non_space;
        Many space; Lit "%}" ].

Definition good_selectors_pat_text : string :=
  "(.+?)\s{2,}#\s\[(.+)\](?(2).*)$".
Definition good_selectors_pat : re :=
  seq [ Group 1 (Many1 dot); Chr space; Many1 space; Lit "#"; Chr space;
        Lit "["; Group 2 (Many1 dot); Lit "]"; IfGroup 2 (Many dot); Eos ].

Definition good_jinja_pat_text : string :=
  "\s*\{%\s(set)\s[^\s]+\s=\s[^\s]+\s%\}".
Definition good_jinja_pat : re :=
  seq [ Many space; Lit "{%"; Chr space; Group 1 (Lit "set"); Chr space;
        Many1 non_space; Chr space; Lit "="; Chr space; Many1 non_space;
        Chr space; Lit "%}" ].

Definition name_pat_text : string := "^[a-z0-9_\-.]+$".
Definition name_char (c : ascii) : bool :=
  let n := nat_of_ascii c in
  ((97 <=? n) && (n <=? 122)) || ((48 <=? n) && (n <=? 57))
  || existsb (Ascii.eqb c) (list_ascii_of_string "_-.").

Definition name_pat : re := seq [ Many1 name_char; Eos ].

Definition is_selector_line (line : string) : bool :=
  let line := rstrip line in
  if startswith (lstrip line) "#" then false
  else matches sel_pat line.

Definition is_jinja_line (line : string) : bool :=
  let line := rstrip line in
  matches jinja_pat line.

(** [enumerate(lines)], counting from [i] *)
Fixpoint enumerate_from {A} (i : nat) (l : list A) : list (nat * A) :=
  match l with
  | [] => []
  | x :: l' => (i, x) :: enumerate_from (S i) l'
  end.

Definition enumerate {A} (l : list A) : list (nat * A) := enumerate_from 0 l.

(** The generators [selector_lines] and [jinja_lines]: the pairs
    [(line, i)] they yield, in order. *)
Definition selector_lines (lines : list string) : list (string * nat) :=
  flat_map (fun '(i, line) => if is_selector_line line then [(line, i)] else [])
           (enumerate lines).

Definition jinja_lines (lines : list string) : list (string * nat) :=
  flat_map (fun '(i, line) => if is_jinja_line line then [(line, i)] else [])
           (enumerate lines).

(** ** Values, exceptions and findings *)

(** A parsed YAML value.  A float is kept as the text [str] prints for
    it; the keys of a mapping are text, in document order. *)
#[warnings="-register-all"]
Inductive value : Type :=
| VNone
| VBool (b : bool)
| VInt (z : Z)
| VFloat (text : string)
| VStr (s : string)
| VList (l : list value)
| VMap (m : list (string * value)).

Definition dict : Type := list (string * value).

Inductive exn : Type :=
| AttributeError
| TypeError
| KeyError
| ValueError
| IOError (msg : string)            (* raised by the module itself *)
| OpenFailed (path : string)        (* what [io.open] raises *)
| RuntimeError (msg : string)
| UnknownObjectException
| LoadFailed (what : string)        (* a failure of the renderer or the parser *)
| InvalidReference.                 (* model only: a reference to no object *)

Record findings : Type := { lints : list string; hints : list string }.

Definition no_findings : findings := {| lints := []; hints := [] |}.

Definition join_findings (a b : findings) : findings :=
  {| lints := lints a ++ lints b; hints := hints a ++ hints b |}.

(** The result of a block of rule code: a value and the findings the
    block appended, or an exception. *)
Inductive W (A : Type) : Type :=
| WOk (a : A) (f : findings)
| WRaise (e : exn).
Arguments WOk {A} a f.
Arguments WRaise {A} e.

#[global] Instance W_ret : MRet W := fun A a => WOk a no_findings.
#[global] Instance W_bind : MBind W := fun A B k m =>
  match m with
  | WOk a f =>
      match k a with
      | WOk b g => WOk b (join_findings f g)
      | WRaise e => WRaise e
      end
  | WRaise e => WRaise e
  end.

Definition raise {A} (e : exn) : W A := WRaise e.
Definition tell_lint (msg : string) : W unit :=
  WOk tt {| lints := [msg]; hints := [] |}.
Definition tell_hint (msg : string) : W unit :=
  WOk tt {| lints := []; hints := [msg] |}.
(** [hints.extend(l)] *)
Definition tell_hints (l : list string) : W unit :=
  WOk tt {| lints := []; hints := l |}.

Fixpoint for_ {A} (l : list A) (body : A -> W unit) : W unit :=
  match l with
  | [] => mret tt
  | x :: l' => body x ;; for_ l' body
  end.

Definition when (b : bool) (c : W unit) : W unit := if b then c else mret tt.

(** ** Python operations on values *)

Fixpoint dict_get (d : dict) (k : string) : option value :=
  match d with
  | [] => None
  | (k', v) :: d' => if String.eqb k' k then Some v else dict_get d' k
  end.

Definition dict_keys (d : dict) : list string := map fst d.

Definition mem (x : string) (l : list string) : bool := existsb (String.eqb x) l.

(** [parent.get(name, default)] *)
Definition py_get (parent : value) (name : string) (dflt : value) : W value :=
  match parent with
  | VMap m => mret (default dflt (dict_get m name))
  | _ => raise AttributeError
  end.

(** [parent[name]] *)
Definition py_getitem (parent : value) (name : string) : W value :=
  match parent with
  | VMap m =>
      match dict_get m name with
      | Some v => mret v
      | None => raise KeyError
      end
  | _ => raise TypeError
  end.

(** [parent.keys()] *)
Definition py_keys (parent : value) : W (list string) :=
  match parent with
  | VMap m => mret (dict_keys m)
  | _ => raise AttributeError
  end.

(** Truth value of an object. *)
Definition truthy (v : value) : bool :=
  match v with
  | VNone => false
  | VBool b => b
  | VInt z => negb (Z.eqb z 0)
  | VFloat t => negb (String.eqb t "0.0" || String.eqb t "-0.0")
  | VStr s => negb (String.eqb s "")
  | VList l => match l with [] => false | _ => true end
  | VMap m => match m with [] => false | _ => true end
  end.

Definition is_none (v : value) : bool :=
  match v with VNone => true | _ => false end.

(** [isinstance(v, Mapping)] *)
Definition is_mapping (v : value) : bool :=
  match v with VMap _ => true | _ => false end.

(** [isinstance(v, str_type)] *)
Definition is_str (v : value) : bool :=
  match v with VStr _ => true | _ => false end.

(** [isinstance(v, Sequence)]: lists and text. *)
Definition is_sequence (v : value) : bool :=
  match v with VList _ | VStr _ => true | _ => false end.

(** [v == s] for a text [s] *)
Definition eq_str (s : string) (v : value) : bool :=
  match v with VStr t => String.eqb t s | _ => false end.

(** [v in l] for a list (or set) of texts [l] *)
Definition in_strs (l : list string) (v : value) : bool :=
  match v with VStr t => mem t l | _ => false end.

(** [v in s] for a set of texts [s]: the object is hashed first, and a
    list or a mapping cannot be hashed. *)
Definition py_in_set (s : list string) (v : value) : W bool :=
  match v with
  | VList _ | VMap _ => raise TypeError
  | _ => mret (in_strs s v)
  end.

(** [v not in s] *)
Definition py_not_in_set (s : list string) (v : value) : W bool :=
  known ← py_in_set s v; mret (negb known).

(** [a and b], where [b] is looked at only when [a] holds. *)
Definition and_then (a : bool) (b : W bool) : W bool :=
  if a then b else mret false.

Definition chars (s : string) : list value :=
  map (fun c => VStr (String c "")) (list_ascii_of_string s).

(** What [for x in v] goes through. *)
Definition py_iter (v : value) : W (list value) :=
  match v with
  | VMap m => mret (map VStr (dict_keys m))
  | VList l => mret l
  | VStr s => mret (chars s)
  | _ => raise TypeError
  end.

(** [needle in v] for a text [needle] *)
Definition py_in (needle : string) (v : value) : W bool :=
  match v with
  | VStr s => mret (contains needle s)
  | VList l => mret (existsb (eq_str needle) l)
  | VMap m => mret (mem needle (dict_keys m))
  | _ => raise TypeError
  end.

(** [v.lower()], [v.strip()] *)
Definition py_lower (v : value) : W string :=
  match v with VStr s => mret (lower s) | _ => raise AttributeError end.

Definition py_strip (v : value) : W string :=
  match v with VStr s => mret (strip s) | _ => raise AttributeError end.

(** ** The collaborators

    What the module imports or reaches through the operating system:
    conda-build's field table and validators, the file system, the
    process environment, the GitHub client, the template renderer and
    the YAML loader, and the names and printed forms Python gives to
    objects. *)

Inductive lookup : Type :=
| Found
| Unknown                       (* [github.UnknownObjectException] *)
| Failed (e : exn).

Record Env : Type := {
  type_name : value -> string;            (* [type(v).__name__] *)
  type_module : value -> string;          (* [type(v).__module__] *)
  py_repr : value -> string;              (* [str] of a list, mapping or float *)
  cbfields : list (string * list string); (* [conda_build.metadata.FIELDS] *)
  ensure_valid_license_family : dict -> option exn;
  VersionOrder : string -> option exn;
  path_exists : string -> bool;           (* [os.path.exists] *)
  read_text : string -> option string;    (* [io.open(p).read()], newlines translated *)
  abspath : string -> string;             (* [os.path.abspath] *)
  environ : string -> option string;      (* [os.environ] *)
  gh_get_user : value -> lookup;
  gh_get_repo : string -> string -> lookup;
  gh_get_dir_contents : string -> string -> string -> lookup;
  render_meta_yaml : string -> option string;
                                          (* [conda_smithy.utils.render_meta_yaml];
                                             [None] when it raises *)
  yaml_load : string -> option value      (* [ruamel.yaml.load] with the round-trip
                                             loader; [None] when it raises *)
}.

Definition EXPECTED_SECTION_ORDER : list string :=
  ["package"; "source"; "build"; "requirements";
   "test"; "app"; "outputs"; "about"; "extra"].

Definition REQUIREMENTS_ORDER : list string := ["build"; "host"; "run"].

Definition TEST_KEYS : list string := ["imports"; "commands"].
Definition TEST_FILES : list string :=
  ["run_test.py"; "run_test.sh"; "run_test.bat"; "run_test.pl"].

(** [l.index(x)] *)
Fixpoint index_of (x : string) (l : list string) : option nat :=
  match l with
  | [] => None
  | y :: l' => if String.eqb y x then Some 0 else S <$> index_of x l'
  end.

Definition py_index (l : list string) (x : string) : W nat :=
  match index_of x l with
  | Some i => mret i
  | None => raise ValueError
  end.

(** [sorted(l, key=...)] once the keys are computed: a stable sort of
    the pairs (key, element) by key. *)
Fixpoint insert_by_key (x : nat * string) (l : list (nat * string))
    : list (nat * string) :=
  match l with
  | [] => [x]
  | y :: l' => if fst x <=? fst y then x :: y :: l'
               else y :: insert_by_key x l'
  end.

Definition sort_by_key (l : list (nat * string)) : list (nat * string) :=
  fold_right insert_by_key [] l.

Fixpoint keyed (order : list string) (l : list string) : W (list (nat * string)) :=
  match l with
  | [] => mret []
  | x :: l' =>
      i ← py_index order x;
      r ← keyed order l';
      mret ((i, x) :: r)
  end.

(** [sorted(l, key=order.index)] *)
Definition sorted_by_index (order : list string) (l : list string)
    : W (list string) :=
  ks ← keyed order l;
  mret (map snd (sort_by_key ks)).

Definition list_eqb (a b : list string) : bool :=
  bool_decide (a = b).

(** ** The rules *)

Section Linter.

Context (E : Env).

(** [str(v)] and ['{}'.format(v)] *)
Definition py_str (v : value) : string :=
  match v with
  | VStr s => s
  | VNone => "None"
  | VBool true => "True"
  | VBool false => "False"
  | VInt z => of_Z z
  | _ => py_repr E v
  end.

(** [FIELDS]: conda-build's table, with [recipe-maintainers] added to
    the fields of [extra] (and [extra] added when it is not there). *)
Fixpoint add_extra_field (t : list (string * list string))
    : list (string * list string) :=
  match t with
  | [] => [("extra", ["recipe-maintainers"])]
  | (k, fs) :: t' =>
      if String.eqb k "extra"
      then (k, if mem "recipe-maintainers" fs then fs
               else fs ++ ["recipe-maintainers"]) :: t'
      else (k, fs) :: add_extra_field t'
  end.

Definition FIELDS : list (string * list string) := add_extra_field (cbfields E).

(** [FIELDS.get(section, [])] *)
Fixpoint fields_get (t : list (string * list string)) (k : string) : list string :=
  match t with
  | [] => []
  | (k', fs) :: t' => if String.eqb k' k then fs else fields_get t' k
  end.

Definition section_list_msg (name : string) (allow_single : bool) (section : value)
    : string :=
  "The " +:+ dq +:+ name +:+ dq +:+ " section was expected to be a "
  +:+ (if allow_single then "dictionary or a " else "")
  +:+ "list, but got a " +:+ type_module E section +:+ "." +:+ type_name E section
  +:+ ".".

Definition section_dict_msg (name : string) (section : value) : string :=
  "The " +:+ dq +:+ name +:+ dq
  +:+ " section was expected to be a dictionary, but got a "
  +:+ type_name E section +:+ ".".

Definition get_list_section (parent : value) (name : string) (allow_single : bool)
    : W value :=
  section ← py_get parent name (VList []);
  if allow_single && is_mapping section then mret (VList [section])
  else if is_sequence section && negb (is_str section) then mret section
  else tell_lint (section_list_msg name allow_single section) ;;
       mret (VList [VMap []]).

Definition get_section (parent : value) (name : string) : W value :=
  if String.eqb name "source" then get_list_section parent name true
  else if String.eqb name "outputs" then get_list_section parent name false
  else
    section ← py_get parent name (VMap []);
    if negb (is_mapping section)
    then tell_lint (section_dict_msg name section) ;; mret (VMap [])
    else mret section.

Definition quoted (s : string) : string := "'" +:+ s +:+ "'".

Definition section_order_msg (section_order_sorted : list string) : string :=
  "The top level meta keys are in an unexpected order. Expecting "
  +:+ ("[" +:+ join ", " (map quoted section_order_sorted) +:+ "]") +:+ ".".

Definition lint_section_order (major_sections : list string) : W unit :=
  section_order_sorted ← sorted_by_index EXPECTED_SECTION_ORDER major_sections;
  when (negb (list_eqb major_sections section_order_sorted))
       (tell_lint (section_order_msg section_order_sorted)).

Definition about_item_msg (about_item : string) : string :=
  "The " +:+ about_item +:+ " item is expected in the about section.".

Definition lint_about_contents (about_section : value) : W unit :=
  for_ ["home"; "license"; "summary"] (fun about_item =>
    v ← py_get about_section about_item (VStr "");
    when (negb (truthy v)) (tell_lint (about_item_msg about_item))).

(** The records of the sections read at the top of [lintify]. *)
Record sections : Type := {
  sources_section : value;
  build_section : value;
  requirements_section : value;
  test_section : value;
  about_section : value;
  extra_section : value;
  package_section : value;
  outputs_section : value
}.

Definition get_sections (meta : value) : W sections :=
  so ← get_section meta "source";
  bu ← get_section meta "build";
  re ← get_section meta "requirements";
  te ← get_section meta "test";
  ab ← get_section meta "about";
  ex ← get_section meta "extra";
  pa ← get_section meta "package";
  ou ← get_section meta "outputs";
  mret {| sources_section := so; build_section := bu;
          requirements_section := re; test_section := te;
          about_section := ab; extra_section := ex;
          package_section := pa; outputs_section := ou |}.

Definition unexpected_key_msg (section : string) : string :=
  "The top level meta key " +:+ section +:+ " is unexpected".

(** 3a, 3b: the maintainers *)
Definition maintainers_msg : string :=
  "The recipe could do with some maintainers listed in "
  +:+ "the `extra/recipe-maintainers` section.".
Definition maintainers_list_msg : string := "Recipe maintainers should be a json list.".

Definition lint_maintainers (extra_section : value) : W unit :=
  m ← py_get extra_section "recipe-maintainers" (VList []);
  when (negb (truthy m)) (tell_lint maintainers_msg) ;;
  m' ← py_get extra_section "recipe-maintainers" (VList []);
  when (negb (is_sequence m' && negb (is_str m'))) (tell_lint maintainers_list_msg).

(** 4: the recipe should have some tests *)
Definition tests_msg : string := "The recipe must have some tests.".
Definition no_test_hint (name : value) : string :=
  "It looks like the '" +:+ py_str name +:+ "' output doesn't "
  +:+ "have any tests.".

(** [any(key in TEST_KEYS for key in section)] *)
Definition any_test_key (section : value) : W bool :=
  keys ← py_iter section;
  mret (existsb (in_strs TEST_KEYS) keys).

(** The loop over the outputs, with [has_outputs_test] and
    [no_test_hints] as they stand when an output is reached. *)
Fixpoint scan_outputs (outs : list value) (has_outputs_test : bool)
    (no_test_hints : list string) : W (bool * list string) :=
  match outs with
  | [] => mret (has_outputs_test, no_test_hints)
  | out :: outs' =>
      test_out ← get_section out "test";
      t ← any_test_key test_out;
      if t : bool then scan_outputs outs' true no_test_hints
      else
        name ← py_get out "name" (VStr "???");
        scan_outputs outs' has_outputs_test (no_test_hints ++ [no_test_hint name])
  end.

Definition a_test_file_exists (recipe_dir : option string) : bool :=
  match recipe_dir with
  | Some d => existsb (fun test_file => path_exists E (path_join d test_file)) TEST_FILES
  | None => false
  end.

Definition lint_tests (recipe_dir : option string)
    (test_section outputs_section : value) : W unit :=
  t ← any_test_key test_section;
  when (negb t)
    (when (negb (a_test_file_exists recipe_dir))
       (r ← (if truthy outputs_section
             then outs ← py_iter outputs_section; scan_outputs outs false []
             else mret (false, @nil string));
        if fst r : bool then tell_hints (snd r) else tell_lint tests_msg)).

(** 5, 10: the license text *)
Definition license_unknown_msg : string := "The recipe license cannot be unknown.".
Definition license_word_msg : string :=
  "The recipe `license` should not include the word " +:+ dq +:+ "License" +:+ dq +:+ ".".

Definition lint_license_unknown (about_section : value) : W unit :=
  v ← py_get about_section "license" (VStr "");
  license ← py_lower v;
  when (String.eqb "unknown" (strip license)) (tell_lint license_unknown_msg).

Definition lint_license_word (about_section : value) : W unit :=
  v ← py_get about_section "license" (VStr "");
  license ← py_lower v;
  when (contains "license" (lower license)) (tell_lint license_word_msg).

(** The recipe file: [os.path.join(recipe_dir or '', 'meta.yaml')] *)
Definition meta_fname (recipe_dir : option string) : string :=
  path_join (default "" recipe_dir) "meta.yaml".

Definition open_text (path : string) : W string :=
  match read_text E path with
  | Some text => mret text
  | None => raise (OpenFailed path)
  end.

(** [recipe_dir is not None and os.path.exists(meta_fname)] *)
Definition recipe_file_at (recipe_dir : option string) : bool :=
  match recipe_dir with
  | Some _ => path_exists E (meta_fname recipe_dir)
  | None => false
  end.

(** 6: selectors in a tidy form *)
Definition bad_selectors (lines : list string) : list (string * nat) :=
  List.filter (fun '(selector_line, line_number) =>
            negb (matches good_selectors_pat selector_line))
         (selector_lines lines).

Definition selectors_msg (bad_lines : list nat) : string :=
  "Selectors are suggested to take a "
  +:+ "``<two spaces>#<one space>[<expression>]`` form."
  +:+ " See lines " +:+ repr_nats bad_lines.

Definition lint_selectors (recipe_dir : option string) : W unit :=
  when (recipe_file_at recipe_dir)
    (text ← open_text (meta_fname recipe_dir);
     let bad := bad_selectors (file_lines text) in
     when (match bad with [] => false | _ => true end)
          (tell_lint (selectors_msg (map snd bad)))).

(** 7: the build number *)
Definition build_number_msg : string :=
  "The recipe must have a `build/number` section.".

Definition lint_build_number (build_section : value) : W unit :=
  v ← py_get build_section "number" VNone;
  when (is_none v) (tell_lint build_number_msg).

(** 8: the order of the requirements *)
Definition requirements_order_msg (seen_requirements : list string) : string :=
  "The `requirements/` sections should be defined "
  +:+ "in the following order: " +:+ join ", " REQUIREMENTS_ORDER
  +:+ "; instead saw: " +:+ join ", " seen_requirements +:+ ".".

Definition lint_requirements_order (requirements_section : value) : W unit :=
  ks ← py_keys requirements_section;   (* iterating a mapping: its keys *)
  let seen_requirements := List.filter (fun k => mem k REQUIREMENTS_ORDER) ks in
  requirements_order_sorted ← sorted_by_index REQUIREMENTS_ORDER seen_requirements;
  when (negb (list_eqb seen_requirements requirements_order_sorted))
       (tell_lint (requirements_order_msg seen_requirements)).

(** 9: a downloaded file has a hash *)
Definition checksum_msg : string :=
  "When defining a source/url please add a sha256, sha1 "
  +:+ "or md5 checksum (sha256 preferably).".

Definition lint_checksums (sources_section : value) : W unit :=
  srcs ← py_iter sources_section;
  for_ srcs (fun source_section =>
    u ← py_in "url" source_section;
    if u : bool then
      ks ← py_keys source_section;
      when (negb (existsb (fun k => mem k ks) ["sha1"; "sha256"; "md5"]))
           (tell_lint checksum_msg)
    else mret tt).

(** 11: one empty line at the end of the file *)
Fixpoint takewhile {A} (p : A -> bool) (l : list A) : list A :=
  match l with
  | x :: l' => if p x then x :: takewhile p l' else []
  | [] => []
  end.

Definition end_empty_lines_count (text : string) : nat :=
  let lines := split_nl text in
  length (takewhile (fun x => String.eqb x "") (rev lines)).

Definition too_many_lines_msg (n : nat) : string :=
  "There are " +:+ of_nat n +:+ " too many lines.  "
  +:+ "There should be one empty line at the end of the "
  +:+ "file.".
Definition too_few_lines_msg : string :=
  "There are too few lines.  There should be one empty "
  +:+ "line at the end of the file.".

Definition lint_end_of_file (recipe_dir : option string) : W unit :=
  when (recipe_file_at recipe_dir)
    (text ← open_text (meta_fname recipe_dir);
     let n := end_empty_lines_count text in
     if 1 <? n then tell_lint (too_many_lines_msg (n - 1))
     else when (n <? 1) (tell_lint too_few_lines_msg)).

(** 12: the license family, by conda-build *)
Definition lint_license_family (meta : dict) : W unit :=
  match ensure_valid_license_family E meta with
  | None => mret tt
  | Some (RuntimeError msg) => tell_lint msg
  | Some e => raise e
  end.

(** 13: the recipe name *)
Definition recipe_name_msg : string :=
  "Recipe name has invalid characters. only lowercase alpha, numeric, "
  +:+ "underscores, hyphens and dots allowed".

Definition lint_recipe_name (package_section : value) : W unit :=
  v ← py_get package_section "name" (VStr "");
  recipe_name ← py_strip v;
  when (negb (matches name_pat recipe_name)) (tell_lint recipe_name_msg).

(** 14: the conda-forge rules *)
Definition feedstock_exists_msg : string :=
  "Feedstock with the same name exists in conda-forge".
Definition bioconda_hint : string :=
  "Recipe with the same name exists in bioconda: "
  +:+ "please discuss with @conda-forge/bioconda-recipes.".
Definition maintainer_msg (maintainer : value) : string :=
  "Recipe maintainer " +:+ dq +:+ py_str maintainer +:+ dq +:+ " does not exist".
Definition example_dir_msg : string :=
  "Please move the recipe out of the example dir and "
  +:+ "into its own dir.".

(** A call of the GitHub client outside any [try]. *)
Definition must_find (r : lookup) : W unit :=
  match r with
  | Found => mret tt
  | Unknown => raise UnknownObjectException
  | Failed e => raise e
  end.

(** A call inside [try: ... except github.UnknownObjectException]. *)
Definition try_find (r : lookup) : W bool :=
  match r with
  | Found => mret true
  | Unknown => mret false
  | Failed e => raise e
  end.

Definition run_conda_forge_specific (meta : value) (recipe_dir : option string)
    : W unit :=
  match environ E "GH_TOKEN" with
  | None => raise KeyError
  | Some _ =>
      package_section ← get_section meta "package";
      extra_section ← get_section meta "extra";
      let recipe_dirname :=
        match recipe_dir with
        | Some d => if String.eqb d "" then "recipe" else basename d
        | None => "recipe"
        end in
      v ← py_get package_section "name" (VStr "");
      recipe_name ← py_strip v;
      let is_staged_recipes := negb (String.eqb recipe_dirname "recipe") in
      when (is_staged_recipes && negb (String.eqb recipe_name ""))
        (let org := default "conda-forge" (environ E "GH_ORG") in
         must_find (gh_get_user E (VStr org)) ;;
         feedstock_exists ← try_find (gh_get_repo E org (recipe_name +:+ "-feedstock"));
         when feedstock_exists (tell_lint feedstock_exists_msg) ;;
         must_find (gh_get_user E (VStr "bioconda")) ;;
         must_find (gh_get_repo E "bioconda" "bioconda-recipes") ;;
         in_bioconda ← try_find (gh_get_dir_contents E "bioconda" "bioconda-recipes"
                                   ("recipes/" +:+ recipe_name));
         when in_bioconda (tell_hint bioconda_hint)) ;;
      maintainers ← py_get extra_section "recipe-maintainers" (VList []);
      ms ← py_iter maintainers;
      for_ ms (fun maintainer =>
        team ← py_in "/" maintainer;
        if team : bool then mret tt
        else
          known ← try_find (gh_get_user E maintainer);
          when (negb known) (tell_lint (maintainer_msg maintainer))) ;;
      when (match recipe_dir with
            | Some d => contains "recipes/example/" d
            | None => false
            end)
           (tell_lint example_dir_msg)
  end.

(** 15, 21: legacy patterns in [requirements/build] *)
Definition numpy_msg : string :=
  "Using pinned numpy packages is a deprecated pattern.  Consider "
  +:+ "using the method outlined "
  +:+ "[here](https://conda-forge.org/docs/meta.html#building-against-numpy).".
Definition toolchain_msg : string :=
  "Using toolchain directly in this manner is deprecated.  Consider "
  +:+ "using the compilers outlined "
  +:+ "[here](https://conda-forge.org/docs/meta.html#compilers).".

(** [build_reqs and (token in build_reqs)] *)
Definition build_reqs_has (build_reqs : value) (token : string) : W bool :=
  if truthy build_reqs then py_in token build_reqs else mret false.

Definition lint_legacy (build_reqs : value) (token msg : string) : W unit :=
  b ← build_reqs_has build_reqs token;
  when b (tell_lint msg).

(** 16: the names of the subsections *)
Definition subsection_msg (section : string) (subsection : value) : string :=
  "The " +:+ section +:+ " section contained an unexpected "
  +:+ "subsection name. " +:+ py_str subsection +:+ " is not a valid subsection"
  +:+ " name.".

Definition lint_subsections (meta : value) (major_sections : list string) : W unit :=
  for_ major_sections (fun section =>
    let expected_subsections := fields_get FIELDS section in
    match expected_subsections with
    | [] => mret tt
    | _ =>
        sec ← get_section meta section;
        subs ← py_iter sec;
        for_ subs (fun subsection =>
          unexpected ←
            and_then (negb (String.eqb section "source")
                      && negb (String.eqb section "outputs"))
                     (py_not_in_set expected_subsections subsection);
          if unexpected : bool
          then tell_lint (subsection_msg section subsection)
          else if String.eqb section "source" || String.eqb section "outputs"
          then
            items ← py_iter subsection;
            for_ items (fun source_subsection =>
              unexpected ← py_not_in_set expected_subsections source_subsection;
              when unexpected
                   (tell_lint (subsection_msg section source_subsection)))
          else mret tt)
    end).

(** 17: noarch and selectors *)
Definition noarch_msg (noarch : value) : string :=
  "`noarch` packages can't have selectors. If "
  +:+ "the selectors are necessary, please remove "
  +:+ "`noarch: " +:+ py_str noarch +:+ "`.".

(** [line[:-len(line.lstrip())]] *)
Definition leading (line : string) : string :=
  let n := String.length (lstrip line) in
  if n =? 0 then "" else take (String.length line - n) line.

(** The loop over the lines of the file, with [in_requirements] and
    [requirements_spacing] as they stand when a line is reached; [true]
    when the loop reaches one of its two [lints.append ... break]. *)
Fixpoint noarch_scan (lines : list string) (in_requirements : bool)
    (requirements_spacing : string) : bool :=
  match lines with
  | [] => false
  | line :: rest =>
      let line_s := strip line in
      if String.eqb line_s "requirements:"
      then noarch_scan rest true (leading line)
      else if startswith line_s "skip:" && is_selector_line line then true
      else if in_requirements then
        if String.eqb requirements_spacing (leading line)
        then noarch_scan rest false requirements_spacing
        else if is_selector_line line then true
        else noarch_scan rest in_requirements requirements_spacing
      else noarch_scan rest in_requirements requirements_spacing
  end.

Definition lint_noarch (recipe_dir : option string) (build_section : value) : W unit :=
  noarch ← py_get build_section "noarch" VNone;
  when (negb (is_none noarch) && path_exists E (meta_fname recipe_dir))
    (text ← open_text (meta_fname recipe_dir);
     when (noarch_scan (file_lines text) false "")
          (noarch' ← py_getitem build_section "noarch";
           tell_lint (noarch_msg noarch'))).

(** 19: the version *)
Definition version_msg (ver : string) : string :=
  "Package version " +:+ ver +:+ " doesn't match conda spec".

Definition lint_version (package_section : value) : W unit :=
  v ← py_get package_section "version" VNone;
  when (negb (is_none v))
    (v' ← py_get package_section "version" VNone;
     let ver := py_str v' in
     match VersionOrder E ver with
     | Some _ => tell_lint (version_msg ver)
     | None => mret tt
     end).

(** 20: Jinja2 variable definitions in a tidy form *)
Definition bad_jinja (lines : list string) : list (string * nat) :=
  List.filter (fun '(jinja_line, line_number) =>
            negb (matches good_jinja_pat jinja_line))
         (jinja_lines lines).

Definition jinja_msg (bad_lines : list nat) : string :=
  "Jinja2 variable definitions are suggested to "
  +:+ "take a ``{%<one space>set<one space>"
  +:+ "<variable name><one space>=<one space>"
  +:+ "<expression><one space>%}`` form. See lines "
  +:+ repr_nats bad_lines.

Definition lint_jinja (recipe_dir : option string) : W unit :=
  when (recipe_file_at recipe_dir)
    (text ← open_text (meta_fname recipe_dir);
     let bad := bad_jinja (file_lines text) in
     when (match bad with [] => false | _ => true end)
          (tell_lint (jinja_msg (map snd bad)))).

(** hint 1: suggest pip *)
Definition pip_hint : string :=
  "Whenever possible python packages should use pip. "
  +:+ "See https://conda-forge.org/docs/meta.html#use-pip".

Definition hint_pip (build_section : value) : W unit :=
  has ← py_in "script" build_section;
  when has
    (scripts ← py_getitem build_section "script";
     let scripts := if is_str scripts then VList [scripts] else scripts in
     items ← py_iter scripts;
     for_ items (fun script =>
       b ← py_in "python setup.py install" script;
       when b (tell_hint pip_hint))).

(** The body of [lintify] from rule 1 on: [meta] is the document,
    [major_sections] its keys once the unexpected ones are removed. *)
Definition lintify_rules (meta : dict) (major_sections : list string)
    (s : sections) (recipe_dir : option string) (conda_forge : bool) : W unit :=
  lint_section_order major_sections ;;
  lint_about_contents (about_section s) ;;
  lint_maintainers (extra_section s) ;;
  lint_tests recipe_dir (test_section s) (outputs_section s) ;;
  lint_license_unknown (about_section s) ;;
  lint_selectors recipe_dir ;;
  lint_build_number (build_section s) ;;
  lint_requirements_order (requirements_section s) ;;
  lint_checksums (sources_section s) ;;
  lint_license_word (about_section s) ;;
  lint_end_of_file recipe_dir ;;
  lint_license_family meta ;;
  lint_recipe_name (package_section s) ;;
  when conda_forge (run_conda_forge_specific (VMap meta) recipe_dir) ;;
  build_reqs ← py_get (requirements_section s) "build" VNone;
  lint_legacy build_reqs "numpy x.x" numpy_msg ;;
  lint_subsections (VMap meta) major_sections ;;
  lint_noarch recipe_dir (build_section s) ;;
  lint_version (package_section s) ;;
  lint_jinja recipe_dir ;;
  lint_legacy build_reqs "toolchain" toolchain_msg ;;
  hint_pip (build_section s).

End Linter.

(** ** The store

    The objects [lintify] is handed or allocates: the document, and the
    lists it builds and updates in place.  A variable holds a location;
    two variables may hold the same one. *)

Definition loc : Type := positive.

Inductive obj : Type :=
| OVal (v : value)             (* a parsed document *)
| OList (l : list string).     (* a list of keys *)

Abbreviation store := (gmap loc obj).

(** The result of code that also works on the store. *)
Inductive R (A : Type) : Type :=
| ROk (a : A) (f : findings) (st : store)
| RRaise (e : exn).
Arguments ROk {A} a f st.
Arguments RRaise {A} e.

Definition M (A : Type) : Type := store -> R A.

#[global] Instance M_ret : MRet M := fun A a st => ROk a no_findings st.
#[global] Instance M_bind : MBind M := fun A B k m st =>
  match m st with
  | ROk a f st' =>
      match k a st' with
      | ROk b g st'' => ROk b (join_findings f g) st''
      | RRaise e => RRaise e
      end
  | RRaise e => RRaise e
  end.

(** A block that does not touch the store. *)
Definition lift {A} (w : W A) : M A := fun st =>
  match w with
  | WOk a f => ROk a f st
  | WRaise e => RRaise e
  end.

(** The document a variable refers to; [meta.keys()] and [meta.get]
    need a mapping. *)
Definition read_doc (meta : loc) : M dict := fun st =>
  match st !! meta with
  | Some (OVal (VMap d)) => ROk d no_findings st
  | Some _ => RRaise AttributeError
  | None => RRaise InvalidReference
  end.

(** A location no object of the store lives at. *)
Definition fresh_loc (st : store) : loc := fresh (dom (D := gset loc) st).

(** A new list object: [list(...)], [[]]. *)
Definition alloc_list (l : list string) : M loc := fun st =>
  let r := fresh_loc st in
  ROk r no_findings (<[r := OList l]> st).

Definition read_list (r : loc) : M (list string) := fun st =>
  match st !! r with
  | Some (OList l) => ROk l no_findings st
  | Some _ => RRaise TypeError
  | None => RRaise InvalidReference
  end.

(** [r.append(x)] *)
Definition list_append (r : loc) (x : string) : M unit := fun st =>
  match st !! r with
  | Some (OList l) => ROk tt no_findings (<[r := OList (l ++ [x])]> st)
  | Some _ => RRaise AttributeError
  | None => RRaise InvalidReference
  end.

(** [l.remove(x)] takes the first [x] out. *)
Fixpoint remove_first (x : string) (l : list string) : option (list string) :=
  match l with
  | [] => None
  | y :: l' => if String.eqb y x then Some l'
               else (fun r => y :: r) <$> remove_first x l'
  end.

(** [r.remove(x)] *)
Definition list_remove (r : loc) (x : string) : M unit := fun st =>
  match st !! r with
  | Some (OList l) =>
      match remove_first x l with
      | Some l' => ROk tt no_findings (<[r := OList l']> st)
      | None => RRaise ValueError
      end
  | Some _ => RRaise AttributeError
  | None => RRaise InvalidReference
  end.

Fixpoint forM_ {A} (l : list A) (body : A -> M unit) : M unit :=
  match l with
  | [] => mret tt
  | x :: l' => body x ;; forM_ l' body
  end.

Section Lintify.

Context (E : Env).

(** [lintify(meta, recipe_dir, conda_forge)]; the pair it returns is the
    findings of the result. *)
Definition lintify (meta : loc) (recipe_dir : option string) (conda_forge : bool)
    : M unit :=
  d ← read_doc meta;
  major_sections ← alloc_list (dict_keys d);
  d ← read_doc meta;
  s ← lift (get_sections E (VMap d));
  (* 0: top level keys should be expected *)
  unexpected_sections ← alloc_list [];
  ks ← read_list major_sections;
  forM_ ks (fun section =>
    if negb (mem section EXPECTED_SECTION_ORDER)
    then lift (tell_lint (unexpected_key_msg section)) ;;
         list_append unexpected_sections section
    else mret tt) ;;
  us ← read_list unexpected_sections;
  forM_ us (fun section => list_remove major_sections section) ;;
  ms ← read_list major_sections;
  d ← read_doc meta;
  lift (lintify_rules E d ms s recipe_dir conda_forge).

Inductive main_result : Type :=
| Results (results : list string)
| ResultsHints (results hints : list string).

Definition missing_recipe : exn := IOError "Feedstock has no recipe/meta.yaml.".

(** [main(recipe_dir, conda_forge, return_hints)] *)
Definition main (recipe_dir : string) (conda_forge return_hints : bool)
    : M main_result := fun st =>
  let recipe_dir := abspath E recipe_dir in
  let recipe_meta := path_join recipe_dir "meta.yaml" in
  if negb (path_exists E recipe_dir) then RRaise missing_recipe
  else
    match read_text E recipe_meta with
    | None => RRaise (OpenFailed recipe_meta)
    | Some text =>
        match render_meta_yaml E text with
        | None => RRaise (LoadFailed "render_meta_yaml")
        | Some content =>
            match yaml_load E content with
            | None => RRaise (LoadFailed "ruamel.yaml.load")
            | Some doc =>
                let meta := fresh_loc st in
                match lintify meta (Some recipe_dir) conda_forge
                              (<[meta := OVal doc]> st) with
                | ROk _ f st' =>
                    ROk (if return_hints then ResultsHints (lints f) (hints f)
                         else Results (lints f)) no_findings st'
                | RRaise e => RRaise e
                end
            end
        end
    end.

End Lintify.

(** * Properties *)

(** ** Blocks of rule code *)

Lemma join_no_findings_l f : join_findings no_findings f = f.
Proof. by destruct f. Qed.

Lemma join_no_findings_r f : join_findings f no_findings = f.
Proof.
  destruct f as [l h]. unfold join_findings; simpl.
  by rewrite !app_nil_r.
Qed.

Lemma W_bind_ok {A B} (m : W A) (k : A -> W B) b f :
  m ≫= k = WOk b f <->
  exists a f1 f2, m = WOk a f1 /\ k a = WOk b f2 /\ f = join_findings f1 f2.
Proof.
  unfold mbind, W_bind. split.
  - destruct m as [a f1|e]; [|discriminate].
    destruct (k a) as [b' f2|e] eqn:Hk; [|discriminate].
    intros [= <- <-]. by exists a, f1, f2.
  - intros (a & f1 & f2 & -> & Hk & ->). by rewrite Hk.
Qed.

Lemma W_bind_WOk {A B} (m : W A) (k : A -> W B) a f :
  m = WOk a f ->
  m ≫= k = match k a with
           | WOk b g => WOk b (join_findings f g)
           | WRaise e => WRaise e
           end.
Proof. by intros ->. Qed.

Lemma W_bind_ext {A B} (m : W A) (k1 k2 : A -> W B) :
  (forall a, k1 a = k2 a) -> m ≫= k1 = m ≫= k2.
Proof. intros H. unfold mbind, W_bind. destruct m; [|done]. by rewrite H. Qed.

Lemma W_ret_bind {A B} (a : A) (k : A -> W B) : mret a ≫= k = k a.
Proof.
  unfold mbind, W_bind, mret, W_ret. destruct (k a); [|done].
  by rewrite join_no_findings_l.
Qed.

(** The two lists of a result. *)
Inductive chan : Type := Lints | Hints.

Definition pr (c : chan) (f : findings) : list string :=
  match c with Lints => lints f | Hints => hints f end.

Lemma pr_join c f g : pr c (join_findings f g) = pr c f ++ pr c g.
Proof. by destruct c. Qed.

(** [only c P w l]: when [w] returns, the findings it appended to the
    list [c] that satisfy [P] are exactly [l], in this order. *)
Definition only {A} (c : chan) (P : string -> bool) (w : W A) (l : list string)
    : Prop :=
  forall a f, w = WOk a f -> List.filter P (pr c f) = l.

Definition quiet {A} (c : chan) (P : string -> bool) (w : W A) : Prop :=
  only c P w [].

Lemma only_bind_l {A B} c P (m : W A) (k : A -> W B) l :
  only c P m l -> (forall a, quiet c P (k a)) -> only c P (m ≫= k) l.
Proof.
  intros Hm Hk b f (a & f1 & f2 & H1 & H2 & ->)%W_bind_ok.
  rewrite pr_join, List.filter_app, (Hm _ _ H1), (Hk _ _ _ H2).
  apply app_nil_r.
Qed.

Lemma only_bind_r {A B} c P (m : W A) (k : A -> W B) l :
  quiet c P m -> (forall a, only c P (k a) l) -> only c P (m ≫= k) l.
Proof.
  intros Hm Hk b f (a & f1 & f2 & H1 & H2 & ->)%W_bind_ok.
  by rewrite pr_join, List.filter_app, (Hm _ _ H1), (Hk _ _ _ H2).
Qed.

Lemma only_bind_val {A B} c P (m : W A) (k : A -> W B) a0 l :
  (forall a f, m = WOk a f -> a = a0) ->
  quiet c P m -> only c P (k a0) l -> only c P (m ≫= k) l.
Proof.
  intros Hv Hm Hk b f (a & f1 & f2 & H1 & H2 & ->)%W_bind_ok.
  rewrite (Hv _ _ H1) in H2.
  by rewrite pr_join, List.filter_app, (Hm _ _ H1), (Hk _ _ H2).
Qed.

Lemma quiet_bind {A B} c P (m : W A) (k : A -> W B) :
  quiet c P m -> (forall a, quiet c P (k a)) -> quiet c P (m ≫= k).
Proof. intros. by apply only_bind_l. Qed.

Lemma quiet_ret {A} c P (a : A) : quiet c P (mret a).
Proof. intros ? ? [= <- <-]. by destruct c. Qed.

Lemma quiet_raise {A} c P e : quiet c P (raise e : W A).
Proof. by intros ? ?. Qed.

(** ** Tags: how a message starts *)

Definition tagged (T : list string) (m : string) : bool :=
  existsb (fun t => has_prefix t m) T.

(** Two tags that no message can carry at once. *)
Definition apart (t t' : string) : bool :=
  negb (has_prefix t t') && negb (has_prefix t' t).

Lemma prefix_comparable t t' m :
  has_prefix t m = true -> has_prefix t' m = true ->
  has_prefix t t' = true \/ has_prefix t' t = true.
Proof.
  revert t' m. induction t as [|c t IH]; intros t' m; [by left|].
  destruct t' as [|c' t']; [by right|].
  destruct m as [|x m]; [discriminate|]. simpl.
  destruct (Ascii.eqb_spec c x) as [->|]; [|discriminate].
  destruct (Ascii.eqb_spec c' x) as [->|]; [|discriminate].
  rewrite Ascii.eqb_refl. simpl. apply IH.
Qed.

Lemma apart_filter t T l :
  forallb (apart t) T = true ->
  Forall (fun m => tagged T m = true) l ->
  List.filter (has_prefix t) l = [].
Proof.
  intros HT. induction 1 as [|m l Hm _ IH]; [done|].
  simpl. rewrite IH.
  destruct (has_prefix t m) eqn:Ht; [|done]. exfalso.
  unfold tagged in Hm. apply existsb_exists in Hm as (t' & Hin & Ht').
  rewrite forallb_forall in HT. specialize (HT _ Hin).
  unfold apart in HT. apply andb_prop in HT as [H1 H2].
  destruct (prefix_comparable _ _ _ Ht Ht') as [H|H]; rewrite H in *; discriminate.
Qed.

(** [emits TL TH w]: every lint [w] appends starts with a tag of [TL],
    every hint with a tag of [TH]. *)
Definition emits {A} (TL TH : list string) (w : W A) : Prop :=
  forall a f, w = WOk a f ->
    Forall (fun m => tagged TL m = true) (lints f) /\
    Forall (fun m => tagged TH m = true) (hints f).

Definition tags_of (c : chan) (TL TH : list string) : list string :=
  match c with Lints => TL | Hints => TH end.

Lemma emits_quiet {A} c t TL TH (w : W A) :
  emits TL TH w -> forallb (apart t) (tags_of c TL TH) = true ->
  quiet c (has_prefix t) w.
Proof.
  intros Hw HT a f Hf. destruct (Hw _ _ Hf) as [Hl Hh].
  destruct c; simpl in *; eapply apart_filter; eauto.
Qed.

Lemma emits_ret {A} TL TH (a : A) : emits TL TH (mret a).
Proof. intros ? ? [= <- <-]. by split. Qed.

Lemma emits_raise {A} TL TH e : emits TL TH (raise e : W A).
Proof. by intros ? ?. Qed.

Lemma emits_WRaise {A} TL TH e : emits TL TH (WRaise e : W A).
Proof. by intros ? ?. Qed.

Lemma emits_tell_lint TL TH msg :
  tagged TL msg = true -> emits TL TH (tell_lint msg).
Proof. intros H ? ? [= <- <-]. split; simpl; auto. Qed.

Lemma emits_tell_hint TL TH msg :
  tagged TH msg = true -> emits TL TH (tell_hint msg).
Proof. intros H ? ? [= <- <-]. split; simpl; auto. Qed.

Lemma emits_tell_hints TL TH l :
  Forall (fun m => tagged TH m = true) l -> emits TL TH (tell_hints l).
Proof. intros H ? ? [= <- <-]. split; simpl; auto. Qed.

Lemma emits_bind {A B} TL TH (m : W A) (k : A -> W B) :
  emits TL TH m -> (forall a, emits TL TH (k a)) -> emits TL TH (m ≫= k).
Proof.
  intros Hm Hk b f (a & f1 & f2 & H1 & H2 & ->)%W_bind_ok.
  destruct (Hm _ _ H1), (Hk _ _ _ H2). simpl.
  split; apply Forall_app; auto.
Qed.

Lemma emits_when TL TH (b : bool) (w : W unit) :
  emits TL TH w -> emits TL TH (when b w).
Proof. destruct b; simpl; auto using emits_ret. Qed.

Lemma emits_for {A} TL TH (l : list A) (body : A -> W unit) :
  (forall x, In x l -> emits TL TH (body x)) -> emits TL TH (for_ l body).
Proof.
  induction l as [|x l IH]; simpl; intros H; [apply emits_ret|].
  apply emits_bind; [apply H; by left|]. intros _. apply IH.
  intros y Hy. apply H. by right.
Qed.

Lemma tagged_mono T T' m :
  incl T T' -> tagged T m = true -> tagged T' m = true.
Proof.
  unfold tagged. rewrite !existsb_exists. intros Hi (t & Ht & Hp).
  exists t. split; auto.
Qed.

Lemma emits_mono {A} TL TH TL' TH' (w : W A) :
  incl TL TL' -> incl TH TH' -> emits TL TH w -> emits TL' TH' w.
Proof.
  intros Hl Hh Hw a f Hf. destruct (Hw _ _ Hf) as [H1 H2].
  split; eapply Forall_impl; eauto using tagged_mono.
Qed.

(** A block that appends nothing. *)
Definition silent {A} (w : W A) : Prop :=
  forall a f, w = WOk a f -> f = no_findings.

Lemma silent_emits {A} TL TH (w : W A) : silent w -> emits TL TH w.
Proof. intros H a f ->%H. by split. Qed.

Lemma silent_quiet {A} c P (w : W A) : silent w -> quiet c P w.
Proof. intros H a f ->%H. by destruct c. Qed.

Lemma silent_ret {A} (a : A) : silent (mret a).
Proof. by intros ? ? [= <- <-]. Qed.

Lemma silent_raise {A} e : silent (raise e : W A).
Proof. by intros ? ?. Qed.

Lemma silent_bind {A B} (m : W A) (k : A -> W B) :
  silent m -> (forall a, silent (k a)) -> silent (m ≫= k).
Proof.
  intros Hm Hk b f (a & f1 & f2 & H1 & H2 & ->)%W_bind_ok.
  by rewrite (Hm _ _ H1), (Hk _ _ _ H2).
Qed.

Ltac silent_tac :=
  repeat first
    [ apply silent_ret | apply silent_raise
    | apply silent_bind; [|intros ?]
    | match goal with
      | |- silent (match ?x with _ => _ end) => destruct x
      | |- silent (if ?x then _ else _) => destruct x
      end ].

Lemma silent_py_get parent name d : silent (py_get parent name d).
Proof. unfold py_get. silent_tac. Qed.

Lemma silent_py_getitem parent name : silent (py_getitem parent name).
Proof. unfold py_getitem. silent_tac. Qed.

Lemma silent_py_keys parent : silent (py_keys parent).
Proof. unfold py_keys. silent_tac. Qed.

Lemma silent_py_iter v : silent (py_iter v).
Proof. unfold py_iter. silent_tac. Qed.

Lemma silent_py_in needle v : silent (py_in needle v).
Proof. unfold py_in. silent_tac. Qed.

Lemma silent_py_in_set s v : silent (py_in_set s v).
Proof. unfold py_in_set. silent_tac. Qed.

Lemma silent_py_not_in_set s v : silent (py_not_in_set s v).
Proof. unfold py_not_in_set, py_in_set. silent_tac. Qed.

Lemma silent_and_then a b : silent b -> silent (and_then a b).
Proof. intros Hb. unfold and_then. destruct a; [exact Hb|apply silent_ret]. Qed.

Lemma silent_py_lower v : silent (py_lower v).
Proof. unfold py_lower. silent_tac. Qed.

Lemma silent_py_strip v : silent (py_strip v).
Proof. unfold py_strip. silent_tac. Qed.

Lemma silent_py_index l x : silent (py_index l x).
Proof. unfold py_index. silent_tac. Qed.

Lemma silent_keyed order l : silent (keyed order l).
Proof.
  induction l as [|x l IH]; simpl; [apply silent_ret|].
  apply silent_bind; [apply silent_py_index|]. intros i.
  apply silent_bind; [apply IH|]. intros r. apply silent_ret.
Qed.

Lemma silent_sorted_by_index order l : silent (sorted_by_index order l).
Proof.
  unfold sorted_by_index. apply silent_bind; [apply silent_keyed|].
  intros ks. apply silent_ret.
Qed.

Lemma silent_any_test_key v : silent (any_test_key v).
Proof.
  unfold any_test_key. apply silent_bind; [apply silent_py_iter|].
  intros. apply silent_ret.
Qed.

Lemma silent_must_find r : silent (must_find r).
Proof. unfold must_find. silent_tac. Qed.

Lemma silent_try_find r : silent (try_find r).
Proof. unfold try_find. silent_tac. Qed.

Lemma silent_open_text E p : silent (open_text E p).
Proof. unfold open_text. silent_tac. Qed.

Lemma silent_build_reqs_has v token : silent (build_reqs_has v token).
Proof. unfold build_reqs_has. destruct (truthy v); [apply silent_py_in|apply silent_ret]. Qed.

Create HintDb silent_db.
#[export] Hint Resolve silent_py_get silent_py_getitem silent_py_keys silent_py_iter
  silent_py_in silent_py_in_set silent_py_not_in_set silent_and_then
  silent_py_lower silent_py_strip silent_py_index silent_keyed
  silent_sorted_by_index silent_any_test_key silent_must_find silent_try_find
  silent_open_text silent_build_reqs_has silent_ret silent_raise : silent_db.

(** One step of the analysis of what a block emits. *)
Ltac emits_step :=
  first
    [ apply emits_ret | apply emits_raise | apply emits_WRaise
    | apply silent_emits; solve [auto with silent_db]
    | apply emits_tell_lint; solve [reflexivity | cbn; reflexivity]
    | apply emits_tell_hint; solve [reflexivity | cbn; reflexivity]
    | apply emits_when
    | apply emits_for; intros ? _
    | apply emits_bind; [|intros ?]
    | match goal with
      | |- emits _ _ (match ?x with _ => _ end) => destruct x eqn:?
      | |- emits _ _ (if ?x then _ else _) => destruct x eqn:?
      end ].

Ltac emits_tac := repeat emits_step.

(** The tags of the messages, rule by rule. *)
Definition shape_tag : string := "The " +:+ dq.

Section Emits.

Context (E : Env).

Lemma emits_get_section parent name :
  emits [shape_tag] [] (get_section E parent name).
Proof.
  unfold get_section, get_list_section, section_dict_msg, section_list_msg.
  emits_tac.
Qed.

Lemma emits_get_section_in TL TH parent name :
  In shape_tag TL -> emits TL TH (get_section E parent name).
Proof.
  intros H. eapply emits_mono; [| |apply emits_get_section].
  - by intros x [<-|[]].
  - by intros x [].
Qed.

Lemma emits_get_sections meta : emits [shape_tag] [] (get_sections E meta).
Proof.
  unfold get_sections.
  repeat (apply emits_bind; [apply emits_get_section|intros ?]).
  apply emits_ret.
Qed.

Definition unexpected_tag : string := "The top level meta key ".
Definition order_tag : string := "The top level meta keys are in an unexpected order.".

Lemma emits_section_order ms : emits [order_tag] [] (lint_section_order ms).
Proof. unfold lint_section_order, section_order_msg. emits_tac. Qed.

Definition about_tags : list string :=
  ["The home item"; "The license item"; "The summary item"].

Lemma emits_about_contents v : emits about_tags [] (lint_about_contents v).
Proof. unfold lint_about_contents, about_item_msg. simpl. emits_tac. Qed.

Definition maintainers_tags : list string :=
  ["The recipe could do with"; "Recipe maintainers should"].

Lemma emits_maintainers v : emits maintainers_tags [] (lint_maintainers v).
Proof. unfold lint_maintainers. emits_tac. Qed.

Definition no_test_hint_tag : string := "It looks like the '".

Lemma emits_scan_outputs outs has hs :
  emits [shape_tag] [] (scan_outputs E outs has hs).
Proof.
  revert has hs. induction outs as [|out outs IH]; intros has hs; simpl.
  - apply emits_ret.
  - apply emits_bind; [apply emits_get_section|intros ?].
    apply emits_bind; [apply silent_emits; auto with silent_db|intros []].
    + apply IH.
    + apply emits_bind; [apply silent_emits; auto with silent_db|intros ?].
      apply IH.
Qed.

(** What [scan_outputs] returns: the hints it was given, then those of
    the outputs without tests. *)
Lemma scan_outputs_hints outs has hs r f :
  scan_outputs E outs has hs = WOk r f ->
  Forall (fun m => tagged [no_test_hint_tag] m = true) hs ->
  Forall (fun m => tagged [no_test_hint_tag] m = true) (snd r).
Proof.
  revert has hs f. induction outs as [|out outs IH]; intros has hs f; simpl.
  - by intros [= <- <-].
  - intros (test_out & f1 & f2 & _ & H & _)%W_bind_ok.
    apply W_bind_ok in H as (t & f3 & f4 & _ & H & _).
    destruct t; [by eapply IH|].
    apply W_bind_ok in H as (name & f5 & f6 & _ & H & _).
    intros Hhs. eapply IH; [done|].
    apply Forall_app. split; [done|]. by repeat constructor.
Qed.

Lemma emits_tests rd test outputs :
  emits [shape_tag; tests_msg] [no_test_hint_tag] (lint_tests E rd test outputs).
Proof.
  unfold lint_tests.
  apply emits_bind; [apply silent_emits; auto with silent_db|intros t].
  do 2 apply emits_when.
  intros a f (r & f1 & f2 & Hr & Hk & ->)%W_bind_ok.
  assert (Forall (fun m => tagged [shape_tag; tests_msg] m = true) (lints f1)
          /\ hints f1 = []
          /\ Forall (fun m => tagged [no_test_hint_tag] m = true) (snd r))
    as (Hl & Hh & Hs).
  { destruct (truthy outputs).
    - apply W_bind_ok in Hr as (outs & g1 & g2 & Ho%silent_py_iter & Hr & ->).
      subst g1. rewrite join_no_findings_l.
      destruct (emits_scan_outputs _ _ _ _ _ Hr) as [H1 H2].
      split; [|split].
      + eapply Forall_impl; [exact H1|]. intros m.
        apply tagged_mono. intros x [<-|[]]. by left.
      + by inversion H2.
      + by eapply scan_outputs_hints.
    - injection Hr as <- <-. by split. }
  simpl. rewrite Hh. simpl.
  destruct (fst r).
  - injection Hk as <- <-. simpl. rewrite app_nil_r. by split.
  - injection Hk as <- <-. simpl. split; [|done].
    apply Forall_app. split; [done|]. by repeat constructor.
Qed.

Lemma emits_license_unknown v :
  emits ["The recipe license cannot"] [] (lint_license_unknown v).
Proof. unfold lint_license_unknown. emits_tac. Qed.

Lemma emits_license_word v :
  emits ["The recipe `license`"] [] (lint_license_word v).
Proof. unfold lint_license_word. emits_tac. Qed.

Definition selectors_tag : string := "Selectors are suggested".

Lemma emits_selectors rd : emits [selectors_tag] [] (lint_selectors E rd).
Proof. unfold lint_selectors, selectors_msg. emits_tac. Qed.

Lemma emits_build_number v :
  emits ["The recipe must have a `build/number`"] [] (lint_build_number v).
Proof. unfold lint_build_number. emits_tac. Qed.

Definition requirements_tag : string := "The `requirements/` sections".

Lemma emits_requirements_order v :
  emits [requirements_tag] [] (lint_requirements_order v).
Proof. unfold lint_requirements_order, requirements_order_msg. emits_tac. Qed.

Lemma emits_checksums v : emits ["When defining"] [] (lint_checksums v).
Proof. unfold lint_checksums. emits_tac. Qed.

Definition end_of_file_tag : string := "There are ".

Lemma emits_end_of_file rd : emits [end_of_file_tag] [] (lint_end_of_file E rd).
Proof. unfold lint_end_of_file, too_many_lines_msg. emits_tac. Qed.

Lemma emits_recipe_name v : emits ["Recipe name has"] [] (lint_recipe_name v).
Proof. unfold lint_recipe_name. emits_tac. Qed.

Definition conda_forge_tags : list string :=
  [shape_tag; "Feedstock with"; "Recipe maintainer "; "Please move"].

Lemma emits_conda_forge meta rd :
  emits conda_forge_tags ["Recipe with the same name"]
        (run_conda_forge_specific E meta rd).
Proof.
  unfold run_conda_forge_specific, maintainer_msg.
  destruct (environ E "GH_TOKEN"); [|apply emits_raise].
  do 2 (apply emits_bind; [apply emits_get_section_in; by left|intros ?]).
  emits_tac.
Qed.

Lemma emits_legacy_numpy v :
  emits ["Using pinned"] [] (lint_legacy v "numpy x.x" numpy_msg).
Proof. unfold lint_legacy. emits_tac. Qed.

Lemma emits_legacy_toolchain v :
  emits ["Using toolchain"] [] (lint_legacy v "toolchain" toolchain_msg).
Proof. unfold lint_legacy. emits_tac. Qed.

Definition subsection_tags : list string :=
  shape_tag :: map (fun s => "The " +:+ s +:+ " section contained")
                   EXPECTED_SECTION_ORDER.

Lemma mem_In x l : mem x l = true <-> In x l.
Proof.
  unfold mem. rewrite existsb_exists. split.
  - intros (y & Hy & ->%String.eqb_eq). done.
  - intros H. exists x. by rewrite String.eqb_refl.
Qed.

Lemma emits_subsections meta ms :
  Forall (fun s => mem s EXPECTED_SECTION_ORDER = true) ms ->
  emits subsection_tags [] (lint_subsections E meta ms).
Proof.
  intros Hms. unfold lint_subsections. apply emits_for. intros section Hin.
  rewrite List.Forall_forall in Hms. specialize (Hms _ Hin).
  apply mem_In in Hms.
  destruct (fields_get (FIELDS E) section) eqn:Hf; [apply emits_ret|].
  apply emits_bind; [apply emits_get_section_in; by left|intros ?].
  unfold subsection_msg.
  simpl in Hms.
  repeat (destruct Hms as [<-|Hms]; [emits_tac|]); done.
Qed.

Definition noarch_tag : string := "`noarch` packages can't have selectors.".

Lemma emits_noarch rd v : emits [noarch_tag] [] (lint_noarch E rd v).
Proof. unfold lint_noarch, noarch_msg. emits_tac. Qed.

Lemma emits_version v : emits ["Package version "] [] (lint_version E v).
Proof. unfold lint_version, version_msg. emits_tac. Qed.

Definition jinja_tag : string := "Jinja2 variable definitions".

Lemma emits_jinja rd : emits [jinja_tag] [] (lint_jinja E rd).
Proof. unfold lint_jinja, jinja_msg. emits_tac. Qed.

Lemma emits_hint_pip v : emits [] ["Whenever possible"] (hint_pip v).
Proof. unfold hint_pip. emits_tac. Qed.

End Emits.

(** ** The sections of a document *)

(** What [get_section] returns on a document, for a section that is to
    be a mapping and for one that is to be a list. *)
Definition dict_section (d : dict) (name : string) : value :=
  match dict_get d name with
  | Some (VMap m) => VMap m
  | _ => VMap []
  end.

Definition list_section (d : dict) (name : string) (allow_single : bool) : value :=
  match dict_get d name with
  | None => VList []
  | Some (VMap m) => if allow_single then VList [VMap m] else VList [VMap []]
  | Some (VList l) => VList l
  | Some _ => VList [VMap []]
  end.

Definition section_of (d : dict) (name : string) : value :=
  if String.eqb name "source" then list_section d name true
  else if String.eqb name "outputs" then list_section d name false
  else dict_section d name.

Definition sections_of (d : dict) : sections :=
  {| sources_section := section_of d "source";
     build_section := section_of d "build";
     requirements_section := section_of d "requirements";
     test_section := section_of d "test";
     about_section := section_of d "about";
     extra_section := section_of d "extra";
     package_section := section_of d "package";
     outputs_section := section_of d "outputs" |}.

Section Sections.

Context (E : Env).

Lemma get_section_value d name v f :
  get_section E (VMap d) name = WOk v f -> v = section_of d name.
Proof.
  unfold get_section, section_of, get_list_section, dict_section, list_section.
  simpl. unfold mbind, W_bind, mret, W_ret. simpl.
  destruct (String.eqb name "source"); [|destruct (String.eqb name "outputs")];
    destruct (dict_get d name) as [[]|]; simpl; congruence.
Qed.

(** [get_section] always returns on a mapping. *)
Lemma get_section_returns d name :
  exists f, get_section E (VMap d) name = WOk (section_of d name) f.
Proof.
  destruct (get_section E (VMap d) name) as [v f|e] eqn:H.
  - exists f. by rewrite (get_section_value _ _ _ _ H).
  - exfalso. revert H.
    unfold get_section, get_list_section. simpl.
    unfold mbind, W_bind, mret, W_ret. simpl.
    destruct (String.eqb name "source"); [|destruct (String.eqb name "outputs")];
      destruct (dict_get d name) as [[]|]; simpl; congruence.
Qed.

Lemma get_sections_value d s f :
  get_sections E (VMap d) = WOk s f -> s = sections_of d.
Proof.
  unfold get_sections. intros H.
  repeat (apply W_bind_ok in H as (? & ? & ? & ?%get_section_value & H & _)).
  injection H as <- _. by subst.
Qed.

Lemma get_sections_returns d :
  exists f, get_sections E (VMap d) = WOk (sections_of d) f.
Proof.
  unfold get_sections.
  destruct (get_section_returns d "source") as [f1 H1].
  destruct (get_section_returns d "build") as [f2 H2].
  destruct (get_section_returns d "requirements") as [f3 H3].
  destruct (get_section_returns d "test") as [f4 H4].
  destruct (get_section_returns d "about") as [f5 H5].
  destruct (get_section_returns d "extra") as [f6 H6].
  destruct (get_section_returns d "package") as [f7 H7].
  destruct (get_section_returns d "outputs") as [f8 H8].
  rewrite H1, H2, H3, H4, H5, H6, H7, H8. simpl.
  unfold mbind, W_bind, mret, W_ret. simpl. eauto.
Qed.

(** ** [lintify] as a function of the document *)

Definition expected (k : string) : bool := mem k EXPECTED_SECTION_ORDER.

(** 0: one message for each unexpected key *)
Definition lint_unexpected (keys : list string) : W unit :=
  for_ keys (fun section =>
    when (negb (expected section)) (tell_lint (unexpected_key_msg section))).

Definition lintify_doc (d : dict) (recipe_dir : option string) (conda_forge : bool)
    : W unit :=
  s ← get_sections E (VMap d);
  lint_unexpected (dict_keys d) ;;
  lintify_rules E d (List.filter expected (dict_keys d)) s recipe_dir conda_forge.

End Sections.

(** ** The store during [lintify] *)

Lemma M_bind_ROk {A B} (m : M A) (k : A -> M B) st a f st' :
  m st = ROk a f st' ->
  (m ≫= k) st = match k a st' with
                | ROk b g st'' => ROk b (join_findings f g) st''
                | RRaise e => RRaise e
                end.
Proof. unfold mbind, M_bind. by intros ->. Qed.

Lemma M_bind_silent {A B} (m : M A) (k : A -> M B) st a st' :
  m st = ROk a no_findings st' -> (m ≫= k) st = k a st'.
Proof.
  intros H. rewrite (M_bind_ROk _ _ _ _ _ _ H).
  destruct (k a st'); [|done]. by rewrite join_no_findings_l.
Qed.

Lemma read_doc_at meta st d :
  st !! meta = Some (OVal (VMap d)) -> read_doc meta st = ROk d no_findings st.
Proof. unfold read_doc. by intros ->. Qed.

Lemma read_list_at r st l :
  st !! r = Some (OList l) -> read_list r st = ROk l no_findings st.
Proof. unfold read_list. by intros ->. Qed.

Definition unexpected_keys (keys : list string) : list string :=
  List.filter (fun k => negb (expected k)) keys.

Lemma lint_unexpected_eq keys :
  lint_unexpected keys =
  WOk tt {| lints := map unexpected_key_msg (unexpected_keys keys); hints := [] |}.
Proof.
  induction keys as [|k keys IH]; [done|].
  unfold lint_unexpected in *. simpl. rewrite IH.
  by destruct (expected k).
Qed.

(** The first loop of rule 0: it fills [unexpected_sections]. *)
Lemma loop_unexpected ks st (us : loc) acc :
  st !! us = Some (OList acc) ->
  forM_ ks (fun section =>
    if negb (mem section EXPECTED_SECTION_ORDER)
    then lift (tell_lint (unexpected_key_msg section)) ;; list_append us section
    else mret tt) st
  = ROk tt {| lints := map unexpected_key_msg (unexpected_keys ks); hints := [] |}
        (<[us := OList (acc ++ unexpected_keys ks)]> st).
Proof.
  revert st acc. induction ks as [|k ks IH]; intros st acc Hus.
  - simpl. rewrite app_nil_r, insert_id by done. reflexivity.
  - cbn [forM_ unexpected_keys List.filter]. unfold expected.
    destruct (mem k EXPECTED_SECTION_ORDER) eqn:Hk; cbn [negb map].
    + rewrite (M_bind_silent _ _ _ tt st) by reflexivity. by apply IH.
    + erewrite M_bind_ROk; cycle 1.
      { erewrite M_bind_ROk by reflexivity. unfold list_append. rewrite Hus.
        reflexivity. }
      rewrite (IH _ (acc ++ [k])) by apply lookup_insert_eq.
      rewrite insert_insert_eq, <- app_assoc. done.
Qed.

(** [l.remove(u)] for each [u] of [us], one after the other. *)
Fixpoint remove_all (us l : list string) : option (list string) :=
  match us with
  | [] => Some l
  | u :: us' =>
      match remove_first u l with
      | Some l' => remove_all us' l'
      | None => None
      end
  end.

Lemma remove_first_app p x l :
  ~ In x p -> remove_first x (p ++ l) = (fun r => p ++ r) <$> remove_first x l.
Proof.
  induction p as [|y p IH]; simpl; intros Hn.
  - by destruct (remove_first x l).
  - destruct (String.eqb_spec y x) as [->|_]; [tauto|].
    rewrite IH by tauto. by destruct (remove_first x l).
Qed.

(** Taking out, one by one, every occurrence of the keys that fail [q]
    leaves the keys that pass it, in their order. *)
Lemma remove_all_filter (q : string -> bool) p l :
  Forall (fun x => q x = true) p ->
  remove_all (List.filter (fun k => negb (q k)) l) (p ++ l)
  = Some (p ++ List.filter q l).
Proof.
  revert p. induction l as [|y l IH]; intros p Hp; simpl; [done|].
  destruct (q y) eqn:Hy; simpl.
  - replace (p ++ y :: l) with ((p ++ [y]) ++ l) by by rewrite <- app_assoc.
    rewrite IH, <- app_assoc; [done|].
    apply Forall_app. split; [done|]. by repeat constructor.
  - rewrite remove_first_app; simpl.
    + rewrite String.eqb_refl. simpl. by apply IH.
    + intros Hin. rewrite List.Forall_forall in Hp.
      specialize (Hp _ Hin). congruence.
Qed.

(** The second loop of rule 0: it works on the list [ms] refers to. *)
Lemma loop_remove us st (ms : loc) l l' :
  st !! ms = Some (OList l) ->
  remove_all us l = Some l' ->
  forM_ us (fun section => list_remove ms section) st
  = ROk tt no_findings (<[ms := OList l']> st).
Proof.
  revert st l. induction us as [|u us IH]; intros st l Hms; simpl.
  - intros [= <-]. rewrite insert_id by done. reflexivity.
  - destruct (remove_first u l) as [l1|] eqn:Hr; [|discriminate]. intros Hall.
    erewrite M_bind_silent; cycle 1.
    { unfold list_remove. by rewrite Hms, Hr. }
    erewrite IH; [|apply lookup_insert_eq|done].
    by rewrite insert_insert_eq.
Qed.

Section Run.

Context (E : Env).

(** The store [lintify] leaves: the one it was given, with the two lists
    it allocated. *)
Definition final_store (st : store) (d : dict) : store :=
  let major_sections := fresh_loc st in
  let st1 := <[major_sections := OList (dict_keys d)]> st in
  let unexpected_sections := fresh_loc st1 in
  <[major_sections := OList (List.filter expected (dict_keys d))]>
    (<[unexpected_sections := OList (unexpected_keys (dict_keys d))]> st1).

Lemma fresh_loc_ne (st : store) (r : loc) o :
  st !! r = Some o -> fresh_loc st <> r.
Proof.
  unfold fresh_loc. intros H Hr.
  apply (is_fresh (dom (D := gset loc) st)). rewrite Hr.
  apply elem_of_dom. eauto.
Qed.

Theorem lintify_run meta rd cf st d :
  st !! meta = Some (OVal (VMap d)) ->
  lintify E meta rd cf st =
  match lintify_doc E d rd cf with
  | WOk a f => ROk a f (final_store st d)
  | WRaise e => RRaise e
  end.
Proof.
  intros Hmeta. unfold lintify, lintify_doc, final_store.
  set (r1 := fresh_loc st).
  set (st1 := <[r1 := OList (dict_keys d)]> st).
  set (r2 := fresh_loc st1).
  assert (r1 <> meta) as Hr1 by (by eapply fresh_loc_ne).
  assert (st1 !! meta = Some (OVal (VMap d))) as Hmeta1
    by (unfold st1; by rewrite lookup_insert_ne).
  assert (st1 !! r1 = Some (OList (dict_keys d))) as Hst1
    by apply lookup_insert_eq.
  assert (r2 <> meta) as Hr2 by (by eapply fresh_loc_ne).
  assert (r2 <> r1) as Hr21 by (by eapply fresh_loc_ne).
  destruct (get_sections_returns E d) as [f0 Hs].
  rewrite (M_bind_silent _ _ _ _ _ (read_doc_at _ _ _ Hmeta)).
  rewrite (M_bind_silent _ _ _ r1 st1) by reflexivity.
  rewrite (M_bind_silent _ _ _ _ _ (read_doc_at _ _ _ Hmeta1)).
  rewrite (M_bind_ROk _ _ _ (sections_of d) f0 st1)
    by (unfold lift; by rewrite Hs).
  rewrite (W_bind_WOk _ _ _ _ Hs).
  set (st2 := <[r2 := OList []]> st1).
  rewrite (M_bind_silent _ _ _ r2 st2) by reflexivity.
  assert (st2 !! r1 = Some (OList (dict_keys d))) as Hst2
    by (unfold st2; by rewrite lookup_insert_ne).
  rewrite (M_bind_silent _ _ _ _ _ (read_list_at _ _ _ Hst2)).
  erewrite M_bind_ROk; cycle 1.
  { apply (loop_unexpected _ st2 r2 []). apply lookup_insert_eq. }
  simpl app. unfold st2 at 1. rewrite insert_insert_eq.
  set (st3 := <[r2 := OList (unexpected_keys (dict_keys d))]> st1).
  assert (st3 !! r2 = Some (OList (unexpected_keys (dict_keys d)))) as Hus
    by apply lookup_insert_eq.
  rewrite (M_bind_silent _ _ _ _ _ (read_list_at _ _ _ Hus)).
  assert (st3 !! r1 = Some (OList (dict_keys d))) as Hst3
    by (unfold st3; by rewrite lookup_insert_ne).
  erewrite M_bind_silent; cycle 1.
  { eapply loop_remove; [exact Hst3|].
    apply (remove_all_filter expected []). constructor. }
  simpl app.
  set (st4 := <[r1 := _]> st3).
  assert (st4 !! r1 = Some (OList (List.filter expected (dict_keys d)))) as Hms
    by apply lookup_insert_eq.
  rewrite (M_bind_silent _ _ _ _ _ (read_list_at _ _ _ Hms)).
  assert (st4 !! meta = Some (OVal (VMap d))) as Hmeta4.
  { unfold st4, st3. by rewrite !lookup_insert_ne. }
  rewrite (M_bind_silent _ _ _ _ _ (read_doc_at _ _ _ Hmeta4)).
  rewrite lint_unexpected_eq. unfold lift. simpl.
  destruct (lintify_rules E d _ _ rd cf); done.
Qed.

End Run.

(** ** Reading the findings of [lintify] rule by rule *)

(** What a run returns, the store left aside. *)
Definition outcome {A} (r : R A) : W A :=
  match r with
  | ROk a f _ => WOk a f
  | RRaise e => WRaise e
  end.

(** The license-family validator is conda-build's: its message, when it
    has one for the document, does not start with the tag [t]. *)
Definition foreign (E : Env) (d : dict) (t : string) : Prop :=
  forall msg, ensure_valid_license_family E d = Some (RuntimeError msg) ->
              has_prefix t msg = false.

Section Reading.

Context (E : Env).

Lemma lintify_outcome meta rd cf st d :
  st !! meta = Some (OVal (VMap d)) ->
  outcome (lintify E meta rd cf st) = lintify_doc E d rd cf.
Proof.
  intros H. rewrite (lintify_run E _ _ _ _ _ H).
  by destruct (lintify_doc E d rd cf).
Qed.

Lemma lintify_only c P meta rd cf st d a f st' l :
  st !! meta = Some (OVal (VMap d)) ->
  only c P (lintify_doc E d rd cf) l ->
  lintify E meta rd cf st = ROk a f st' ->
  List.filter P (pr c f) = l.
Proof.
  intros Hm Ho Hl. apply (Ho a). rewrite <- (lintify_outcome _ _ _ _ _ Hm).
  by rewrite Hl.
Qed.

Lemma emits_unexpected keys : emits [unexpected_tag] [] (lint_unexpected keys).
Proof. unfold lint_unexpected, unexpected_key_msg. emits_tac. Qed.

Lemma emits_subsections_expected meta keys :
  emits subsection_tags [] (lint_subsections E meta (List.filter expected keys)).
Proof.
  apply emits_subsections. apply List.Forall_forall.
  by intros x [_ ?]%filter_In.
Qed.

Lemma emits_when_conda_forge cf meta rd :
  emits conda_forge_tags ["Recipe with the same name"]
        (when cf (run_conda_forge_specific E meta rd)).
Proof. apply emits_when, emits_conda_forge. Qed.

Lemma quiet_license_family c t d :
  foreign E d t -> quiet c (has_prefix t) (lint_license_family E d).
Proof.
  intros Hf a f. unfold lint_license_family.
  destruct (ensure_valid_license_family E d) as [[]|] eqn:He; try done.
  - intros [= <- <-]. destruct c; [|done]. simpl.
    by rewrite (Hf _ He).
  - intros [= <- <-]. by destruct c.
Qed.

End Reading.

Create HintDb emits_db.
#[export] Hint Resolve emits_get_section emits_get_sections emits_unexpected
  emits_section_order emits_about_contents emits_maintainers emits_tests
  emits_license_unknown emits_license_word emits_selectors emits_build_number
  emits_requirements_order emits_checksums emits_end_of_file emits_recipe_name
  emits_when_conda_forge emits_legacy_numpy emits_legacy_toolchain
  emits_subsections_expected emits_noarch emits_version emits_jinja
  emits_hint_pip : emits_db.

(** A block other than the one under study appends nothing of its kind. *)
Ltac quiet_one :=
  first
    [ apply silent_quiet; solve [auto with silent_db]
    | apply quiet_license_family; assumption
    | eapply emits_quiet; [solve [eauto with emits_db]|reflexivity] ].

(** Go past the blocks that come before the one under study. *)
Ltac skip_quiet :=
  first
    [ eapply only_bind_val;
        [intros ? ? ?%get_sections_value; eassumption|quiet_one|]
    | apply only_bind_r; [quiet_one|intros ?] ].

(** At the block under study: the blocks that follow are quiet. *)
Ltac rest_quiet :=
  intros; repeat first [quiet_one | apply quiet_bind; [quiet_one|intros ?]].

(** ** Rule 11: the end of the file *)









Section EndOfFile.

Context (E : Env).




End EndOfFile.

(** ** Sorting by the index in a canonical order *)

Section Order.

Context (order : list string).

(** The index of a key in the canonical order. *)
Definition rank (x : string) : nat := default (length order) (index_of x order).

Definition rank_le (a b : string) : Prop := rank a <= rank b.

(** The keys are in canonical relative order. *)
Definition in_order (l : list string) : Prop := Sorted rank_le l.

Definition with_rank (l : list string) : list (nat * string) :=
  map (fun x => (rank x, x)) l.

(** The keys sorted by their index, as [sorted] returns them. *)
Definition canonical (l : list string) : list string :=
  map snd (sort_by_key (with_rank l)).

Definition key_le (p q : nat * string) : Prop := fst p <= fst q.

Definition ranked (p : nat * string) : Prop := fst p = rank (snd p).

Lemma index_of_mem x : mem x order = true -> is_Some (index_of x order).
Proof.
  induction order as [|y o IH]; simpl; [done|].
  rewrite (String.eqb_sym x y).
  destruct (String.eqb y x); simpl; [eauto|].
  intros [i ->]%IH. simpl. eauto.
Qed.

Lemma keyed_with_rank l :
  Forall (fun x => mem x order = true) l ->
  keyed order l = WOk (with_rank l) no_findings.
Proof.
  induction 1 as [|x l Hx _ IH]; [done|]. simpl.
  unfold py_index, rank. destruct (index_of_mem _ Hx) as [i ->]. simpl.
  by rewrite IH.
Qed.

Lemma sorted_by_index_canonical l :
  Forall (fun x => mem x order = true) l ->
  sorted_by_index order l = WOk (canonical l) no_findings.
Proof. intros H. unfold sorted_by_index. by rewrite (keyed_with_rank _ H). Qed.

Lemma insert_by_key_HdRel y x l :
  HdRel key_le y l -> key_le y x -> HdRel key_le y (insert_by_key x l).
Proof.
  destruct l as [|z l]; simpl; intros Hl Hx; [by constructor|].
  destruct (fst x <=? fst z); constructor; [done|]. by inversion Hl.
Qed.

Lemma insert_by_key_Sorted x l :
  Sorted key_le l -> Sorted key_le (insert_by_key x l).
Proof.
  induction 1 as [|y l Hl IH Hy]; simpl; [by repeat constructor|].
  destruct (Nat.leb_spec (fst x) (fst y)) as [Hle|Hlt].
  - constructor; [by constructor|]. by constructor.
  - constructor; [done|]. apply insert_by_key_HdRel; [done|].
    unfold key_le. lia.
Qed.

Lemma sort_by_key_Sorted l : Sorted key_le (sort_by_key l).
Proof.
  induction l as [|x l IH]; simpl; [constructor|].
  by apply insert_by_key_Sorted.
Qed.

Lemma insert_by_key_Forall (P : nat * string -> Prop) x l :
  P x -> Forall P l -> Forall P (insert_by_key x l).
Proof.
  intros Hx. induction 1 as [|y l Hy Hl IH]; simpl; [by repeat constructor|].
  destruct (fst x <=? fst y); repeat constructor; auto.
Qed.

Lemma sort_by_key_Forall (P : nat * string -> Prop) l :
  Forall P l -> Forall P (sort_by_key l).
Proof.
  induction 1 as [|x l Hx Hl IH]; simpl; [constructor|].
  by apply insert_by_key_Forall.
Qed.

Lemma insert_by_key_Permutation x l : Permutation (x :: l) (insert_by_key x l).
Proof.
  induction l as [|y l IH]; simpl; [done|].
  destruct (fst x <=? fst y); [done|].
  rewrite perm_swap. by constructor.
Qed.

Lemma sort_by_key_Permutation l : Permutation l (sort_by_key l).
Proof.
  induction l as [|x l IH]; simpl; [done|].
  rewrite <- insert_by_key_Permutation. by constructor.
Qed.

Lemma with_rank_ranked l : Forall ranked (with_rank l).
Proof. induction l; simpl; by constructor. Qed.

Lemma ranked_sorted_in_order ps :
  Forall ranked ps -> Sorted key_le ps -> in_order (map snd ps).
Proof.
  intros Hr Hs. induction Hs as [|p ps Hs IH Hp]; simpl; [constructor|].
  inversion Hr as [|? ? Hrp Hrps]; subst.
  constructor; [by apply IH|].
  destruct Hp as [|q ps Hq]; simpl; constructor.
  inversion Hrps; subst. unfold rank_le, key_le, ranked in *. lia.
Qed.

(** The sorted keys are in canonical order, and are the same keys. *)
Lemma canonical_in_order l : in_order (canonical l).
Proof.
  apply ranked_sorted_in_order.
  - apply sort_by_key_Forall, with_rank_ranked.
  - apply sort_by_key_Sorted.
Qed.

Lemma canonical_Permutation l : Permutation l (canonical l).
Proof.
  unfold canonical. rewrite <- sort_by_key_Permutation.
  unfold with_rank. rewrite map_map. simpl. by rewrite map_id.
Qed.

(** Keys already in order are left as they are. *)
Lemma sort_by_key_in_order l :
  in_order l -> sort_by_key (with_rank l) = with_rank l.
Proof.
  induction 1 as [|x l Hl IH Hx]; [done|]. simpl. rewrite IH.
  destruct Hx as [|y l Hy]; [done|]. simpl.
  unfold rank_le in Hy. by apply Nat.leb_le in Hy as ->.
Qed.

Lemma canonical_fixed l : canonical l = l <-> in_order l.
Proof.
  split.
  - intros <-. apply canonical_in_order.
  - intros H. unfold canonical. rewrite (sort_by_key_in_order _ H).
    unfold with_rank. rewrite map_map. simpl. by rewrite map_id.
Qed.

(** The test of the two order rules. *)
Lemma list_eqb_canonical l :
  negb (list_eqb l (canonical l)) = true <-> ~ in_order l.
Proof.
  unfold list_eqb. rewrite <- canonical_fixed.
  case_bool_decide; simpl; split; try done; congruence.
Qed.

#[global] Instance in_order_dec l : Decision (in_order l).
Proof.
  destruct (decide (canonical l = l)) as [H|H].
  - left. by apply canonical_fixed.
  - right. by rewrite <- canonical_fixed.
Defined.

End Order.

(** ** Rule 8: the order of the requirements *)

(** The keys of the requirements section, in the order of the document. *)
Definition requirements_keys (d : dict) : list string :=
  match section_of d "requirements" with
  | VMap m => dict_keys m
  | _ => []
  end.

(** Those among build, host and run. *)
Definition seen_requirements (d : dict) : list string :=
  List.filter (fun k => mem k REQUIREMENTS_ORDER) (requirements_keys d).

Lemma Forall_filter_mem order l :
  Forall (fun x => mem x order = true) (List.filter (fun k => mem k order) l).
Proof. apply List.Forall_forall. by intros x [_ ?]%filter_In. Qed.

Section RequirementsOrder.

Context (E : Env).

Lemma only_requirements_order d :
  only Lints (has_prefix requirements_tag)
       (lint_requirements_order (section_of d "requirements"))
       (if decide (in_order REQUIREMENTS_ORDER (seen_requirements d)) then []
        else [requirements_order_msg (seen_requirements d)]).
Proof.
  intros a f. unfold lint_requirements_order, seen_requirements, requirements_keys.
  unfold section_of, dict_section. simpl String.eqb. cbv iota.
  set (m := match dict_get d "requirements" with
            | Some (VMap m) => m | _ => [] end).
  assert ((match dict_get d "requirements" with
           | Some (VMap m) => VMap m | _ => VMap [] end) = VMap m) as ->.
  { unfold m. by destruct (dict_get d "requirements") as [[]|]. }
  unfold py_keys. rewrite W_ret_bind.
  set (seen := List.filter _ (dict_keys m)).
  rewrite (W_bind_WOk _ _ _ _
             (sorted_by_index_canonical REQUIREMENTS_ORDER seen
                (Forall_filter_mem _ _))).
  destruct (decide (in_order REQUIREMENTS_ORDER seen)) as [Hs|Hs].
  - apply canonical_fixed in Hs. rewrite Hs. unfold list_eqb.
    rewrite bool_decide_eq_true_2 by done. simpl. by intros [= <- <-].
  - apply list_eqb_canonical in Hs. rewrite Hs. simpl. by intros [= <- <-].
Qed.

(** In the result of [lintify], the requirements-order rule looks at the keys of the
    requirements section that are among build, host and run, in their
    order of appearance: when they differ from their sort by canonical
    index there is exactly one requirements-order error, and when they
    are in that relative order there is none; the two cases are the only
    ones, and a key that is absent plays no part. *)
Lemma requirements_order_rule_findings meta rd cf st d f st' :
  st !! meta = Some (OVal (VMap d)) ->
  foreign E d requirements_tag ->
  lintify E meta rd cf st = ROk tt f st' ->
  let seen := seen_requirements d in
  let errors := List.filter (has_prefix requirements_tag) (lints f) in
  (seen <> canonical REQUIREMENTS_ORDER seen ->
   errors = [requirements_order_msg seen]) /\
  (in_order REQUIREMENTS_ORDER seen -> errors = []) /\
  (seen = canonical REQUIREMENTS_ORDER seen <-> in_order REQUIREMENTS_ORDER seen).
Proof.
  intros Hm Hf Hl seen errors.
  assert (errors =
          if decide (in_order REQUIREMENTS_ORDER seen) then []
          else [requirements_order_msg seen]) as ->.
  { unfold errors. change (lints f) with (pr Lints f).
    eapply lintify_only; [exact Hm| |exact Hl].
    unfold lintify_doc, lintify_rules.
    do 9 skip_quiet.
    apply only_bind_l; [apply only_requirements_order|rest_quiet]. }
  pose proof (canonical_fixed REQUIREMENTS_ORDER seen) as Hfix.
  split; [|split].
  - intros Hne. case_decide; [|done]. destruct Hne. symmetry. by apply Hfix.
  - intros Hs. by case_decide.
  - rewrite <- Hfix. split; congruence.
Qed.

End RequirementsOrder.

(** ** Rules 0 and 1: the top-level keys *)

Section TopLevelKeys.

Context (E : Env).

Lemma only_unexpected keys :
  only Lints (has_prefix unexpected_tag) (lint_unexpected keys)
       (map unexpected_key_msg (unexpected_keys keys)).
Proof.
  intros a f. rewrite lint_unexpected_eq. intros [= <- <-]. simpl.
  induction (unexpected_keys keys) as [|k l IH]; [done|].
  simpl. by rewrite IH.
Qed.

Lemma only_section_order keys :
  let ms := List.filter expected keys in
  only Lints (has_prefix order_tag) (lint_section_order ms)
       (if decide (in_order EXPECTED_SECTION_ORDER ms) then []
        else [section_order_msg (canonical EXPECTED_SECTION_ORDER ms)]).
Proof.
  intros ms a f. unfold lint_section_order.
  rewrite (W_bind_WOk _ _ _ _
             (sorted_by_index_canonical EXPECTED_SECTION_ORDER ms
                (Forall_filter_mem _ _))).
  destruct (decide (in_order EXPECTED_SECTION_ORDER ms)) as [Hs|Hs].
  - apply canonical_fixed in Hs. rewrite Hs. unfold list_eqb.
    rewrite bool_decide_eq_true_2 by done. simpl. by intros [= <- <-].
  - apply list_eqb_canonical in Hs. rewrite Hs. simpl. by intros [= <- <-].
Qed.

(** The top-level keys in the result of [lintify]: one error for each key outside the
    vocabulary of sections, in the order of the keys; these keys take no
    part in the order check; of the keys that remain there is exactly
    one order error, naming them sorted by canonical index, when they
    are not in canonical relative order, and none when they are.  The
    keys build, package give the one error that expects package, build;
    the keys package, build give none. *)
Lemma top_level_keys_rule_findings meta rd cf st d f st' :
  st !! meta = Some (OVal (VMap d)) ->
  foreign E d unexpected_tag ->
  foreign E d order_tag ->
  lintify E meta rd cf st = ROk tt f st' ->
  let keys := dict_keys d in
  let remaining := List.filter expected keys in
  let order_errors := List.filter (has_prefix order_tag) (lints f) in
  List.filter (has_prefix unexpected_tag) (lints f)
    = map unexpected_key_msg (List.filter (fun k => negb (expected k)) keys) /\
  (~ in_order EXPECTED_SECTION_ORDER remaining ->
   order_errors
     = [section_order_msg (canonical EXPECTED_SECTION_ORDER remaining)]) /\
  (in_order EXPECTED_SECTION_ORDER remaining -> order_errors = []) /\
  (keys = ["build"; "package"] ->
   order_errors = ["The top level meta keys are in an unexpected order. Expecting ['package', 'build']."]) /\
  (keys = ["package"; "build"] -> order_errors = []).
Proof.
  intros Hm Hfu Hfo Hl keys remaining order_errors.
  assert (order_errors =
          if decide (in_order EXPECTED_SECTION_ORDER remaining) then []
          else [section_order_msg (canonical EXPECTED_SECTION_ORDER remaining)])
    as Ho.
  { unfold order_errors. change (lints f) with (pr Lints f).
    eapply lintify_only; [exact Hm| |exact Hl].
    unfold lintify_doc, lintify_rules.
    do 2 skip_quiet.
    apply only_bind_l; [apply only_section_order|rest_quiet]. }
  split; [|split; [|split; [|split]]].
  - change (lints f) with (pr Lints f).
    eapply lintify_only; [exact Hm| |exact Hl].
    unfold lintify_doc, lintify_rules.
    do 1 skip_quiet.
    apply only_bind_l; [apply only_unexpected|rest_quiet].
  - intros Hs. rewrite Ho. by case_decide.
  - intros Hs. rewrite Ho. by case_decide.
  - intros Hk. rewrite Ho. unfold remaining. rewrite Hk.
    by vm_compute.
  - intros Hk. rewrite Ho. unfold remaining. rewrite Hk.
    by vm_compute.
Qed.

End TopLevelKeys.

(** ** Rule 4: the recipe should have some tests *)

(** A test section with an [imports] or a [commands] key. *)
Definition has_tests (section : option value) : bool :=
  match section with
  | Some (VMap m) => existsb (fun k => mem k TEST_KEYS) (dict_keys m)
  | _ => false
  end.

Definition output_has_tests (out : value) : bool :=
  match out with
  | VMap m => has_tests (dict_get m "test")
  | _ => false
  end.

(** [out.get('name', '???')] *)
Definition output_name (out : value) : value :=
  match out with
  | VMap m => default (VStr "???") (dict_get m "name")
  | _ => VStr "???"
  end.

(** The outputs of a document, as the rules see them. *)
Definition document_outputs (d : dict) : list value :=
  match section_of d "outputs" with
  | VList l => l
  | _ => []
  end.

Lemma filter_eqb_prefix t l :
  List.filter (String.eqb t) l
  = List.filter (String.eqb t) (List.filter (has_prefix t) l).
Proof.
  assert (forall s, has_prefix s s = true) as Hrefl.
  { induction s as [|c s IH]; [done|]. simpl. by rewrite Ascii.eqb_refl. }
  induction l as [|m l IH]; [done|]. simpl.
  destruct (String.eqb_spec t m) as [<-|Hne].
  - rewrite Hrefl. simpl. rewrite String.eqb_refl. by f_equal.
  - destruct (has_prefix t m); [|done]. simpl.
    by apply String.eqb_neq in Hne as ->.
Qed.

Section Tests.

Context (E : Env).

Definition gap_hint (out : value) : string := no_test_hint E (output_name out).

Definition lacks_tests (out : value) : bool := negb (output_has_tests out).

Lemma any_test_key_section m :
  any_test_key (section_of m "test") = mret (has_tests (dict_get m "test")).
Proof.
  unfold section_of, dict_section, has_tests, any_test_key. simpl String.eqb.
  cbv iota.
  assert (forall ks, existsb (in_strs TEST_KEYS) (map VStr ks)
                     = existsb (fun k => mem k TEST_KEYS) ks) as Hex.
  { induction ks as [|k ks IH]; [done|]. simpl in *. by rewrite IH. }
  destruct (dict_get m "test") as [[]|]; try done.
  unfold py_iter. rewrite W_ret_bind. by rewrite Hex.
Qed.

Lemma scan_outputs_spec outs has hs r f :
  scan_outputs E outs has hs = WOk r f ->
  r = (has || existsb output_has_tests outs,
       hs ++ map gap_hint (List.filter lacks_tests outs)).
Proof.
  revert has hs f. induction outs as [|out outs IH]; intros has hs f.
  - simpl. intros [= <- <-]. by rewrite orb_false_r, app_nil_r.
  - cbn [scan_outputs].
    intros (test_out & f1 & f2 & Hg & H & _)%W_bind_ok.
    destruct out as [| | | | | |m]; try done.
    apply get_section_value in Hg as ->.
    rewrite any_test_key_section, W_ret_bind in H.
    cbn [existsb List.filter].
    assert (output_has_tests (VMap m) = has_tests (dict_get m "test")) as Ho
      by done.
    unfold lacks_tests at 1. rewrite Ho.
    destruct (has_tests (dict_get m "test")) eqn:Ht; cbn [negb orb].
    + apply IH in H as ->. by rewrite orb_true_r.
    + unfold py_get in H. rewrite W_ret_bind in H.
      apply IH in H as ->. cbn [map]. by rewrite <- app_assoc.
Qed.

Lemma filter_gap_hints l :
  List.filter (has_prefix no_test_hint_tag) (map gap_hint l) = map gap_hint l.
Proof.
  induction l as [|o l IH]; [done|]. cbn [map List.filter].
  assert (has_prefix no_test_hint_tag (gap_hint o) = true) as -> by done.
  by rewrite IH.
Qed.

Lemma outputs_section_list d :
  section_of d "outputs" = VList (document_outputs d).
Proof.
  unfold document_outputs, section_of, list_section. simpl String.eqb. cbv iota.
  by destruct (dict_get d "outputs") as [[]|].
Qed.

Lemma only_tests rd d :
  has_tests (dict_get d "test") = false ->
  a_test_file_exists E rd = false ->
  let outs := document_outputs d in
  only Lints (has_prefix tests_msg)
       (lint_tests E rd (section_of d "test") (section_of d "outputs"))
       (if existsb output_has_tests outs then [] else [tests_msg])
  /\ only Hints (has_prefix no_test_hint_tag)
       (lint_tests E rd (section_of d "test") (section_of d "outputs"))
       (if existsb output_has_tests outs
        then map gap_hint (List.filter lacks_tests outs) else []).
Proof.
  intros Ht Hfile outs.
  assert (forall a f,
    lint_tests E rd (section_of d "test") (section_of d "outputs") = WOk a f ->
    exists f1,
      Forall (fun m => tagged [shape_tag] m = true) (lints f1) /\ hints f1 = [] /\
      f = join_findings f1
            (if existsb output_has_tests outs
             then {| lints := [];
                     hints := map gap_hint (List.filter lacks_tests outs) |}
             else {| lints := [tests_msg]; hints := [] |})) as Hshape.
  { intros a f. unfold lint_tests.
    rewrite any_test_key_section, W_ret_bind, Ht, Hfile. simpl when.
    intros (r & f1 & f2 & Hr & Hk & ->)%W_bind_ok. exists f1.
    assert (Forall (fun m => tagged [shape_tag] m = true) (lints f1)
            /\ hints f1 = []
            /\ r = (existsb output_has_tests outs,
                    map gap_hint (List.filter lacks_tests outs)))
      as (Hl & Hh & ->).
    { rewrite outputs_section_list in Hr. fold outs in Hr.
      simpl truthy in Hr. destruct outs as [|out l].
      - injection Hr as <- <-. by repeat split.
      - unfold py_iter in Hr. rewrite W_ret_bind in Hr.
        destruct (emits_scan_outputs _ _ _ _ _ _ Hr) as [H1 H2].
        apply scan_outputs_spec in Hr as ->.
        split; [done|]. split; [by inversion H2|done]. }
    split; [done|]. split; [done|]. f_equal.
    simpl in Hk. destruct (existsb output_has_tests outs); by injection Hk as <- <-. }
  split; intros a f (f1 & Hl & Hh & ->)%Hshape; rewrite pr_join; simpl pr.
  - rewrite List.filter_app, (apart_filter tests_msg [shape_tag] _ eq_refl Hl).
    by destruct (existsb output_has_tests outs).
  - rewrite Hh. simpl app. destruct (existsb output_has_tests outs); [|done].
    apply filter_gap_hints.
Qed.

Lemma quiet_license_family_hints P d :
  quiet Hints P (lint_license_family E d).
Proof.
  intros a f. unfold lint_license_family.
  destruct (ensure_valid_license_family E d) as [[]|]; try done;
    by intros [= <- <-].
Qed.

End Tests.

Ltac quiet_one ::=
  first
    [ apply silent_quiet; solve [auto with silent_db]
    | apply quiet_license_family; assumption
    | apply quiet_license_family_hints
    | eapply emits_quiet; [solve [eauto with emits_db]|reflexivity] ].

Section TestsRule.

Context (E : Env).

(** In the result of [lintify], for a document whose test section has neither [imports] nor
    [commands], with none of the known test scripts next to the recipe:
    when some output has a test section with [imports] or [commands],
    there is no error that the recipe must have some tests, and there is
    one hint for each output without such a test, in their order; when
    no output has one (or there are no outputs), there is exactly one
    error "The recipe must have some tests." and no such hint. *)
Lemma tests_rule_findings meta rd cf st d f st' :
  st !! meta = Some (OVal (VMap d)) ->
  foreign E d tests_msg ->
  has_tests (dict_get d "test") = false ->
  a_test_file_exists E rd = false ->
  lintify E meta rd cf st = ROk tt f st' ->
  let outs := document_outputs d in
  let errors := List.filter (String.eqb "The recipe must have some tests.") (lints f) in
  let gap_hints := List.filter (has_prefix "It looks like the '") (hints f) in
  (existsb output_has_tests outs = true ->
   errors = [] /\
   gap_hints = map (gap_hint E) (List.filter (fun out => negb (output_has_tests out)) outs)) /\
  (existsb output_has_tests outs = false ->
   errors = ["The recipe must have some tests."] /\ gap_hints = []).
Proof.
  intros Hm Hf Ht Hfile Hl outs errors gap_hints.
  destruct (only_tests E rd d Ht Hfile) as [Hlints Hhints].
  assert (List.filter (has_prefix tests_msg) (lints f)
          = if existsb output_has_tests outs then [] else [tests_msg]) as He.
  { change (lints f) with (pr Lints f).
    eapply lintify_only; [exact Hm| |exact Hl].
    unfold lintify_doc, lintify_rules.
    do 5 skip_quiet.
    apply only_bind_l; [apply Hlints|rest_quiet]. }
  assert (gap_hints
          = if existsb output_has_tests outs
            then map (gap_hint E) (List.filter lacks_tests outs) else []) as Hh.
  { unfold gap_hints. change (hints f) with (pr Hints f).
    eapply lintify_only; [exact Hm| |exact Hl].
    unfold lintify_doc, lintify_rules.
    do 5 skip_quiet.
    apply only_bind_l; [apply Hhints|rest_quiet]. }
  unfold errors. rewrite filter_eqb_prefix.
  change "The recipe must have some tests." with tests_msg. rewrite He, Hh.
  split; intros ->; by split.
Qed.

End TestsRule.

(** ** Rules 6 and 20: the line numbers *)

Definition untidy_selector (line : string) : bool :=
  is_selector_line line && negb (matches good_selectors_pat line).

Definition untidy_jinja (line : string) : bool :=
  is_jinja_line line && negb (matches good_jinja_pat line).

Lemma In_enumerate_from {A} i (l : list A) n x :
  In (n, x) (enumerate_from i l) <-> i <= n /\ nth_error l (n - i) = Some x.
Proof.
  revert i. induction l as [|y l IH]; intros i; simpl.
  - split; [done|]. intros [_ H]. by destruct (n - i).
  - rewrite IH. split.
    + intros [[= <- <-]|[Hle Hn]].
      * split; [lia|]. by rewrite Nat.sub_diag.
      * split; [lia|]. by replace (n - i) with (S (n - S i)) by lia.
    + intros [Hle Hn]. destruct (n - i) as [|k] eqn:Hk.
      * left. injection Hn as <-. f_equal. lia.
      * right. split; [lia|]. by replace (n - S i) with k by lia.
Qed.

Lemma In_selector_lines lines line n :
  In (line, n) (selector_lines lines) <->
  nth_error lines n = Some line /\ is_selector_line line = true.
Proof.
  unfold selector_lines, enumerate. rewrite in_flat_map. split.
  - intros ([i x] & Hin & Hx). apply In_enumerate_from in Hin as [_ Hn].
    rewrite Nat.sub_0_r in Hn.
    destruct (is_selector_line x) eqn:Hs; [|done].
    by destruct Hx as [[= <- <-]|[]].
  - intros [Hn Hs]. exists (n, line). split.
    + apply In_enumerate_from. split; [lia|]. by rewrite Nat.sub_0_r.
    + rewrite Hs. by left.
Qed.

Lemma In_jinja_lines lines line n :
  In (line, n) (jinja_lines lines) <->
  nth_error lines n = Some line /\ is_jinja_line line = true.
Proof.
  unfold jinja_lines, enumerate. rewrite in_flat_map. split.
  - intros ([i x] & Hin & Hx). apply In_enumerate_from in Hin as [_ Hn].
    rewrite Nat.sub_0_r in Hn.
    destruct (is_jinja_line x) eqn:Hs; [|done].
    by destruct Hx as [[= <- <-]|[]].
  - intros [Hn Hs]. exists (n, line). split.
    + apply In_enumerate_from. split; [lia|]. by rewrite Nat.sub_0_r.
    + rewrite Hs. by left.
Qed.

(** The numbers the two rules report: [n] is reported exactly when the
    line at index [n], counting from zero, is untidy. *)
Lemma bad_selectors_lines lines n :
  In n (map snd (bad_selectors lines)) <->
  exists line, nth_error lines n = Some line /\ untidy_selector line = true.
Proof.
  unfold bad_selectors, untidy_selector. rewrite in_map_iff. split.
  - intros ([line i] & <- & [[Hn Hs]%In_selector_lines Hg]%filter_In).
    exists line. simpl. by rewrite Hs, Hg.
  - intros (line & Hn & [Hs Hg]%andb_prop). exists (line, n). split; [done|].
    apply filter_In. split; [|done]. by apply In_selector_lines.
Qed.

Lemma bad_jinja_lines lines n :
  In n (map snd (bad_jinja lines)) <->
  exists line, nth_error lines n = Some line /\ untidy_jinja line = true.
Proof.
  unfold bad_jinja, untidy_jinja. rewrite in_map_iff. split.
  - intros ([line i] & <- & [[Hn Hs]%In_jinja_lines Hg]%filter_In).
    exists line. simpl. by rewrite Hs, Hg.
  - intros (line & Hn & [Hs Hg]%andb_prop). exists (line, n). split; [done|].
    apply filter_In. split; [|done]. by apply In_jinja_lines.
Qed.

Section LineNumbers.

Context (E : Env).

(** The number that a decimal numeral stands for. *)
Definition numeral_value (numeral : string) : option nat :=
  option_map Nat.of_uint (NilEmpty.uint_of_string numeral).

Lemma numeral_value_of_nat n : numeral_value (of_nat n) = Some n.
Proof.
  unfold numeral_value, of_nat. rewrite NilEmpty.usu. cbn [option_map].
  by rewrite Unsigned.of_to.
Qed.

Lemma selectors_msg_shown bad_lines :
  selectors_msg bad_lines
  = "Selectors are suggested to take a ``<two spaces>#<one space>[<expression>]`` form. See lines ["
    +:+ join ", " (map of_nat bad_lines) +:+ "]".
Proof. reflexivity. Qed.

Lemma jinja_msg_shown bad_lines :
  jinja_msg bad_lines
  = "Jinja2 variable definitions are suggested to take a ``{%<one space>set<one space><variable name><one space>=<one space><expression><one space>%}`` form. See lines ["
    +:+ join ", " (map of_nat bad_lines) +:+ "]".
Proof. reflexivity. Qed.

(** The finding of a rule that lists line numbers. *)
Definition lines_finding (msg : list nat -> string) (bad_lines : list nat)
    : list string :=
  match bad_lines with
  | [] => []
  | _ => [msg bad_lines]
  end.

Lemma only_selectors dir text :
  path_exists E (meta_fname (Some dir)) = true ->
  read_text E (meta_fname (Some dir)) = Some text ->
  only Lints (has_prefix selectors_tag) (lint_selectors E (Some dir))
       (lines_finding selectors_msg (map snd (bad_selectors (file_lines text)))).
Proof.
  intros He Hr a f.
  unfold lint_selectors, recipe_file_at, open_text. rewrite He, Hr.
  cbn beta iota delta [when]. rewrite W_ret_bind.
  destruct (bad_selectors (file_lines text)); simpl; by intros [= <- <-].
Qed.

Lemma only_jinja dir text :
  path_exists E (meta_fname (Some dir)) = true ->
  read_text E (meta_fname (Some dir)) = Some text ->
  only Lints (has_prefix jinja_tag) (lint_jinja E (Some dir))
       (lines_finding jinja_msg (map snd (bad_jinja (file_lines text)))).
Proof.
  intros He Hr a f.
  unfold lint_jinja, recipe_file_at, open_text. rewrite He, Hr.
  cbn beta iota delta [when]. rewrite W_ret_bind.
  destruct (bad_jinja (file_lines text)); simpl; by intros [= <- <-].
Qed.

(** In the result of [lintify], the line numbers in the findings on selectors and on Jinja2
    variable definitions count from zero: the finding of each rule lists
    the numbers the rule collected, [sel] or [jin]; an untidy line that
    is the [N]-th of the file, counting from one, is listed as [N - 1];
    and every number listed is that of such a line. *)
Lemma line_numbers_zero_based_findings meta dir cf st d f st' text :
  st !! meta = Some (OVal (VMap d)) ->
  foreign E d selectors_tag ->
  foreign E d jinja_tag ->
  path_exists E (meta_fname (Some dir)) = true ->
  read_text E (meta_fname (Some dir)) = Some text ->
  lintify E meta (Some dir) cf st = ROk tt f st' ->
  let lines := file_lines text in
  let sel := map snd (bad_selectors lines) in
  let jin := map snd (bad_jinja lines) in
  List.filter (has_prefix selectors_tag) (lints f)
    = lines_finding selectors_msg sel /\
  List.filter (has_prefix jinja_tag) (lints f)
    = lines_finding jinja_msg jin /\
  (forall N line, 1 <= N -> nth_error lines (N - 1) = Some line ->
     (untidy_selector line = true -> In (N - 1) sel) /\
     (untidy_jinja line = true -> In (N - 1) jin)) /\
  (forall n, In n sel ->
     exists line, nth_error lines n = Some line /\ untidy_selector line = true) /\
  (forall n, In n jin ->
     exists line, nth_error lines n = Some line /\ untidy_jinja line = true).
Proof.
  intros Hm Hfs Hfj He Hr Hl lines sel jin.
  split; [|split; [|split; [|split]]].
  - change (lints f) with (pr Lints f).
    eapply lintify_only; [exact Hm| |exact Hl].
    unfold lintify_doc, lintify_rules.
    do 7 skip_quiet.
    apply only_bind_l; [by apply only_selectors|rest_quiet].
  - change (lints f) with (pr Lints f).
    eapply lintify_only; [exact Hm| |exact Hl].
    unfold lintify_doc, lintify_rules.
    do 21 skip_quiet.
    apply only_bind_l; [by apply only_jinja|rest_quiet].
  - intros N line _ Hn. split; intros Hu.
    + apply bad_selectors_lines. eauto.
    + apply bad_jinja_lines. eauto.
  - intros n. apply bad_selectors_lines.
  - intros n. apply bad_jinja_lines.
Qed.

End LineNumbers.

(** ** Rule 17: noarch and selectors *)

(** A line that opens a requirements block. *)
Definition req_line (line : string) : bool :=
  String.eqb (strip line) "requirements:".

Definition skip_line (line : string) : bool := startswith (strip line) "skip:".

(** What one line does to [in_requirements] and [requirements_spacing]
    when the loop goes on to the next line. *)
Definition noarch_step (s : bool * string) (line : string) : bool * string :=
  if req_line line then (true, leading line)
  else if fst s && String.eqb (snd s) (leading line) then (false, snd s)
  else s.

(** The line [line] makes the loop append its message, the two
    variables being as [s] says. *)
Definition noarch_hit (s : bool * string) (line : string) : bool :=
  negb (req_line line) &&
  (skip_line line && is_selector_line line
   || fst s && negb (String.eqb (snd s) (leading line)) && is_selector_line line).

Lemma noarch_scan_cons line rest s :
  noarch_scan (line :: rest) (fst s) (snd s) =
  noarch_hit s line
  || noarch_scan rest (fst (noarch_step s line)) (snd (noarch_step s line)).
Proof.
  destruct s as [b sp]. cbn [noarch_scan fst snd].
  unfold noarch_hit, noarch_step, req_line, skip_line. cbn [fst snd].
  destruct (String.eqb (strip line) "requirements:"); [done|]. cbn [negb andb].
  destruct (startswith (strip line) "skip:" && is_selector_line line); [done|].
  cbn [orb]. destruct b; [|done]. cbn [andb].
  destruct (String.eqb sp (leading line)); [done|]. cbn [negb andb].
  by destruct (is_selector_line line).
Qed.

(** The loop appends its message exactly when some line is a hit in the
    state the lines before it lead to. *)
Lemma noarch_scan_hit lines s :
  noarch_scan lines (fst s) (snd s) = true <->
  exists j line, nth_error lines j = Some line /\
    noarch_hit (fold_left noarch_step (firstn j lines) s) line = true.
Proof.
  revert s. induction lines as [|l lines IH]; intros s.
  - split; [done|]. by intros ([|j] & line & ? & _).
  - rewrite noarch_scan_cons, orb_true_iff, IH. split.
    + intros [Hh|(j & line & Hn & Hh)].
      * by exists 0, l.
      * by exists (S j), line.
    + intros ([|j] & line & Hn & Hh).
      * left. by injection Hn as ->.
      * right. by exists j, line.
Qed.

(** The line at [j] is in the block that the requirements line at [i]
    opens: no line after [i], up to [j] included, opens a block or has
    the leading whitespace of the line at [i]; [ind] says what the
    leading whitespace of a line is. *)
Definition block_of (ind : string -> string) (lines : list string) (i j : nat)
    : Prop :=
  i < j /\
  exists ri, nth_error lines i = Some ri /\ req_line ri = true /\
    forall k lk, i < k <= j -> nth_error lines k = Some lk ->
      req_line lk = false /\ ind lk <> ind ri.

Definition in_block (ind : string -> string) (lines : list string) (j : nat)
    : Prop :=
  exists i, block_of ind lines i j.

(** A block is open after the lines [p], with leading whitespace [sp]. *)
Definition open_block (p : list string) (sp : string) : Prop :=
  exists i ri, nth_error p i = Some ri /\ req_line ri = true /\ sp = leading ri /\
    forall k lk, i < k -> nth_error p k = Some lk ->
      req_line lk = false /\ leading lk <> sp.

Lemma fold_noarch_snoc p x s :
  fold_left noarch_step (p ++ [x]) s = noarch_step (fold_left noarch_step p s) x.
Proof. by rewrite fold_left_app. Qed.

Lemma nth_error_snoc {A} (p : list A) x k y :
  nth_error (p ++ [x]) k = Some y <->
  (k < length p /\ nth_error p k = Some y) \/ (k = length p /\ y = x).
Proof.
  destruct (Nat.lt_ge_cases k (length p)) as [Hlt|Hge].
  - rewrite nth_error_app1 by done. split; [by left|].
    intros [[_ ?]|[? _]]; [done|lia].
  - rewrite nth_error_app2 by done. split.
    + destruct (k - length p) as [|n] eqn:Hk; simpl.
      * intros [= <-]. right. split; [lia|done].
      * by destruct n.
    + intros [[? _]|[-> ->]]; [lia|]. by rewrite Nat.sub_diag.
Qed.

Lemma open_block_state p :
  forall sp, (fst (fold_left noarch_step p (false, "")) = true /\
              snd (fold_left noarch_step p (false, "")) = sp)
             <-> open_block p sp.
Proof.
  induction p as [|x p IH] using rev_ind; intros sp.
  - simpl. split; [by intros [? _]|]. by intros ([|i] & ri & ? & _).
  - rewrite fold_noarch_snoc.
    destruct (fold_left noarch_step p (false, "")) as [b s0] eqn:Hst.
    unfold noarch_step. cbn [fst snd] in *.
    destruct (req_line x) eqn:Hx; cbn [fst snd].
    + (* the line opens a block *)
      split.
      * intros [_ <-]. exists (length p), x.
        split; [by rewrite nth_error_app2, Nat.sub_diag|].
        split; [done|]. split; [done|].
        intros k lk Hk Hn. apply nth_error_snoc in Hn as [[? _]|[? _]]; lia.
      * intros (i & ri & Hi & Hri & -> & Hafter). split; [done|].
        apply nth_error_snoc in Hi as [[Hlt Hi]|[-> ->]]; [|done].
        destruct (Hafter (length p) x Hlt) as [Hreq _].
        { by rewrite nth_error_app2, Nat.sub_diag. }
        congruence.
    + (* the line opens no block *)
      assert (open_block (p ++ [x]) sp <->
              open_block p sp /\ leading x <> sp) as ->.
      { split.
        - intros (i & ri & Hi & Hri & -> & Hafter).
          apply nth_error_snoc in Hi as [[Hlt Hi]|[-> ->]]; [|congruence].
          split.
          + exists i, ri. split; [done|]. split; [done|]. split; [done|].
            intros k lk Hk Hn. apply (Hafter k lk Hk).
            apply nth_error_snoc. left. split; [|done].
            apply nth_error_Some. congruence.
          + apply (Hafter (length p) x Hlt).
            by rewrite nth_error_app2, Nat.sub_diag.
        - intros [(i & ri & Hi & Hri & -> & Hafter) Hne].
          exists i, ri. split.
          { apply nth_error_snoc. left. split; [|done].
            apply nth_error_Some. congruence. }
          split; [done|]. split; [done|].
          intros k lk Hk Hn.
          apply nth_error_snoc in Hn as [[? Hn]|[-> ->]]; [by eapply Hafter|].
          done. }
      rewrite <- IH. destruct b; cbn [andb].
      * destruct (String.eqb_spec s0 (leading x)) as [->|Hne]; cbn [fst snd].
        -- split; [by intros [? _]|]. intros [[_ <-] ?]. done.
        -- split; [intros [_ <-]; by split|]. by intros [[_ <-] _].
      * cbn [fst snd]. split; [by intros [? _]|]. by intros [[? _] _].
Qed.

Lemma skip_line_not_req line : skip_line line = true -> req_line line = false.
Proof.
  unfold skip_line, req_line. destruct (String.eqb_spec (strip line) "requirements:") as [->|]; done.
Qed.

Lemma open_block_in_block lines j line :
  nth_error lines j = Some line ->
  (req_line line = false /\
   exists sp, open_block (firstn j lines) sp /\ leading line <> sp)
  <-> in_block leading lines j.
Proof.
  intros Hj. split.
  - intros (Hreq & sp & (i & ri & Hi & Hri & -> & Hafter) & Hne).
    rewrite nth_error_firstn in Hi.
    destruct (Nat.ltb_spec i j) as [Hlt|]; [|done].
    exists i. split; [done|]. exists ri. split; [done|]. split; [done|].
    intros k lk [Hik Hkj] Hk.
    destruct (decide (k = j)) as [->|Hne'].
    + rewrite Hj in Hk. injection Hk as <-. done.
    + apply (Hafter k lk Hik). rewrite nth_error_firstn.
      destruct (Nat.ltb_spec k j); [done|lia].
  - intros (i & Hlt & ri & Hi & Hri & Hblock).
    destruct (Hblock j line) as [Hreq Hne]; [lia|done|].
    split; [done|]. exists (leading ri). split; [|done].
    exists i, ri. rewrite nth_error_firstn.
    destruct (Nat.ltb_spec i j) as [_|]; [|lia].
    split; [done|]. split; [done|]. split; [done|].
    intros k lk Hik Hk. rewrite nth_error_firstn in Hk.
    destruct (Nat.ltb_spec k j) as [Hkj|]; [|done].
    apply (Hblock k lk); [lia|done].
Qed.

(** The lines that make the rule speak: a selector line on a [skip:]
    line or in a requirements block. *)
Definition noarch_flagged (ind : string -> string) (lines : list string) : Prop :=
  exists j line, nth_error lines j = Some line /\ is_selector_line line = true /\
    (skip_line line = true \/ in_block ind lines j).

Lemma noarch_scan_flagged lines :
  noarch_scan lines false "" = true <-> noarch_flagged leading lines.
Proof.
  rewrite (noarch_scan_hit lines (false, "")). unfold noarch_flagged.
  split; intros (j & line & Hj & H); exists j, line; (split; [done|]).
  - unfold noarch_hit in H.
    apply andb_prop in H as [Hreq%negb_true_iff H].
    apply orb_prop in H as [[Hs Hsel]%andb_prop|[[Hb Hsp]%andb_prop Hsel]%andb_prop].
    + split; [done|]. by left.
    + split; [done|]. right.
      apply (open_block_in_block _ _ _ Hj). split; [done|].
      exists (snd (fold_left noarch_step (firstn j lines) (false, ""))).
      split; [by apply open_block_state|].
      apply negb_true_iff, String.eqb_neq in Hsp. congruence.
  - destruct H as [Hsel [Hs|Hb]]; unfold noarch_hit.
    + rewrite (skip_line_not_req _ Hs), Hs, Hsel. done.
    + apply (open_block_in_block _ _ _ Hj) in Hb as (Hreq & sp & Ho & Hne).
      apply open_block_state in Ho as [Hb <-].
      rewrite Hreq, Hb, Hsel. cbn [negb andb].
      assert (String.eqb (snd (fold_left noarch_step (firstn j lines) (false, "")))
                         (leading line) = false) as ->.
      { apply String.eqb_neq. congruence. }
      by rewrite orb_true_r.
Qed.

(** The leading whitespace of a line: the white space its text starts
    with, the newline that ends the line left aside. *)
Fixpoint chomp (line : string) : string :=
  match line with
  | EmptyString => EmptyString
  | String c s' =>
      match s' with
      | EmptyString => if Ascii.eqb c nl then EmptyString else line
      | _ => String c (chomp s')
      end
  end.

Fixpoint span_space (s : string) : string :=
  match s with
  | String c s' => if py_isspace c then String c (span_space s') else EmptyString
  | EmptyString => EmptyString
  end.

Definition indent (line : string) : string := span_space (chomp line).

(** A line of white space only, with white space before its newline. *)
Definition padded_blank (line : string) : bool :=
  String.eqb (lstrip line) "" && negb (String.eqb (chomp line) "").

Lemma lstrip_length s : String.length (lstrip s) <= String.length s.
Proof.
  induction s as [|c s IH]; simpl; [done|].
  destruct (py_isspace c); simpl; lia.
Qed.

Lemma take_span_space s :
  lstrip s <> "" ->
  Text.take (String.length s - String.length (lstrip s)) s = span_space s.
Proof.
  induction s as [|c s IH]; simpl; [done|].
  destruct (py_isspace c) eqn:Hc; simpl.
  - intros Hs. pose proof (lstrip_length s).
    replace (S (String.length s) - String.length (lstrip s))
      with (S (String.length s - String.length (lstrip s))) by lia.
    simpl. by rewrite IH.
  - intros _. by rewrite Nat.sub_diag.
Qed.

Lemma span_space_chomp s : lstrip s <> "" -> span_space (chomp s) = span_space s.
Proof.
  induction s as [|c s IH]; [done|]. cbn [lstrip chomp span_space].
  destruct (py_isspace c) eqn:Hc.
  - intros Hs. destruct s as [|c' s]; [done|].
    cbn [span_space]. rewrite Hc. by rewrite IH.
  - intros _. destruct s as [|c' s].
    + destruct (Ascii.eqb_spec c nl) as [->|]; [done|].
      cbn [span_space]. by rewrite Hc.
    + cbn [span_space]. by rewrite Hc.
Qed.

(** Except on such lines, [line[:-len(line.lstrip())]] is the leading
    whitespace of the line. *)
Lemma leading_indent line : padded_blank line = false -> leading line = indent line.
Proof.
  unfold padded_blank, leading, indent.
  destruct (String.eqb_spec (lstrip line) "") as [Hl|Hl]; simpl.
  - intros Hc%negb_false_iff%String.eqb_eq. by rewrite Hl, Hc.
  - intros _. destruct (String.length (lstrip line)) eqn:Hn.
    + by destruct (lstrip line).
    + simpl. rewrite <- Hn, take_span_space by done.
      by rewrite span_space_chomp.
Qed.

Lemma block_of_ext ind1 ind2 lines i j :
  (forall k lk, nth_error lines k = Some lk -> ind1 lk = ind2 lk) ->
  block_of ind1 lines i j -> block_of ind2 lines i j.
Proof.
  intros Hext (Hlt & ri & Hi & Hreq & Hb). split; [done|].
  exists ri. split; [done|]. split; [done|].
  intros k lk Hk Hn. destruct (Hb k lk Hk Hn) as [? Hne]. split; [done|].
  by rewrite <- (Hext _ _ Hn), <- (Hext _ _ Hi).
Qed.

Lemma noarch_flagged_indent lines :
  (forall k lk, nth_error lines k = Some lk -> padded_blank lk = false) ->
  noarch_flagged leading lines <-> noarch_flagged indent lines.
Proof.
  intros Hb.
  assert (forall k lk, nth_error lines k = Some lk -> leading lk = indent lk)
    as Hext by (intros; eapply leading_indent, Hb; eauto).
  split; intros (j & line & Hj & Hs & Hw); exists j, line;
    (split; [done|]); (split; [done|]);
    (destruct Hw as [?|[i Hblock]]; [by left|right; exists i]).
  - by eapply block_of_ext.
  - eapply block_of_ext; [|done]. intros. symmetry. eauto.
Qed.

(** [build.noarch], when the build section has one. *)
Definition build_noarch (d : dict) : option value :=
  match section_of d "build" with
  | VMap m => dict_get m "noarch"
  | _ => None
  end.

Section Noarch.

Context (E : Env).

Lemma only_noarch rd d v text :
  build_noarch d = Some v -> is_none v = false ->
  path_exists E (meta_fname rd) = true ->
  read_text E (meta_fname rd) = Some text ->
  only Lints (has_prefix noarch_tag) (lint_noarch E rd (section_of d "build"))
       (if noarch_scan (file_lines text) false "" then [noarch_msg E v] else []).
Proof.
  intros Hv Hn He Hr a f. unfold lint_noarch, build_noarch, open_text in *.
  destruct (section_of d "build") as [| | | | | |m]; try done.
  unfold py_get, py_getitem. rewrite Hv, W_ret_bind.
  change (default VNone (Some v)) with v.
  rewrite Hn, He, Hr. cbn beta iota delta [when negb andb]. rewrite W_ret_bind.
  destruct (noarch_scan (file_lines text) false "").
  - rewrite W_ret_bind. by intros [= <- <-].
  - by intros [= <- <-].
Qed.

(** In the result of [lintify], with [build.noarch] set and the recipe file
    there and readable, and no line of white space only that has white
    space before its newline: there is exactly one noarch-selector error
    when some selector line is a [skip:] line or lies in a requirements
    block, and none otherwise.  A block runs from a line that reads
    [requirements:] to the first line with the same leading whitespace
    as that line, whatever the leading whitespace of the lines in
    between, be it longer or shorter. *)
Lemma noarch_selectors_rule_findings meta rd cf st d f st' v text :
  st !! meta = Some (OVal (VMap d)) ->
  foreign E d noarch_tag ->
  build_noarch d = Some v -> is_none v = false ->
  path_exists E (meta_fname rd) = true ->
  read_text E (meta_fname rd) = Some text ->
  forallb (fun line => negb (padded_blank line)) (file_lines text) = true ->
  lintify E meta rd cf st = ROk tt f st' ->
  let lines := file_lines text in
  let errors := List.filter (has_prefix noarch_tag) (lints f) in
  (noarch_flagged indent lines -> errors = [noarch_msg E v]) /\
  (~ noarch_flagged indent lines -> errors = []).
Proof.
  intros Hm Hf Hv Hn He Hr Hblank Hl lines errors.
  assert (errors = if noarch_scan lines false "" then [noarch_msg E v] else [])
    as ->.
  { unfold errors. change (lints f) with (pr Lints f).
    eapply lintify_only; [exact Hm| |exact Hl].
    unfold lintify_doc, lintify_rules.
    do 19 skip_quiet.
    apply only_bind_l; [by apply only_noarch|rest_quiet]. }
  assert (noarch_scan lines false "" = true <-> noarch_flagged indent lines)
    as Hscan.
  { rewrite noarch_scan_flagged. apply noarch_flagged_indent.
    intros k lk Hk. rewrite forallb_forall in Hblank.
    apply negb_true_iff, Hblank. by eapply nth_error_In. }
  destruct (noarch_scan lines false ""); split; try done.
  - intros Hno. destruct Hno. by apply Hscan.
  - intros Hyes. apply Hscan in Hyes. done.
Qed.

End Noarch.

(** ** The document and the store *)

Section Frame.

Context (E : Env).

(** The store after a pass: [lintify] does not change the document: after a pass the
    variable [meta] refers to the same mapping, with the same keys in
    the same order and the same sections; every object of the store
    that was there before is as it was; the list from which the
    unexpected keys are removed is an object of its own, allocated by
    the pass, that holds the expected keys at the end. *)
Lemma lintify_leaves_document_findings meta rd cf st d f st' :
  st !! meta = Some (OVal (VMap d)) ->
  lintify E meta rd cf st = ROk tt f st' ->
  st' !! meta = Some (OVal (VMap d)) /\
  (forall r o, st !! r = Some o -> st' !! r = Some o) /\
  exists major_sections,
    st !! major_sections = None /\
    st' !! major_sections = Some (OList (List.filter expected (dict_keys d))).
Proof.
  intros Hm Hl. rewrite (lintify_run E _ _ _ _ _ Hm) in Hl.
  destruct (lintify_doc E d rd cf) as [a f0|e]; [|done].
  injection Hl as _ _ <-. unfold final_store.
  set (r1 := fresh_loc st).
  set (st1 := <[r1 := OList (dict_keys d)]> st).
  set (r2 := fresh_loc st1).
  assert (forall r o, st !! r = Some o ->
            (<[r1 := OList (List.filter expected (dict_keys d))]>
               (<[r2 := OList (unexpected_keys (dict_keys d))]> st1)) !! r
            = Some o) as Hframe.
  { intros r o Hr.
    assert (r1 <> r) by (by eapply fresh_loc_ne).
    assert (st1 !! r = Some o) as Hr1 by (unfold st1; by rewrite lookup_insert_ne).
    assert (r2 <> r) by (by eapply fresh_loc_ne).
    by rewrite !lookup_insert_ne. }
  split; [by apply Hframe|]. split; [done|].
  exists r1. split; [|apply lookup_insert_eq].
  destruct (st !! r1) eqn:Hr1; [|done].
  by destruct (fresh_loc_ne _ _ _ Hr1).
Qed.

(** C9. With the collaborators fixed, what [lintify] returns depends on
    the document alone: on two stores that hold the same document the
    two runs return the same errors and the same hints in the same
    order (or raise the same exception), and a second run, on the store
    the first one left, returns what the first returned. *)
Theorem lintify_deterministic meta rd cf st1 st2 :
  st1 !! meta = st2 !! meta ->
  outcome (lintify E meta rd cf st1) = outcome (lintify E meta rd cf st2) /\
  (forall a f st1', lintify E meta rd cf st1 = ROk a f st1' ->
                    outcome (lintify E meta rd cf st1') = WOk a f).
Proof.
  intros Heq.
  destruct (st1 !! meta) as [[[| | | | | |d]|l]|] eqn:H1;
    try (split;
         [unfold lintify, mbind, M_bind, read_doc; by rewrite H1, <- Heq
         |intros a f st1';
          unfold lintify, mbind, M_bind, read_doc; by rewrite H1]).
  split.
  - by rewrite !(lintify_outcome E _ _ _ _ d).
  - intros a f st1' Hl.
    destruct a.
    destruct (lintify_leaves_document_findings _ _ _ _ _ _ _ H1 Hl) as [Hm' _].
    rewrite (lintify_outcome E _ _ _ _ d Hm').
    rewrite <- (lintify_outcome E _ _ _ _ d H1). by rewrite Hl.
Qed.

End Frame.

(** ** The shape of the source section *)

(** [d[k] = v]: the key keeps its place, or comes last when it is new. *)
Fixpoint dict_set (d : dict) (k : string) (v : value) : dict :=
  match d with
  | [] => [(k, v)]
  | (k', v') :: d' =>
      if String.eqb k' k then (k', v) :: d' else (k', v') :: dict_set d' k v
  end.

Lemma dict_get_set d k v : dict_get (dict_set d k v) k = Some v.
Proof.
  induction d as [|[k' v'] d IH]; simpl.
  - by rewrite String.eqb_refl.
  - destruct (String.eqb k' k) eqn:Hk; simpl; by rewrite Hk.
Qed.

Lemma dict_get_set_ne d k v k' :
  k <> k' -> dict_get (dict_set d k v) k' = dict_get d k'.
Proof.
  intros Hne. induction d as [|[k0 v0] d IH]; simpl.
  - by apply String.eqb_neq in Hne as ->.
  - destruct (String.eqb_spec k0 k) as [->|]; simpl.
    + by apply String.eqb_neq in Hne as ->.
    + by rewrite IH.
Qed.

Lemma dict_keys_set d k v v' :
  dict_keys (dict_set d k v) = dict_keys (dict_set d k v').
Proof.
  induction d as [|[k0 v0] d IH]; simpl; [done|].
  destruct (String.eqb k0 k); simpl; [done|]. by f_equal.
Qed.

Lemma for_ext {A} (l : list A) (b1 b2 : A -> W unit) :
  (forall x, b1 x = b2 x) -> for_ l b1 = for_ l b2.
Proof.
  intros H. induction l as [|x l IH]; simpl; [done|]. by rewrite H, IH.
Qed.

Section SourceShape.

Context (E : Env).

(** Two documents with the same sections, as [get_section] reads them. *)
Definition same_sections (d1 d2 : dict) : Prop :=
  forall name, get_section E (VMap d1) name = get_section E (VMap d2) name.

Lemma same_sections_source D M :
  same_sections (dict_set D "source" (VMap M))
                (dict_set D "source" (VList [VMap M])).
Proof.
  intros name. unfold get_section.
  destruct (String.eqb_spec name "source") as [->|Hne].
  - unfold get_list_section, py_get. by rewrite !dict_get_set.
  - unfold get_list_section, py_get.
    rewrite !(dict_get_set_ne _ "source") by done. done.
Qed.

Lemma lintify_doc_same d1 d2 rd cf :
  same_sections d1 d2 ->
  dict_keys d1 = dict_keys d2 ->
  ensure_valid_license_family E d1 = ensure_valid_license_family E d2 ->
  lintify_doc E d1 rd cf = lintify_doc E d2 rd cf.
Proof.
  intros Hs Hk He. unfold lintify_doc.
  assert (get_sections E (VMap d1) = get_sections E (VMap d2)) as ->.
  { unfold get_sections. by rewrite !Hs. }
  rewrite Hk.
  assert (lint_license_family E d1 = lint_license_family E d2) as Hlic.
  { unfold lint_license_family. by rewrite He. }
  assert (run_conda_forge_specific E (VMap d1) rd
          = run_conda_forge_specific E (VMap d2) rd) as Hcf.
  { unfold run_conda_forge_specific. by rewrite !Hs. }
  assert (forall ms, lint_subsections E (VMap d1) ms
                     = lint_subsections E (VMap d2) ms) as Hsub.
  { intros ms. unfold lint_subsections. apply for_ext. intros section.
    by rewrite Hs. }
  apply W_bind_ext. intros s. apply W_bind_ext. intros _.
  unfold lintify_rules. by rewrite Hlic, Hcf, Hsub.
Qed.

(** C2. A document whose source section is the single mapping [M] and
    the same document with the one-element list of [M] there give the
    same errors and the same hints in the same order (or raise the same
    exception), provided conda-build's license-family validator, which
    is handed the whole document, says the same of both. *)
Theorem source_shape_tolerance m1 m2 rd cf st1 st2 D M :
  let D1 := dict_set D "source" (VMap M) in
  let D2 := dict_set D "source" (VList [VMap M]) in
  st1 !! m1 = Some (OVal (VMap D1)) ->
  st2 !! m2 = Some (OVal (VMap D2)) ->
  ensure_valid_license_family E D1 = ensure_valid_license_family E D2 ->
  outcome (lintify E m1 rd cf st1) = outcome (lintify E m2 rd cf st2).
Proof.
  intros D1 D2 H1 H2 He.
  rewrite (lintify_outcome E _ _ _ _ _ H1), (lintify_outcome E _ _ _ _ _ H2).
  apply lintify_doc_same; [apply same_sections_source|apply dict_keys_set|done].
Qed.

End SourceShape.

(** ** [main] and the missing recipe *)

Section Main.

Context (E : Env).

(** When the recipe directory is not there, [main] raises its own
    error and returns no finding. *)
Lemma main_missing_directory dir cf rh st :
  path_exists E (abspath E dir) = false ->
  main E dir cf rh st = RRaise missing_recipe.
Proof. unfold main. by intros ->. Qed.

(** When the directory is there and [meta.yaml] is not, the guard of
    [main] lets the call through and the error is that of [io.open]. *)
Lemma main_missing_file dir cf rh st :
  path_exists E (abspath E dir) = true ->
  read_text E (path_join (abspath E dir) "meta.yaml") = None ->
  main E dir cf rh st = RRaise (OpenFailed (path_join (abspath E dir) "meta.yaml")).
Proof. unfold main. by intros -> ->. Qed.

End Main.

(** ** Documents on which [lintify] returns

    [lintify] raises when a value is not of the type a rule takes for
    granted, when the recipe file is there and cannot be read, or when
    the validator raises something else than a [RuntimeError].  On a
    document of the expected shape it returns. *)

Definition returns {A} (w : W A) : Prop := exists a f, w = WOk a f.

Lemma returns_ret {A} (a : A) : returns (mret a).
Proof. by exists a, no_findings. Qed.

Lemma returns_tell_lint msg : returns (tell_lint msg).
Proof. unfold tell_lint. by eexists _, _. Qed.

Lemma returns_tell_hint msg : returns (tell_hint msg).
Proof. unfold tell_hint. by eexists _, _. Qed.

Lemma returns_tell_hints l : returns (tell_hints l).
Proof. unfold tell_hints. by eexists _, _. Qed.

Lemma returns_bind {A B} (m : W A) (k : A -> W B) :
  returns m -> (forall a, returns (k a)) -> returns (m ≫= k).
Proof.
  intros (a & f & ->) Hk. destruct (Hk a) as (b & g & Hb).
  exists b, (join_findings f g). unfold mbind, W_bind. by rewrite Hb.
Qed.

Lemma returns_bind_val {A B} (m : W A) (k : A -> W B) a f :
  m = WOk a f -> returns (k a) -> returns (m ≫= k).
Proof.
  intros -> (b & g & Hb).
  exists b, (join_findings f g). unfold mbind, W_bind. by rewrite Hb.
Qed.

Lemma returns_when b (w : W unit) : returns w -> returns (when b w).
Proof. destruct b; [done|]. intros _. apply returns_ret. Qed.

Lemma returns_for {A} (l : list A) (body : A -> W unit) :
  (forall x, In x l -> returns (body x)) -> returns (for_ l body).
Proof.
  induction l as [|x l IH]; simpl; intros H; [apply returns_ret|].
  apply returns_bind; [apply H; by left|]. intros _. apply IH.
  intros y Hy. apply H. by right.
Qed.

(** A value that [in] and [for] accept. *)
Definition container (v : value) : bool :=
  match v with VStr _ | VList _ | VMap _ => true | _ => false end.

(** The field [key] of a section is text, or is not there. *)
Definition text_field (sec : value) (key : string) : bool :=
  match sec with
  | VMap m => match dict_get m key with
              | None | Some (VStr _) => true
              | _ => false
              end
  | _ => false
  end.

Definition field (sec : value) (key : string) : option value :=
  match sec with VMap m => dict_get m key | _ => None end.

Definition elements (v : value) : list value :=
  match v with VList l => l | _ => [] end.

Definition script_ok (build : value) : bool :=
  match field build "script" with
  | None | Some (VStr _) | Some (VMap _) => true
  | Some (VList l) => forallb container l
  | Some _ => false
  end.

Definition build_reqs_ok (requirements : value) : bool :=
  match field requirements "build" with
  | None => true
  | Some v => negb (truthy v) || container v
  end.

Definition validator_ok (E : Env) (d : dict) : bool :=
  match ensure_valid_license_family E d with
  | None | Some (RuntimeError _) => true
  | Some _ => false
  end.

Definition file_ok (E : Env) (rd : option string) : bool :=
  negb (path_exists E (meta_fname rd))
  || match read_text E (meta_fname rd) with Some _ => true | None => false end.

Definition well_shaped (E : Env) (d : dict) (rd : option string) : bool :=
  text_field (section_of d "about") "license"
  && text_field (section_of d "package") "name"
  && forallb is_mapping (elements (section_of d "outputs"))
  && forallb is_mapping (elements (section_of d "source"))
  && script_ok (section_of d "build")
  && build_reqs_ok (section_of d "requirements")
  && validator_ok E d
  && file_ok E rd.

Section Returns.

Context (E : Env).

Lemma returns_py_get m name dflt : returns (py_get (VMap m) name dflt).
Proof. apply returns_ret. Qed.

Lemma returns_sorted order l :
  returns (sorted_by_index order (List.filter (fun k => mem k order) l)).
Proof.
  eexists _, _. apply sorted_by_index_canonical, Forall_filter_mem.
Qed.

Lemma section_is_map d name :
  String.eqb name "source" = false -> String.eqb name "outputs" = false ->
  exists m, section_of d name = VMap m.
Proof.
  unfold section_of, dict_section. intros -> ->.
  destruct (dict_get d name) as [[]|]; eauto.
Qed.

Lemma section_is_list d name :
  String.eqb name "source" = true \/ String.eqb name "outputs" = true ->
  exists l, section_of d name = VList l.
Proof.
  unfold section_of, list_section. intros H.
  destruct (String.eqb name "source");
    [|destruct H as [H|H]; [done|rewrite H]];
    destruct (dict_get d name) as [[]|]; eauto.
Qed.

Lemma returns_scan_outputs outs has hs :
  forallb is_mapping outs = true -> returns (scan_outputs E outs has hs).
Proof.
  revert has hs. induction outs as [|out outs IH]; intros has hs; simpl.
  - intros _. apply returns_ret.
  - intros [Ho Houts]%andb_prop. destruct out as [| | | | | |m]; try done.
    destruct (get_section_returns E m "test") as [f Hg].
    eapply returns_bind_val; [exact Hg|].
    rewrite any_test_key_section, W_ret_bind.
    destruct (has_tests (dict_get m "test")); [by apply IH|].
    apply returns_bind; [apply returns_py_get|]. intros. by apply IH.
Qed.

Lemma returns_open_text rd :
  file_ok E rd = true -> path_exists E (meta_fname rd) = true ->
  returns (open_text E (meta_fname rd)).
Proof.
  unfold file_ok, open_text. intros H He. rewrite He in H. simpl in H.
  destruct (read_text E (meta_fname rd)); [apply returns_ret|done].
Qed.

Lemma returns_py_lower_field sec key :
  text_field sec key = true ->
  returns (v ← py_get sec key (VStr ""); py_lower v).
Proof.
  unfold text_field. destruct sec as [| | | | | |m]; try done.
  unfold py_get. rewrite W_ret_bind.
  destruct (dict_get m key) as [[]|]; try done; intros _; apply returns_ret.
Qed.

Lemma returns_py_strip_field sec key :
  text_field sec key = true ->
  returns (v ← py_get sec key (VStr ""); py_strip v).
Proof.
  unfold text_field. destruct sec as [| | | | | |m]; try done.
  unfold py_get. rewrite W_ret_bind.
  destruct (dict_get m key) as [[]|]; try done; intros _; apply returns_ret.
Qed.

Lemma W_bind_assoc {A B C} (m : W A) (k : A -> W B) (h : B -> W C) :
  (m ≫= k) ≫= h = m ≫= (fun a => k a ≫= h).
Proof.
  unfold mbind, W_bind. destruct m as [a f|]; [|done].
  destruct (k a) as [b g|]; [|done]. destruct (h b) as [c i|]; [|done].
  destruct f, g, i. unfold join_findings; simpl. by rewrite !app_assoc.
Qed.

Lemma returns_py_in_container needle v :
  container v = true -> returns (py_in needle v).
Proof. destruct v; try done; intros _; apply returns_ret. Qed.

Lemma returns_py_iter_container v :
  container v = true -> returns (py_iter v).
Proof. destruct v; try done; intros _; apply returns_ret. Qed.

Lemma returns_legacy v token msg :
  negb (truthy v) || container v = true -> returns (lint_legacy v token msg).
Proof.
  intros H. unfold lint_legacy, build_reqs_has.
  apply returns_bind.
  - destruct (truthy v); [|apply returns_ret].
    by apply returns_py_in_container.
  - intros b. apply returns_when, returns_tell_lint.
Qed.

Lemma py_not_in_set_str s k :
  py_not_in_set s (VStr k) = mret (negb (mem k s)).
Proof. reflexivity. Qed.

Lemma returns_subsections d keys :
  forallb is_mapping (elements (section_of d "outputs")) = true ->
  forallb is_mapping (elements (section_of d "source")) = true ->
  returns (lint_subsections E (VMap d) (List.filter expected keys)).
Proof.
  intros Hout Hsrc. unfold lint_subsections. apply returns_for.
  intros section _.
  destruct (fields_get (FIELDS E) section) as [|x fs]; [apply returns_ret|].
  destruct (get_section_returns E d section) as [f Hg].
  eapply returns_bind_val; [exact Hg|].
  destruct (String.eqb section "source") eqn:Hs;
    [|destruct (String.eqb section "outputs") eqn:Ho].
  - apply String.eqb_eq in Hs as ->.
    destruct (section_is_list d "source") as [l Hl]; [by left|].
    rewrite Hl in *. unfold py_iter. rewrite W_ret_bind.
    apply returns_for. intros sub Hin. cbn [negb andb orb and_then].
    simpl in Hsrc. rewrite forallb_forall in Hsrc.
    specialize (Hsrc _ Hin). destruct sub; try done.
    rewrite W_ret_bind.
    unfold py_iter. rewrite W_ret_bind. apply returns_for.
    intros source_subsection (k & <- & _)%in_map_iff.
    rewrite py_not_in_set_str, W_ret_bind.
    apply returns_when, returns_tell_lint.
  - apply String.eqb_eq in Ho as ->.
    destruct (section_is_list d "outputs") as [l Hl]; [by right|].
    rewrite Hl in *. unfold py_iter. rewrite W_ret_bind.
    apply returns_for. intros sub Hin. cbn [negb andb orb and_then].
    simpl in Hout. rewrite forallb_forall in Hout.
    specialize (Hout _ Hin). destruct sub; try done.
    rewrite W_ret_bind.
    unfold py_iter. rewrite W_ret_bind. apply returns_for.
    intros source_subsection (k & <- & _)%in_map_iff.
    rewrite py_not_in_set_str, W_ret_bind.
    apply returns_when, returns_tell_lint.
  - destruct (section_is_map d section Hs Ho) as [m ->].
    unfold py_iter. rewrite W_ret_bind.
    apply returns_for. intros sub (k & <- & _)%in_map_iff.
    cbn [negb andb orb and_then]. rewrite py_not_in_set_str, W_ret_bind.
    destruct (negb (mem k (x :: fs)));
      [apply returns_tell_lint|apply returns_ret].
Qed.

Lemma mem_dict_get m k : mem k (dict_keys m) = true -> is_Some (dict_get m k).
Proof.
  unfold mem, dict_keys. induction m as [|[k' w] m IH]; [done|].
  cbn [map fst existsb dict_get]. rewrite (String.eqb_sym k k').
  destruct (String.eqb k' k); [eauto|]. apply IH.
Qed.

Lemma returns_hint_pip build :
  is_mapping build = true -> script_ok build = true -> returns (hint_pip build).
Proof.
  destruct build as [| | | | | |m]; try done. intros _.
  unfold script_ok, hint_pip, field.
  change (py_in "script" (VMap m)) with (mret (mem "script" (dict_keys m)) : W bool).
  rewrite W_ret_bind.
  destruct (mem "script" (dict_keys m)) eqn:Hm; [|intros; apply returns_ret].
  simpl when. unfold py_getitem.
  destruct (dict_get m "script") as [v|] eqn:Hv.
  - rewrite W_ret_bind. intros Hok.
    assert (forall items, forallb container items = true ->
              returns (for_ items (fun script =>
                         b ← py_in "python setup.py install" script;
                         when b (tell_hint pip_hint)))) as Hloop.
    { intros items Hi. apply returns_for. intros x Hx.
      rewrite forallb_forall in Hi.
      apply returns_bind; [by apply returns_py_in_container, Hi|].
      intros. apply returns_when, returns_tell_hint. }
    destruct v as [| | | |t|l|m']; try done; cbn [is_str]; unfold py_iter;
      rewrite W_ret_bind; apply Hloop; try done.
    clear. induction (dict_keys m') as [|k ks IH]; [done|]. simpl. exact IH.
  - apply mem_dict_get in Hm as [? Hm]. congruence.
Qed.

(** On a document of the expected shape, and outside the conda-forge
    mode, [lintify] returns its two lists. *)
Theorem lintify_returns meta rd st d :
  st !! meta = Some (OVal (VMap d)) ->
  well_shaped E d rd = true ->
  exists f st', lintify E meta rd false st = ROk tt f st'.
Proof.
  intros Hm Hw. rewrite (lintify_run E _ _ _ _ _ Hm).
  enough (returns (lintify_doc E d rd false)) as (a & f & Hr)
    by (rewrite Hr; destruct a; eauto).
  unfold well_shaped in Hw.
  repeat (apply andb_prop in Hw as [Hw ?]).
  unfold lintify_doc.
  destruct (get_sections_returns E d) as [f0 Hs].
  eapply returns_bind_val; [exact Hs|].
  apply returns_bind; [rewrite lint_unexpected_eq; by eexists _, _|intros _].
  unfold lintify_rules, sections_of.
  cbn [about_section extra_section test_section outputs_section build_section
       requirements_section sources_section package_section].
  destruct (section_is_map d "about" eq_refl eq_refl) as [about Habout].
  destruct (section_is_map d "extra" eq_refl eq_refl) as [extra Hextra].
  destruct (section_is_map d "test" eq_refl eq_refl) as [test Htest].
  destruct (section_is_map d "build" eq_refl eq_refl) as [build Hbuild].
  destruct (section_is_map d "requirements" eq_refl eq_refl) as [reqs Hreqs].
  destruct (section_is_map d "package" eq_refl eq_refl) as [package Hpackage].
  destruct (section_is_list d "outputs") as [outs Houts]; [by right|].
  destruct (section_is_list d "source") as [srcs Hsrcs]; [by left|].
  (* 1 *)
  apply returns_bind; [|intros _].
  { unfold lint_section_order. apply returns_bind; [apply returns_sorted|].
    intros. apply returns_when, returns_tell_lint. }
  (* 2 *)
  apply returns_bind; [|intros _].
  { rewrite Habout. unfold lint_about_contents. apply returns_for. intros.
    apply returns_bind; [apply returns_py_get|]. intros.
    apply returns_when, returns_tell_lint. }
  (* 3 *)
  apply returns_bind; [|intros _].
  { rewrite Hextra. unfold lint_maintainers.
    apply returns_bind; [apply returns_py_get|intros ?].
    apply returns_bind; [apply returns_when, returns_tell_lint|intros _].
    apply returns_bind; [apply returns_py_get|intros ?].
    apply returns_when, returns_tell_lint. }
  (* 4 *)
  apply returns_bind; [|intros _].
  { unfold lint_tests. rewrite any_test_key_section, W_ret_bind.
    do 2 apply returns_when. rewrite Houts in *.
    apply returns_bind.
    - destruct (truthy (VList outs)); [|apply returns_ret].
      unfold py_iter. rewrite W_ret_bind. by apply returns_scan_outputs.
    - intros [[] ?]; [apply returns_tell_hints|apply returns_tell_lint]. }
  (* 5 *)
  apply returns_bind; [|intros _].
  { unfold lint_license_unknown. rewrite <- W_bind_assoc.
    apply returns_bind; [by apply returns_py_lower_field|intros ?].
    apply returns_when, returns_tell_lint. }
  (* 6 *)
  apply returns_bind; [|intros _].
  { unfold lint_selectors, recipe_file_at.
    destruct rd as [dir|]; [|apply returns_ret].
    destruct (path_exists E (meta_fname (Some dir))) eqn:He; [|apply returns_ret].
    simpl when. apply returns_bind; [by apply returns_open_text|intros ?].
    apply returns_when, returns_tell_lint. }
  (* 7 *)
  apply returns_bind; [|intros _].
  { rewrite Hbuild. unfold lint_build_number.
    apply returns_bind; [apply returns_py_get|intros ?].
    apply returns_when, returns_tell_lint. }
  (* 8 *)
  apply returns_bind; [|intros _].
  { rewrite Hreqs. unfold lint_requirements_order. unfold py_keys.
    rewrite W_ret_bind. apply returns_bind; [apply returns_sorted|intros ?].
    apply returns_when, returns_tell_lint. }
  (* 9 *)
  apply returns_bind; [|intros _].
  { rewrite Hsrcs in *. unfold lint_checksums. unfold py_iter. rewrite W_ret_bind.
    apply returns_for. intros src Hin.
    match goal with H : forallb is_mapping (elements (VList srcs)) = true |- _ =>
      simpl in H; rewrite forallb_forall in H; specialize (H _ Hin) end.
    destruct src; try done. unfold py_in. rewrite W_ret_bind.
    destruct (mem "url" (dict_keys m)); [|apply returns_ret].
    unfold py_keys. rewrite W_ret_bind. apply returns_when, returns_tell_lint. }
  (* 10 *)
  apply returns_bind; [|intros _].
  { unfold lint_license_word. rewrite <- W_bind_assoc.
    apply returns_bind; [by apply returns_py_lower_field|intros ?].
    apply returns_when, returns_tell_lint. }
  (* 11 *)
  apply returns_bind; [|intros _].
  { unfold lint_end_of_file, recipe_file_at.
    destruct rd as [dir|]; [|apply returns_ret].
    destruct (path_exists E (meta_fname (Some dir))) eqn:He; [|apply returns_ret].
    simpl when. apply returns_bind; [by apply returns_open_text|intros ?].
    destruct (1 <? _); [apply returns_tell_lint|].
    apply returns_when, returns_tell_lint. }
  (* 12 *)
  apply returns_bind; [|intros _].
  { unfold lint_license_family.
    match goal with H : validator_ok E d = true |- _ =>
      unfold validator_ok in H end.
    destruct (ensure_valid_license_family E d) as [[]|]; try done;
      [apply returns_tell_lint|apply returns_ret]. }
  (* 13 *)
  apply returns_bind; [|intros _].
  { unfold lint_recipe_name. rewrite <- W_bind_assoc.
    apply returns_bind; [by apply returns_py_strip_field|intros ?].
    apply returns_when, returns_tell_lint. }
  (* 14 *)
  apply returns_bind; [apply returns_ret|intros _].
  (* 15 *)
  rewrite Hreqs in *. unfold py_get. rewrite W_ret_bind.
  assert (negb (truthy (default VNone (dict_get reqs "build")))
          || container (default VNone (dict_get reqs "build")) = true) as Hb.
  { match goal with H : build_reqs_ok (VMap reqs) = true |- _ =>
      unfold build_reqs_ok, field in H end.
    by destruct (dict_get reqs "build"). }
  apply returns_bind; [by apply returns_legacy|intros _].
  (* 16 *)
  apply returns_bind; [by apply returns_subsections|intros _].
  (* 17 *)
  apply returns_bind; [|intros _].
  { rewrite Hbuild. unfold lint_noarch. unfold py_get. rewrite W_ret_bind.
    destruct (dict_get build "noarch") as [v|] eqn:Hv; [|apply returns_ret].
    simpl default.
    destruct (negb (is_none v) && path_exists E (meta_fname rd)) eqn:Hc;
      [|apply returns_ret].
    apply andb_prop in Hc as [_ He]. simpl when.
    apply returns_bind; [by apply returns_open_text|intros ?].
    apply returns_when. unfold py_getitem. rewrite Hv, W_ret_bind.
    apply returns_tell_lint. }
  (* 19 *)
  apply returns_bind; [|intros _].
  { rewrite Hpackage. unfold lint_version. unfold py_get. rewrite W_ret_bind.
    apply returns_when. rewrite W_ret_bind.
    destruct (VersionOrder E _); [apply returns_tell_lint|apply returns_ret]. }
  (* 20 *)
  apply returns_bind; [|intros _].
  { unfold lint_jinja, recipe_file_at.
    destruct rd as [dir|]; [|apply returns_ret].
    destruct (path_exists E (meta_fname (Some dir))) eqn:He; [|apply returns_ret].
    simpl when. apply returns_bind; [by apply returns_open_text|intros ?].
    apply returns_when, returns_tell_lint. }
  (* 21 *)
  apply returns_bind; [by apply returns_legacy|intros _].
  rewrite Hbuild in *. by apply returns_hint_pip.
Qed.

End Returns.

(** * The claims on the rule engine

    For each rule: what the result of [lintify] holds whenever [lintify]
    returns, and that it does return on a document of the expected
    shape outside the conda-forge mode. *)

Section Claims.

Context (E : Env).

(** [lintify] returns its two lists. *)
Definition lintify_completes (meta : loc) (rd : option string) (cf : bool)
    (st : store) : Prop :=
  exists f st', lintify E meta rd cf st = ROk tt f st'.

Lemma well_shaped_completes meta rd cf st d :
  st !! meta = Some (OVal (VMap d)) ->
  cf = false -> well_shaped E d rd = true -> lintify_completes meta rd cf st.
Proof. intros Hm -> Hw. by eapply lintify_returns. Qed.

(** C1. A document whose test section has neither [imports] nor
    [commands], with none of the known test scripts next to the recipe:
    when some output has a test section with [imports] or [commands],
    there is no error that the recipe must have some tests, and there is
    one hint for each output without such a test, in their order; when
    no output has one (or there are no outputs), there is exactly one
    error "The recipe must have some tests." and no such hint. *)
Theorem tests_rule meta rd cf st d :
  st !! meta = Some (OVal (VMap d)) ->
  foreign E d tests_msg ->
  has_tests (dict_get d "test") = false ->
  a_test_file_exists E rd = false ->
  let outs := document_outputs d in
  (forall f st', lintify E meta rd cf st = ROk tt f st' ->
     let errors := List.filter (String.eqb "The recipe must have some tests.") (lints f) in
     let gap_hints := List.filter (has_prefix "It looks like the '") (hints f) in
     (existsb output_has_tests outs = true ->
      errors = [] /\
      gap_hints = map (gap_hint E) (List.filter (fun out => negb (output_has_tests out)) outs)) /\
     (existsb output_has_tests outs = false ->
      errors = ["The recipe must have some tests."] /\ gap_hints = [])) /\
  (cf = false -> well_shaped E d rd = true -> lintify_completes meta rd cf st).
Proof.
  intros Hm Hf Ht Hfile outs. split.
  - intros f st' Hl. exact (tests_rule_findings E _ _ _ _ _ _ _ Hm Hf Ht Hfile Hl).
  - by apply well_shaped_completes.
Qed.

(** C3. The top-level keys: one error for each key outside the
    vocabulary of sections, in the order of the keys; these keys take no
    part in the order check; of the keys that remain there is exactly
    one order error, naming them sorted by canonical index, when they
    are not in canonical relative order, and none when they are.  The
    keys build, package give the one error that expects package, build;
    the keys package, build give none. *)
Theorem top_level_keys_rule meta rd cf st d :
  st !! meta = Some (OVal (VMap d)) ->
  foreign E d unexpected_tag ->
  foreign E d order_tag ->
  let keys := dict_keys d in
  let remaining := List.filter expected keys in
  (forall f st', lintify E meta rd cf st = ROk tt f st' ->
     let order_errors := List.filter (has_prefix order_tag) (lints f) in
     List.filter (has_prefix unexpected_tag) (lints f)
       = map unexpected_key_msg (List.filter (fun k => negb (expected k)) keys) /\
     (~ in_order EXPECTED_SECTION_ORDER remaining ->
      order_errors
        = [section_order_msg (canonical EXPECTED_SECTION_ORDER remaining)]) /\
     (in_order EXPECTED_SECTION_ORDER remaining -> order_errors = []) /\
     (keys = ["build"; "package"] ->
      order_errors = ["The top level meta keys are in an unexpected order. Expecting ['package', 'build']."]) /\
     (keys = ["package"; "build"] -> order_errors = [])) /\
  (cf = false -> well_shaped E d rd = true -> lintify_completes meta rd cf st).
Proof.
  intros Hm Hfu Hfo keys remaining. split.
  - intros f st' Hl.
    exact (top_level_keys_rule_findings E _ _ _ _ _ _ _ Hm Hfu Hfo Hl).
  - by apply well_shaped_completes.
Qed.

(** C4, as the code has it.  With [build.noarch] set and the recipe file
    there and readable, and no line of white space only that has white
    space before its newline: there is exactly one noarch-selector error
    when some selector line is a [skip:] line or lies in a requirements
    block, and none otherwise.  A block runs from a line that reads
    [requirements:] to the first line with the same leading whitespace
    as that line, whatever the leading whitespace of the lines in
    between, be it longer or shorter. *)
Theorem noarch_selectors_rule meta rd cf st d v text :
  st !! meta = Some (OVal (VMap d)) ->
  foreign E d noarch_tag ->
  build_noarch d = Some v -> is_none v = false ->
  path_exists E (meta_fname rd) = true ->
  read_text E (meta_fname rd) = Some text ->
  forallb (fun line => negb (padded_blank line)) (file_lines text) = true ->
  let lines := file_lines text in
  (forall f st', lintify E meta rd cf st = ROk tt f st' ->
     let errors := List.filter (has_prefix noarch_tag) (lints f) in
     (noarch_flagged indent lines -> errors = [noarch_msg E v]) /\
     (~ noarch_flagged indent lines -> errors = [])) /\
  (cf = false -> well_shaped E d rd = true -> lintify_completes meta rd cf st).
Proof.
  intros Hm Hf Hv Hn He Hr Hb lines. split.
  - intros f st' Hl.
    exact (noarch_selectors_rule_findings E _ _ _ _ _ _ _ _ _ Hm Hf Hv Hn He Hr Hb Hl).
  - by apply well_shaped_completes.
Qed.


(** C6. The requirements-order rule looks at the keys of the
    requirements section that are among build, host and run, in their
    order of appearance: when they differ from their sort by canonical
    index there is exactly one requirements-order error, and when they
    are in that relative order there is none; the two cases are the only
    ones, and a key that is absent plays no part. *)
Theorem requirements_order_rule meta rd cf st d :
  st !! meta = Some (OVal (VMap d)) ->
  foreign E d requirements_tag ->
  let seen := seen_requirements d in
  (forall f st', lintify E meta rd cf st = ROk tt f st' ->
     let errors := List.filter (has_prefix requirements_tag) (lints f) in
     (seen <> canonical REQUIREMENTS_ORDER seen ->
      errors = [requirements_order_msg seen]) /\
     (in_order REQUIREMENTS_ORDER seen -> errors = []) /\
     (seen = canonical REQUIREMENTS_ORDER seen <-> in_order REQUIREMENTS_ORDER seen)) /\
  (cf = false -> well_shaped E d rd = true -> lintify_completes meta rd cf st).
Proof.
  intros Hm Hf seen. split.
  - intros f st' Hl.
    exact (requirements_order_rule_findings E _ _ _ _ _ _ _ Hm Hf Hl).
  - by apply well_shaped_completes.
Qed.

(** C8. [lintify] does not change the document: after a pass the
    variable [meta] refers to the same mapping, with the same keys in
    the same order and the same sections; every object of the store
    that was there before is as it was; the list from which the
    unexpected keys are removed is an object of its own, allocated by
    the pass, that holds the expected keys at the end. *)
Theorem lintify_leaves_document meta rd cf st d :
  st !! meta = Some (OVal (VMap d)) ->
  (forall f st', lintify E meta rd cf st = ROk tt f st' ->
     st' !! meta = Some (OVal (VMap d)) /\
     (forall r o, st !! r = Some o -> st' !! r = Some o) /\
     exists major_sections,
       st !! major_sections = None /\
       st' !! major_sections = Some (OList (List.filter expected (dict_keys d)))) /\
  (cf = false -> well_shaped E d rd = true -> lintify_completes meta rd cf st).
Proof.
  intros Hm. split.
  - intros f st' Hl.
    exact (lintify_leaves_document_findings E _ _ _ _ _ _ _ Hm Hl).
  - by apply well_shaped_completes.
Qed.

(** C10. The line numbers in the findings on selectors and on Jinja2
    variable definitions count from zero.  The finding of each rule is
    its message followed by the numbers the rule collected, [sel] or
    [jin], between brackets and separated by a comma and a space, each
    as its decimal numeral, and there is no finding when no number was
    collected; an untidy line that is the [N]-th of the file, counting
    from one, is listed as [N - 1]; and every number listed is that of
    such a line. *)
Theorem line_numbers_zero_based meta dir cf st d text :
  st !! meta = Some (OVal (VMap d)) ->
  foreign E d selectors_tag ->
  foreign E d jinja_tag ->
  path_exists E (meta_fname (Some dir)) = true ->
  read_text E (meta_fname (Some dir)) = Some text ->
  let lines := file_lines text in
  let sel := map snd (bad_selectors lines) in
  let jin := map snd (bad_jinja lines) in
  (forall f st', lintify E meta (Some dir) cf st = ROk tt f st' ->
     List.filter (has_prefix selectors_tag) (lints f)
       = match sel with
         | [] => []
         | _ => ["Selectors are suggested to take a ``<two spaces>#<one space>[<expression>]`` form. See lines ["
                 +:+ join ", " (map of_nat sel) +:+ "]"]
         end /\
     List.filter (has_prefix jinja_tag) (lints f)
       = match jin with
         | [] => []
         | _ => ["Jinja2 variable definitions are suggested to take a ``{%<one space>set<one space><variable name><one space>=<one space><expression><one space>%}`` form. See lines ["
                 +:+ join ", " (map of_nat jin) +:+ "]"]
         end) /\
  (forall n, numeral_value (of_nat n) = Some n) /\
  (forall N line, 1 <= N -> nth_error lines (N - 1) = Some line ->
     (untidy_selector line = true -> In (N - 1) sel) /\
     (untidy_jinja line = true -> In (N - 1) jin)) /\
  (forall n, In n sel ->
     exists line, nth_error lines n = Some line /\ untidy_selector line = true) /\
  (forall n, In n jin ->
     exists line, nth_error lines n = Some line /\ untidy_jinja line = true) /\
  (cf = false -> well_shaped E d (Some dir) = true ->
   lintify_completes meta (Some dir) cf st).
Proof.
  intros Hm Hfs Hfj He Hr lines sel jin.
  split; [|split; [|split; [|split; [|split]]]].
  - intros f st' Hl.
    destruct (line_numbers_zero_based_findings E _ _ _ _ _ _ _ _ Hm Hfs Hfj He Hr Hl)
      as (H1 & H2 & _).
    fold lines in H1, H2. fold sel in H1. fold jin in H2.
    rewrite H1, H2. unfold lines_finding.
    rewrite <- selectors_msg_shown, <- jinja_msg_shown. by split.
  - apply numeral_value_of_nat.
  - intros N line _ Hn. split; intros Hu.
    + apply bad_selectors_lines. eauto.
    + apply bad_jinja_lines. eauto.
  - intros n. apply bad_selectors_lines.
  - intros n. apply bad_jinja_lines.
  - by apply well_shaped_completes.
Qed.

End Claims.

(** * A recipe to run the linter on *)

Module Demo.

Definition allowed_license_families : list string :=
  ["AGPL"; "Apache"; "BSD"; "GPL"; "LGPL"; "MIT"; "Other"; "PSF"; "Proprietary";
   "Public-Domain"].

(** A validator in the manner of conda-build's: it reads
    [about/license_family] and nothing else. *)
Definition license_family (d : dict) : option exn :=
  match dict_get d "about" with
  | Some (VMap about) =>
      match dict_get about "license_family" with
      | Some (VStr family) =>
          if mem family allowed_license_families then None
          else Some (RuntimeError
                       ("about/license_family '" +:+ family +:+ "' not allowed."))
      | _ => None
      end
  | _ => None
  end.

(** The collaborators, over a file system that holds [files]: a path
    exists when a file is at it or below it. *)
Definition env (files : list (string * string)) : Env := {|
  type_name := fun v =>
    match v with
    | VMap _ => "CommentedMap" | VList _ => "CommentedSeq" | VStr _ => "str"
    | VInt _ => "int" | VFloat _ => "ScalarFloat" | VBool _ => "bool"
    | VNone => "NoneType"
    end;
  type_module := fun v =>
    match v with
    | VMap _ | VList _ => "ruamel.yaml.comments"
    | VFloat _ => "ruamel.yaml.scalarfloat"
    | _ => "builtins"
    end;
  py_repr := fun v => match v with VFloat t => t | _ => "[...]" end;
  cbfields :=
    [("package", ["name"; "version"]);
     ("source", ["fn"; "url"; "md5"; "sha1"; "sha256"; "patches"]);
     ("build", ["number"; "string"; "noarch"; "script"; "skip"]);
     ("requirements", ["build"; "host"; "run"]);
     ("test", ["requires"; "commands"; "files"; "imports"]);
     ("outputs", ["name"; "version"; "requirements"; "test"; "script"]);
     ("about", ["home"; "license"; "license_family"; "summary"])];
  ensure_valid_license_family := license_family;
  VersionOrder := fun ver => if String.eqb ver "" then Some ValueError else None;
  path_exists := fun p => existsb (fun '(q, _) => has_prefix p q) files;
  read_text := fun p => snd <$> List.find (fun '(q, _) => String.eqb p q) files;
  abspath := fun p => p;
  environ := fun _ => None;
  gh_get_user := fun _ => Unknown;
  gh_get_repo := fun _ _ => Unknown;
  gh_get_dir_contents := fun _ _ _ => Unknown;
  render_meta_yaml := fun text => Some text;
  yaml_load := fun _ => Some (VMap [])
|}.

Definition lf : string := String nl "".

Definition line (s : string) : string := s +:+ lf.

(** The raw recipe: its second line is an untidy Jinja2 definition, its
    eleventh an untidy selector, its tenth a selector inside the
    requirements block, and it ends with three empty lines. *)
Definition meta_yaml : string :=
  String.concat ""
    [ line "{% set version = 1.0 %}";
      line "{%set name=foo%}";
      line "package:";
      line "  name: foo";
      line "build:";
      line "  noarch: generic";
      line "  number: 0";
      line "requirements:";
      line "  run:";
      line "    - bar  # [win]";
      line "    - baz # [osx]";
      line "about:";
      line "  home: http://foo.example";
      lf; lf ].

Definition doc : dict :=
  [ ("build", VMap [("noarch", VStr "generic"); ("number", VInt 0)]);
    ("bogus", VInt 3);
    ("package", VMap [("name", VStr "foo"); ("version", VStr "1.0")]);
    ("source", VMap [("url", VStr "http://foo.example/foo.tar.gz");
                     ("sha256", VStr "abc")]);
    ("requirements", VMap [("run", VList [VStr "bar"; VStr "baz"]);
                           ("build", VList [VStr "make"])]);
    ("outputs", VList [ VMap [("name", VStr "a");
                              ("test", VMap [("commands", VList [VStr "a -h"])])];
                        VMap [("name", VStr "b")] ]);
    ("about", VMap [("home", VStr "http://foo.example");
                    ("license", VStr "MIT"); ("license_family", VStr "Weird");
                    ("summary", VStr "foo")]);
    ("extra", VMap [("recipe-maintainers", VList [VStr "someone"])]) ].

Definition files : list (string * string) := [("recipe/meta.yaml", meta_yaml)].

Definition E : Env := env files.

Definition meta : loc := 1%positive.

Definition st : store := {[ meta := OVal (VMap doc) ]}.

Definition found : findings :=
  Eval vm_compute in
    match outcome (lintify E meta (Some "recipe") false st) with
    | WOk _ f => f
    | WRaise _ => no_findings
    end.

Lemma run : lintify E meta (Some "recipe") false st = ROk tt found (final_store st doc).
Proof. vm_compute. reflexivity. Qed.

(** The validator has a message for this document; it starts like none
    of the linter's own. *)
Lemma foreign_doc t :
  has_prefix t "about/license_family 'Weird' not allowed." = false ->
  foreign E doc t.
Proof. intros Ht msg H. vm_compute in H. injection H as <-. exact Ht. Qed.

Lemma doc_at_meta : st !! meta = Some (OVal (VMap doc)).
Proof. reflexivity. Qed.

Lemma recipe_there : path_exists E (meta_fname (Some "recipe")) = true.
Proof. reflexivity. Qed.

Lemma recipe_text : read_text E (meta_fname (Some "recipe")) = Some meta_yaml.
Proof. reflexivity. Qed.

(** The document has the shape the rules take for granted. *)
Lemma doc_well_shaped : well_shaped E doc (Some "recipe") = true.
Proof. reflexivity. Qed.

(** A recipe with an output nested under [outputs]: the line that
    follows its requirements block is a selector line with less leading
    whitespace than the [requirements:] line. *)
Definition nested_yaml : string :=
  String.concat ""
    [ line "build:";
      line "  noarch: python";
      line "  number: 0";
      line "outputs:";
      line "  - name: a";
      line "    requirements:";
      line "      - x";
      line "  - name: b  # [win]" ].

Definition nested_doc : dict :=
  [ ("build", VMap [("noarch", VStr "python"); ("number", VInt 0)]);
    ("outputs", VList [ VMap [("name", VStr "a");
                              ("requirements", VList [VStr "x"])];
                        VMap [("name", VStr "b")] ]) ].

Definition nested_E : Env := env [("recipe/meta.yaml", nested_yaml)].

Definition nested_st : store := {[ meta := OVal (VMap nested_doc) ]}.

Definition nested_found : findings :=
  Eval vm_compute in
    match outcome (lintify nested_E meta (Some "recipe") false nested_st) with
    | WOk _ f => f
    | WRaise _ => no_findings
    end.

Lemma nested_run :
  lintify nested_E meta (Some "recipe") false nested_st
  = ROk tt nested_found (final_store nested_st nested_doc).
Proof. vm_compute. reflexivity. Qed.

(** A recipe directory with no [meta.yaml] in it. *)
Definition bare_E : Env := env [("recipe/build.sh", "")].

End Demo.

(** * A recipe with several untidy lines

    The first two lines are untidy Jinja2 definitions; the seventh and
    the twelfth are untidy selectors, the tenth and the eleventh are
    tidy ones. *)

Module Numbered.

Definition meta_yaml : string :=
  String.concat ""
    [ Demo.line "{%set name = foo %}";
      Demo.line "{% set version=1.0 %}";
      Demo.line "package:";
      Demo.line "  name: foo";
      Demo.line "build:";
      Demo.line "  number: 0";
      Demo.line "  skip: true # [win]";
      Demo.line "requirements:";
      Demo.line "  run:";
      Demo.line "    - bar  # [linux]";
      Demo.line "    - baz  # [osx]";
      Demo.line "    - qux #[osx]";
      Demo.line "about:";
      Demo.line "  home: http://foo.example" ].

Definition E : Env := Demo.env [("recipe/meta.yaml", meta_yaml)].

Definition found : findings :=
  Eval vm_compute in
    match outcome (lintify E Demo.meta (Some "recipe") false Demo.st) with
    | WOk _ f => f
    | WRaise _ => no_findings
    end.

Lemma numbered_run :
  lintify E Demo.meta (Some "recipe") false Demo.st
  = ROk tt found (final_store Demo.st Demo.doc).
Proof. vm_compute. reflexivity. Qed.

Lemma numbered_foreign t :
  has_prefix t "about/license_family 'Weird' not allowed." = false ->
  foreign E Demo.doc t.
Proof. intros Ht msg H. vm_compute in H. injection H as <-. exact Ht. Qed.

End Numbered.

(** * The rules on the recipe *)

Lemma tests_rule_witness :
  List.filter (String.eqb "The recipe must have some tests.") (lints Demo.found) = []
  /\ List.filter (has_prefix "It looks like the '") (hints Demo.found)
     = ["It looks like the 'b' output doesn't have any tests."].
Proof.
  refine (proj1 (proj1 (tests_rule Demo.E Demo.meta (Some "recipe") false
                          Demo.st Demo.doc Demo.doc_at_meta
                          (Demo.foreign_doc tests_msg eq_refl) eq_refl eq_refl)
                   Demo.found _ Demo.run)
                eq_refl).
Defined.

Lemma source_shape_tolerance_witness :
  let M := [("url", VStr "http://foo.example/foo.tar.gz"); ("sha256", VStr "abc")] in
  outcome (lintify Demo.E Demo.meta (Some "recipe") false
             {[ Demo.meta := OVal (VMap (dict_set Demo.doc "source" (VMap M))) ]})
  = outcome (lintify Demo.E Demo.meta (Some "recipe") false
               {[ Demo.meta := OVal (VMap (dict_set Demo.doc "source"
                                             (VList [VMap M]))) ]}).
Proof.
  intros M.
  apply (source_shape_tolerance Demo.E Demo.meta Demo.meta (Some "recipe") false
           _ _ Demo.doc M); reflexivity.
Defined.

Lemma top_level_keys_rule_witness :
  List.filter (has_prefix unexpected_tag) (lints Demo.found)
    = ["The top level meta key bogus is unexpected"]
  /\ List.filter (has_prefix order_tag) (lints Demo.found)
     = ["The top level meta keys are in an unexpected order. Expecting ['package', 'source', 'build', 'requirements', 'outputs', 'about', 'extra']."].
Proof.
  destruct (proj1 (top_level_keys_rule Demo.E Demo.meta (Some "recipe") false
                     Demo.st Demo.doc Demo.doc_at_meta
                     (Demo.foreign_doc unexpected_tag eq_refl)
                     (Demo.foreign_doc order_tag eq_refl))
              Demo.found _ Demo.run)
    as (Hu & Ho & _).
  split; [exact Hu|]. apply Ho.
  intros Hs%canonical_fixed. vm_compute in Hs. discriminate Hs.
Defined.

Lemma noarch_selectors_rule_witness :
  List.filter (has_prefix noarch_tag) (lints Demo.found)
  = ["`noarch` packages can't have selectors. If the selectors are necessary, please remove `noarch: generic`."].
Proof.
  refine (proj1 (proj1 (noarch_selectors_rule Demo.E Demo.meta (Some "recipe")
                          false Demo.st Demo.doc (VStr "generic") Demo.meta_yaml
                          Demo.doc_at_meta (Demo.foreign_doc noarch_tag eq_refl)
                          eq_refl eq_refl
                          Demo.recipe_there Demo.recipe_text eq_refl)
                   Demo.found _ Demo.run) _).
  exists 9, (Demo.line "    - bar  # [win]").
  split; [reflexivity|]. split; [reflexivity|]. right.
  exists 7. split; [lia|]. exists (Demo.line "requirements:").
  split; [reflexivity|]. split; [reflexivity|].
  intros k lk [Hlo Hhi] Hk.
  assert (k = 8 \/ k = 9) as [->| ->] by lia;
    injection Hk as <-; split; [reflexivity|discriminate|reflexivity|discriminate].
Defined.


Lemma requirements_order_rule_witness :
  List.filter (has_prefix requirements_tag) (lints Demo.found)
  = ["The `requirements/` sections should be defined in the following order: build, host, run; instead saw: run, build."].
Proof.
  refine (proj1 (proj1 (requirements_order_rule Demo.E Demo.meta (Some "recipe")
                          false Demo.st Demo.doc Demo.doc_at_meta
                          (Demo.foreign_doc requirements_tag eq_refl))
                   Demo.found _ Demo.run) _).
  intros H. vm_compute in H. discriminate H.
Defined.

Lemma lintify_leaves_document_witness :
  final_store Demo.st Demo.doc !! Demo.meta = Some (OVal (VMap Demo.doc)) /\
  (forall r o, Demo.st !! r = Some o ->
               final_store Demo.st Demo.doc !! r = Some o) /\
  exists major_sections,
    Demo.st !! major_sections = None /\
    final_store Demo.st Demo.doc !! major_sections
    = Some (OList ["build"; "package"; "source"; "requirements"; "outputs";
                   "about"; "extra"]).
Proof.
  exact (proj1 (lintify_leaves_document Demo.E Demo.meta (Some "recipe") false
                  Demo.st Demo.doc Demo.doc_at_meta)
           Demo.found _ Demo.run).
Defined.

Lemma lintify_deterministic_witness :
  outcome (lintify Demo.E Demo.meta (Some "recipe") false Demo.st)
  = outcome (lintify Demo.E Demo.meta (Some "recipe") false
               (<[7%positive := OList ["left"; "over"]]> Demo.st))
  /\ outcome (lintify Demo.E Demo.meta (Some "recipe") false
                (final_store Demo.st Demo.doc))
     = WOk tt Demo.found.
Proof.
  assert (Demo.st !! Demo.meta
          = (<[7%positive := OList ["left"; "over"]]> Demo.st) !! Demo.meta)
    as Heq by (vm_compute; reflexivity).
  destruct (lintify_deterministic Demo.E Demo.meta (Some "recipe") false Demo.st
              (<[7%positive := OList ["left"; "over"]]> Demo.st) Heq)
    as [H1 H2].
  split; [exact H1|]. exact (H2 _ _ _ Demo.run).
Defined.

Lemma line_numbers_zero_based_witness :
  (List.filter (has_prefix selectors_tag) (lints Numbered.found)
     = ["Selectors are suggested to take a ``<two spaces>#<one space>[<expression>]`` form. See lines [6, 11]"] /\
   List.filter (has_prefix jinja_tag) (lints Numbered.found)
     = ["Jinja2 variable definitions are suggested to take a ``{%<one space>set<one space><variable name><one space>=<one space><expression><one space>%}`` form. See lines [0, 1]"] /\
   nth_error (file_lines Numbered.meta_yaml) (7 - 1)
     = Some (Demo.line "  skip: true # [win]") /\
   nth_error (file_lines Numbered.meta_yaml) (12 - 1)
     = Some (Demo.line "    - qux #[osx]") /\
   nth_error (file_lines Numbered.meta_yaml) (1 - 1)
     = Some (Demo.line "{%set name = foo %}") /\
   nth_error (file_lines Numbered.meta_yaml) (2 - 1)
     = Some (Demo.line "{% set version=1.0 %}")) /\
  (List.filter (has_prefix selectors_tag) (lints Demo.found)
     = ["Selectors are suggested to take a ``<two spaces>#<one space>[<expression>]`` form. See lines [10]"] /\
   List.filter (has_prefix jinja_tag) (lints Demo.found)
     = ["Jinja2 variable definitions are suggested to take a ``{%<one space>set<one space><variable name><one space>=<one space><expression><one space>%}`` form. See lines [1]"] /\
   nth_error (file_lines Demo.meta_yaml) (11 - 1)
     = Some (Demo.line "    - baz # [osx]") /\
   nth_error (file_lines Demo.meta_yaml) (2 - 1)
     = Some (Demo.line "{%set name=foo%}")).
Proof.
  split.
  - destruct (proj1 (line_numbers_zero_based Numbered.E Demo.meta "recipe" false
                       Demo.st Demo.doc Numbered.meta_yaml Demo.doc_at_meta
                       (Numbered.numbered_foreign selectors_tag eq_refl)
                       (Numbered.numbered_foreign jinja_tag eq_refl)
                       eq_refl eq_refl)
                Numbered.found _ Numbered.numbered_run)
      as (Hs & Hj).
    split; [|split; [|repeat split; reflexivity]].
    + refine (eq_trans Hs _). vm_compute. reflexivity.
    + refine (eq_trans Hj _). vm_compute. reflexivity.
  - destruct (proj1 (line_numbers_zero_based Demo.E Demo.meta "recipe" false
                       Demo.st Demo.doc Demo.meta_yaml Demo.doc_at_meta
                       (Demo.foreign_doc selectors_tag eq_refl)
                       (Demo.foreign_doc jinja_tag eq_refl)
                       Demo.recipe_there Demo.recipe_text)
                Demo.found _ Demo.run)
      as (Hs & Hj).
    split; [|split; [|split; reflexivity]].
    + refine (eq_trans Hs _). vm_compute. reflexivity.
    + refine (eq_trans Hj _). vm_compute. reflexivity.
Defined.

(** ** The requirements block, read as lines with more leading whitespace *)

(** The line at [j] has more leading whitespace than the line at [i]. *)
Definition deeper (lines : list string) (i j : nat) : Prop :=
  exists ri lj, nth_error lines i = Some ri /\ nth_error lines j = Some lj /\
    String.length (indent ri) < String.length (indent lj).

(** A selector line on a [skip:] line, or in a requirements block and
    with more leading whitespace than the line that opens the block. *)
Definition noarch_flagged_deeper (lines : list string) : Prop :=
  exists j line, nth_error lines j = Some line /\ is_selector_line line = true /\
    (skip_line line = true \/
     exists i, block_of indent lines i j /\ deeper lines i j).

(** C4, as it is worded, fails: in this recipe [build.noarch] is set,
    the file is there, no selector line is a [skip:] line or a line of
    a requirements block with more leading whitespace than its
    [requirements:] line, and the rule still gives its error, for the
    selector line that follows the block with less leading whitespace. *)
Lemma noarch_deeper_block_counterexample :
  build_noarch Demo.nested_doc = Some (VStr "python") /\
  read_text Demo.nested_E (meta_fname (Some "recipe")) = Some Demo.nested_yaml /\
  lintify Demo.nested_E Demo.meta (Some "recipe") false Demo.nested_st
    = ROk tt Demo.nested_found (final_store Demo.nested_st Demo.nested_doc) /\
  forallb (fun line => negb (padded_blank line)) (file_lines Demo.nested_yaml)
    = true /\
  ~ noarch_flagged_deeper (file_lines Demo.nested_yaml) /\
  List.filter (has_prefix noarch_tag) (lints Demo.nested_found)
    = ["`noarch` packages can't have selectors. If the selectors are necessary, please remove `noarch: python`."].
Proof.
  split; [reflexivity|]. split; [reflexivity|]. split; [exact Demo.nested_run|].
  split; [reflexivity|]. split; [|reflexivity].
  intros (j & line & Hj & Hsel & Hwhere).
  do 8 (destruct j as [|j]; [injection Hj as <-; vm_compute in Hsel;
                              try discriminate Hsel|]);
    [|by destruct j].
  destruct Hwhere as [Hskip|(i & (Hlt & ri & Hi & Hreq & _) & Hdeep)].
  - vm_compute in Hskip. discriminate Hskip.
  - destruct Hdeep as (ri' & lj & Hi' & Hlj & Hlen).
    rewrite Hi in Hi'. injection Hi' as <-.
    injection Hlj as <-.
    do 7 (destruct i as [|i];
          [injection Hi as <-; vm_compute in Hreq; try discriminate Hreq;
           vm_compute in Hlen; lia|]).
    lia.
Qed.

(** C7. A recipe directory that is there, with no [meta.yaml] in it:
    [main] does not raise its own missing-recipe error, it raises what
    opening the file raises. *)
Theorem main_missing_meta_yaml :
  path_exists Demo.bare_E "recipe" = true /\
  read_text Demo.bare_E "recipe/meta.yaml" = None /\
  main Demo.bare_E "recipe" false true ∅ = RRaise (OpenFailed "recipe/meta.yaml") /\
  main Demo.bare_E "recipe" false true ∅ <> RRaise missing_recipe.
Proof.
  split; [reflexivity|]. split; [reflexivity|].
  assert (main Demo.bare_E "recipe" false true ∅
          = RRaise (OpenFailed "recipe/meta.yaml")) as H.
  { by apply main_missing_file. }
  split; [exact H|]. rewrite H. discriminate.
Qed.

(** A line of white space only, with white space before its newline,
    is where [line[:-len(line.lstrip())]] and the leading whitespace of
    the line part: the expression is empty there.  In this block, opened
    at the first column, the third line is such a line; the loop takes
    the block to end with it and gives no error for the selector line
    that follows, which the leading whitespace of the lines puts inside
    the block. *)
Lemma padded_blank_line_closes_block :
  let lines := [ Demo.line "requirements:"; Demo.line "  run:"; Demo.line "  ";
                 Demo.line "    - foo  # [win]" ] in
  noarch_flagged indent lines /\ noarch_scan lines false "" = false.
Proof.
  intros lines. split; [|reflexivity].
  exists 3, (Demo.line "    - foo  # [win]").
  split; [reflexivity|]. split; [reflexivity|]. right.
  exists 0. split; [lia|]. exists (Demo.line "requirements:").
  split; [reflexivity|]. split; [reflexivity|].
  intros k lk [Hlo Hhi] Hk.
  assert (k = 1 \/ k = 2 \/ k = 3) as [->|[->| ->]] by lia;
    injection Hk as <-; split; (reflexivity || discriminate).
Qed.
(** * Further properties of the module *)

(** ** The table of fields *)

Lemma fields_get_add_extra_ne t k :
  k <> "extra" -> fields_get (add_extra_field t) k = fields_get t k.
Proof.
  intros Hk. induction t as [|[k' fs] t IH]; cbn [add_extra_field fields_get].
  - destruct (String.eqb_spec "extra" k); [congruence|done].
  - destruct (String.eqb_spec k' "extra") as [->|Hne]; cbn [fields_get].
    + destruct (String.eqb_spec "extra" k); [congruence|done].
    + by rewrite IH.
Qed.

Lemma fields_get_add_extra t f :
  In f (fields_get (add_extra_field t) "extra") <->
  f = "recipe-maintainers" \/ In f (fields_get t "extra").
Proof.
  induction t as [|[k fs] t IH]; cbn [add_extra_field fields_get].
  - rewrite String.eqb_refl. simpl.
    split; [intros [<-|[]]; by left|intros [->|[]]; by left].
  - destruct (String.eqb_spec k "extra") as [->|Hne]; cbn [fields_get].
    + rewrite String.eqb_refl. destruct (mem "recipe-maintainers" fs) eqn:Hm.
      * split; [by right|]. intros [->|H]; [by apply mem_In|done].
      * rewrite in_app_iff. simpl. split.
        -- intros [H|[<-|[]]]; auto.
        -- intros [->|H]; auto.
    + apply String.eqb_neq in Hne. rewrite Hne. exact IH.
Qed.

(** The table the linter checks subsection names against is
    conda-build's, with one change: [recipe-maintainers] is a field of
    [extra], whether or not conda-build's table has an [extra] entry.
    The fields of [extra] are those of conda-build and this one; the
    fields of every other section are conda-build's. *)
Theorem FIELDS_extends_conda_build (E : Env) :
  (forall f, In f (fields_get (FIELDS E) "extra") <->
             f = "recipe-maintainers" \/ In f (fields_get (cbfields E) "extra")) /\
  (forall section, section <> "extra" ->
     fields_get (FIELDS E) section = fields_get (cbfields E) section).
Proof.
  split.
  - intros f. apply fields_get_add_extra.
  - intros section. apply fields_get_add_extra_ne.
Qed.

(** ** The section accessor *)

Section Accessor.

Context (E : Env).

(** The sections that are read as lists. *)
Definition list_like (name : string) : bool :=
  String.eqb name "source" || String.eqb name "outputs".

(** The value a section has when it is not there. *)
Definition empty_section (name : string) : value :=
  if list_like name then VList [] else VMap [].

(** The value put in the place of a section of the wrong shape. *)
Definition placeholder (name : string) : value :=
  if list_like name then VList [VMap []] else VMap [].

(** The shapes a section may have in the document: a list for
    [source] and [outputs], a mapping for any other name, and a mapping
    for [source] too. *)
Definition right_shape (name : string) (section : value) : bool :=
  match section with
  | VList _ => list_like name
  | VMap _ => negb (list_like name) || String.eqb name "source"
  | _ => false
  end.

(** The error on a section of another shape. *)
Definition wrong_shape_msg (name : string) (section : value) : string :=
  if list_like name
  then "The " +:+ dq +:+ name +:+ dq +:+ " section was expected to be a "
       +:+ (if String.eqb name "source" then "dictionary or a " else "")
       +:+ "list, but got a " +:+ type_module E section +:+ "."
       +:+ type_name E section +:+ "."
  else "The " +:+ dq +:+ name +:+ dq
       +:+ " section was expected to be a dictionary, but got a "
       +:+ type_name E section +:+ ".".

(** On a mapping, [get_section] returns, whatever is under the name.
    It gives no hint and at most one error.  What it returns is a list
    for [source] and [outputs] and a mapping for any other name.  A
    section that is not there is returned empty, without an error.  A
    section of the right shape is returned as it is, without an error,
    except that a mapping under [source] is returned as the one-element
    list of it.  A section of another shape gets one error, which names
    the section and the type found, and the placeholder is returned: an
    empty mapping, or a list of one empty mapping.  On a parent that is
    not a mapping, the call raises [AttributeError]. *)
Theorem get_section_contract (d : dict) (name : string) :
  (exists v f,
      get_section E (VMap d) name = WOk v f /\
      hints f = [] /\ length (lints f) <= 1 /\
      (if list_like name then exists l, v = VList l else exists m, v = VMap m) /\
      (dict_get d name = None -> lints f = [] /\ v = empty_section name) /\
      (forall x, dict_get d name = Some x ->
         if right_shape name x
         then lints f = [] /\
              v = (if String.eqb name "source" && is_mapping x then VList [x] else x)
         else lints f = [wrong_shape_msg name x] /\ v = placeholder name) /\
      (lints f <> [] -> v = placeholder name) /\
      (forall x, lints f = [] -> dict_get d name = Some x ->
                 v = x \/ (name = "source" /\ is_mapping x = true /\ v = VList [x]))) /\
  (forall parent, is_mapping parent = false ->
                  get_section E parent name = WRaise AttributeError).
Proof.
  split.
  - unfold get_section, get_list_section, empty_section, placeholder,
      right_shape, wrong_shape_msg, section_list_msg, section_dict_msg, list_like.
    unfold py_get. rewrite !W_ret_bind.
    destruct (String.eqb_spec name "source") as [->|Hs];
      [|destruct (String.eqb name "outputs") eqn:Ho];
      destruct (dict_get d _) as [[]|] eqn:Hd; simpl;
      eexists _, _; (split; [reflexivity|]); simpl;
      repeat split; eauto; try done; try lia;
      try (intros x [= <-]; by simpl);
      try (intros x _ [= <-]; eauto).
  - intros [] Hp; try done; unfold get_section, get_list_section, py_get;
      by repeat case_match.
Qed.

(** Normalising twice is normalising once: with what [get_section]
    returned put back under the name, [get_section] returns it as it is
    and appends no error. *)
Theorem get_section_idempotent (d : dict) (name : string) :
  exists v f,
    get_section E (VMap d) name = WOk v f /\
    get_section E (VMap (dict_set d name v)) name = WOk v no_findings.
Proof.
  destruct (get_section_returns E d name) as [f Hg].
  exists (section_of d name), f. split; [exact Hg|].
  unfold get_section, get_list_section, py_get. rewrite dict_get_set.
  unfold section_of, list_section, dict_section.
  destruct (String.eqb name "source"); [|destruct (String.eqb name "outputs")];
    by destruct (dict_get d name) as [[]|].
Qed.

End Accessor.

(** ** Reading several kinds of findings at once *)

Lemma filter_tagged_nil T l :
  (forall t, In t T -> List.filter (has_prefix t) l = []) ->
  List.filter (tagged T) l = [].
Proof.
  intros H. induction l as [|m l IH]; [done|]. simpl.
  destruct (tagged T m) eqn:Hm.
  - unfold tagged in Hm. apply existsb_exists in Hm as (t & Hin & Ht).
    specialize (H t Hin). simpl in H. rewrite Ht in H. discriminate.
  - apply IH. intros t Hin. specialize (H t Hin). simpl in H.
    destruct (has_prefix t m); [discriminate|done].
Qed.

Lemma quiet_tagged {A} c T (w : W A) :
  (forall t, In t T -> quiet c (has_prefix t) w) -> quiet c (tagged T) w.
Proof.
  intros H a f Hf. apply filter_tagged_nil. intros t Hin. by apply (H t Hin a).
Qed.

Lemma only_bind_app {A B} c P (m : W A) (k : A -> W B) l1 l2 :
  only c P m l1 -> (forall a, only c P (k a) l2) -> only c P (m ≫= k) (l1 ++ l2).
Proof.
  intros Hm Hk b f (a & f1 & f2 & H1 & H2 & ->)%W_bind_ok.
  by rewrite pr_join, List.filter_app, (Hm _ _ H1), (Hk _ _ _ H2).
Qed.

Lemma only_raise {A} c P e l : only c P (WRaise e : W A) l.
Proof. by intros ? ?. Qed.

(** The validator's message, when it has one, starts with none of the
    tags of [T]. *)
Definition foreign_all (E : Env) (d : dict) (T : list string) : Prop :=
  forall t, In t T -> foreign E d t.

Ltac in_tags := cbv; repeat first [left; reflexivity | right].

Ltac quiet_tag :=
  first
    [ quiet_one
    | apply quiet_license_family;
      match goal with H : foreign_all _ _ _ |- _ => apply H; in_tags end ].

Ltac quiet_tags :=
  lazymatch goal with
  | |- quiet _ (tagged _) _ =>
      apply quiet_tagged;
      let H := fresh "Hin" in
      intros ? H; vm_compute in H;
      repeat (destruct H as [<-|H]; [quiet_tag|]);
      lazymatch type of H with False => destruct H end
  | |- _ => quiet_tag
  end.

Ltac skip_tags :=
  first
    [ eapply only_bind_val;
        [intros ? ? ?%get_sections_value; eassumption|quiet_tags|]
    | apply only_bind_r; [quiet_tags|intros ?] ].

Ltac rest_tag :=
  repeat first [quiet_tag | apply quiet_bind; [quiet_tag|intros ?]].

Ltac rest_tags :=
  intros;
  lazymatch goal with
  | |- quiet _ (tagged _) _ =>
      apply quiet_tagged;
      let H := fresh "Hin" in
      intros ? H; vm_compute in H;
      repeat (destruct H as [<-|H]; [rest_tag|]);
      lazymatch type of H with False => destruct H end
  | |- _ => rest_tag
  end.

(** Reach the [n]-th block of [lintify]. *)
Tactic Notation "at_block" integer(n) :=
  match goal with
  | |- List.filter _ (lints ?f) = _ => change (lints f) with (pr Lints f)
  | |- List.filter _ (hints ?f) = _ => change (hints f) with (pr Hints f)
  end;
  eapply lintify_only; [eassumption| |eassumption];
  unfold lintify_doc, lintify_rules;
  do n skip_tags.

(** ** What the rules read in a section *)

(** [section.get(key, dflt)] for a section of the document. *)
Definition sec_get (d : dict) (section key : string) (dflt : value) : value :=
  default dflt (field (section_of d section) key).

Lemma py_get_section d section key dflt :
  list_like section = false ->
  py_get (section_of d section) key dflt = mret (sec_get d section key dflt).
Proof.
  unfold list_like. intros [Hs Ho]%orb_false_elim.
  unfold sec_get. by destruct (section_is_map d section Hs Ho) as [m ->].
Qed.

(** ** Rule 2: the items of the about section *)

Section AboutRule.

Context (E : Env).

Definition about_missing (d : dict) : list string :=
  List.filter (fun about_item => negb (truthy (sec_get d "about" about_item (VStr ""))))
              ["home"; "license"; "summary"].

Lemma only_about d :
  only Lints (tagged about_tags) (lint_about_contents (section_of d "about"))
       (map about_item_msg (about_missing d)).
Proof.
  intros a f. unfold lint_about_contents, about_missing. cbn [for_ List.filter].
  rewrite !py_get_section by done. rewrite !W_ret_bind.
  destruct (truthy (sec_get d "about" "home" _)),
           (truthy (sec_get d "about" "license" _)),
           (truthy (sec_get d "about" "summary" _));
    vm_compute; intros [= <- <-]; reflexivity.
Qed.

(** Rule 2 in the result of [lintify]: one error for each of [home],
    [license] and [summary] that the about section does not have or has
    with a false value (an empty text, a null), in this order, and no
    other error of the kind; none when the three are there and true. *)
Theorem about_contents_rule meta rd cf st d f st' :
  st !! meta = Some (OVal (VMap d)) ->
  foreign_all E d about_tags ->
  lintify E meta rd cf st = ROk tt f st' ->
  List.filter (tagged about_tags) (lints f)
  = map about_item_msg
      (List.filter (fun about_item =>
                      negb (truthy (sec_get d "about" about_item (VStr ""))))
                   ["home"; "license"; "summary"]).
Proof.
  intros Hm Hf Hl. at_block 3.
  apply only_bind_l; [apply only_about|rest_tags].
Qed.

End AboutRule.

(** ** Rules 3a and 3b: the maintainers *)

Section MaintainersRule.

Context (E : Env).

Lemma only_maintainers d :
  let m := sec_get d "extra" "recipe-maintainers" (VList []) in
  only Lints (tagged maintainers_tags) (lint_maintainers (section_of d "extra"))
       ((if truthy m then [] else [maintainers_msg]) ++
        (if is_sequence m && negb (is_str m) then [] else [maintainers_list_msg])).
Proof.
  intros m a f. unfold lint_maintainers.
  rewrite !py_get_section by done. rewrite !W_ret_bind. fold m.
  destruct (truthy m), (is_sequence m && negb (is_str m));
    vm_compute; intros [= <- <-]; reflexivity.
Qed.

(** Rules 3a and 3b in the result of [lintify], on what the extra
    section has under [recipe-maintainers] (an empty list when the key
    is not there): the error that the recipe could do with maintainers
    when the value is false, then the error that the maintainers should
    be a list when the value is not a list.  A recipe without the key
    gets the first error only; a non-empty text gets the second only. *)
Theorem maintainers_rule meta rd cf st d f st' :
  st !! meta = Some (OVal (VMap d)) ->
  foreign_all E d maintainers_tags ->
  lintify E meta rd cf st = ROk tt f st' ->
  let m := sec_get d "extra" "recipe-maintainers" (VList []) in
  let errors := List.filter (tagged maintainers_tags) (lints f) in
  errors = (if truthy m then [] else [maintainers_msg]) ++
           (if is_sequence m && negb (is_str m) then [] else [maintainers_list_msg]) /\
  (field (section_of d "extra") "recipe-maintainers" = None ->
   errors = [maintainers_msg]) /\
  (forall s, m = VStr s -> s <> "" -> errors = [maintainers_list_msg]).
Proof.
  intros Hm Hf Hl m errors.
  assert (errors = (if truthy m then [] else [maintainers_msg]) ++
                   (if is_sequence m && negb (is_str m) then []
                    else [maintainers_list_msg])) as Herr.
  { unfold errors. at_block 4.
    apply only_bind_l; [apply only_maintainers|rest_tags]. }
  split; [exact Herr|]. split.
  - intros Hnone. rewrite Herr. unfold m, sec_get. by rewrite Hnone.
  - intros s Hs Hne. rewrite Herr, Hs. simpl.
    by apply String.eqb_neq in Hne as ->.
Qed.

End MaintainersRule.

(** ** Rule 7: the build number *)

Section BuildNumberRule.

Context (E : Env).

Lemma only_build_number d :
  only Lints (has_prefix "The recipe must have a `build/number`")
       (lint_build_number (section_of d "build"))
       (if is_none (sec_get d "build" "number" VNone) then [build_number_msg] else []).
Proof.
  intros a f. unfold lint_build_number.
  rewrite py_get_section by done. rewrite W_ret_bind.
  destruct (is_none _); vm_compute; intros [= <- <-]; reflexivity.
Qed.

(** Rule 7 in the result of [lintify]: exactly one build-number error
    when the build section has no [number] or has a null there, and
    none otherwise; the test is for null, not for falsehood, so the
    number 0 is accepted. *)
Theorem build_number_rule meta rd cf st d f st' :
  st !! meta = Some (OVal (VMap d)) ->
  foreign E d "The recipe must have a `build/number`" ->
  lintify E meta rd cf st = ROk tt f st' ->
  let errors :=
    List.filter (has_prefix "The recipe must have a `build/number`") (lints f) in
  errors = (if is_none (sec_get d "build" "number" VNone)
            then [build_number_msg] else []) /\
  (field (section_of d "build") "number" = Some (VInt 0) -> errors = []).
Proof.
  intros Hm Hf Hl errors.
  assert (errors = if is_none (sec_get d "build" "number" VNone)
                   then [build_number_msg] else []) as Herr.
  { unfold errors. at_block 8.
    apply only_bind_l; [apply only_build_number|rest_tags]. }
  split; [exact Herr|].
  intros H0. rewrite Herr. unfold sec_get. by rewrite H0.
Qed.

End BuildNumberRule.

(** ** Rule 9: a downloaded file has a hash *)

(** A source entry with a [url] and none of the three checksums. *)
Definition lacks_checksum (source_section : value) : bool :=
  match source_section with
  | VMap m =>
      mem "url" (dict_keys m)
      && negb (existsb (fun k => mem k (dict_keys m)) ["sha1"; "sha256"; "md5"])
  | _ => false
  end.

Lemma only_for {A} c P (l : list A) (body : A -> W unit) (q : A -> bool)
    (g : A -> string) :
  (forall x, only c P (body x) (if q x then [g x] else [])) ->
  only c P (for_ l body) (map g (List.filter q l)).
Proof.
  intros Hb. induction l as [|x l IH]; simpl.
  - apply quiet_ret.
  - replace (map g (if q x then x :: List.filter q l else List.filter q l))
      with ((if q x then [g x] else []) ++ map g (List.filter q l))
      by (by destruct (q x)).
    apply only_bind_app; [apply Hb|]. intros _. apply IH.
Qed.

Section ChecksumRule.

Context (E : Env).

Lemma only_checksums srcs :
  only Lints (has_prefix "When defining") (lint_checksums (VList srcs))
       (map (fun _ => checksum_msg) (List.filter lacks_checksum srcs)).
Proof.
  unfold lint_checksums, py_iter. intros a f. rewrite W_ret_bind. revert a f.
  apply (only_for _ _ _ _ lacks_checksum (fun _ => checksum_msg)). intros src a f.
  destruct src as [| | | |s|l|m]; try done; unfold py_in; rewrite W_ret_bind;
    cbn [lacks_checksum].
  - destruct (contains "url" s); [done|]. by intros [= <- <-].
  - destruct (existsb (eq_str "url") l); [done|]. by intros [= <- <-].
  - destruct (mem "url" (dict_keys m)); [|by intros [= <- <-]].
    unfold py_keys. rewrite W_ret_bind. cbn [andb].
    destruct (negb _); by intros [= <- <-].
Qed.

(** Rule 9 in the result of [lintify]: one checksum error for each
    entry of the source section (a single mapping counts as one entry)
    that is a mapping with a [url] key and none of [sha1], [sha256] and
    [md5], and no other; an entry with a [url] and any of the three
    gets none, and so does an entry without a [url]. *)
Theorem checksum_rule meta rd cf st d f st' :
  st !! meta = Some (OVal (VMap d)) ->
  foreign E d "When defining" ->
  lintify E meta rd cf st = ROk tt f st' ->
  List.filter (has_prefix "When defining") (lints f)
  = map (fun _ => checksum_msg)
        (List.filter lacks_checksum (elements (section_of d "source"))).
Proof.
  intros Hm Hf Hl. at_block 10.
  apply only_bind_l; [|rest_tags].
  cbn [sources_section sections_of].
  destruct (section_is_list d "source") as [l ->]; [by left|].
  apply only_checksums.
Qed.

End ChecksumRule.

(** ** Rules 5 and 10: the license text *)

Lemma lower_char_idem c : lower_char (lower_char c) = lower_char c.
Proof. destruct c as [[] [] [] [] [] [] [] []]; reflexivity. Qed.

Lemma lower_idem s : lower (lower s) = lower s.
Proof.
  induction s as [|c s IH]; [done|]. cbn [lower]. by rewrite lower_char_idem, IH.
Qed.

Section LicenseRules.

Context (E : Env).

Lemma only_license_unknown d t :
  sec_get d "about" "license" (VStr "") = VStr t ->
  only Lints (has_prefix "The recipe license cannot")
       (lint_license_unknown (section_of d "about"))
       (if String.eqb "unknown" (strip (lower t)) then [license_unknown_msg] else []).
Proof.
  intros Ht a f. unfold lint_license_unknown.
  rewrite py_get_section by done. rewrite W_ret_bind, Ht.
  unfold py_lower. rewrite W_ret_bind.
  destruct (String.eqb "unknown" _); by intros [= <- <-].
Qed.

Lemma only_license_word d t :
  sec_get d "about" "license" (VStr "") = VStr t ->
  only Lints (has_prefix "The recipe `license`")
       (lint_license_word (section_of d "about"))
       (if contains "license" (lower t) then [license_word_msg] else []).
Proof.
  intros Ht a f. unfold lint_license_word.
  rewrite py_get_section by done. rewrite W_ret_bind, Ht.
  unfold py_lower. rewrite W_ret_bind, lower_idem.
  destruct (contains "license" _); by intros [= <- <-].
Qed.

(** Rules 5 and 10 in the result of [lintify], for a license that is
    the text [t] (the empty text when the about section has none): the
    comparisons are on the text in lower case, so they do not depend on
    the case of the letters.  There is one error that the license
    cannot be unknown exactly when the text, in lower case and without
    the white space around it, is [unknown]; there is one error on the
    word License exactly when the text in lower case contains
    [license]. *)
Theorem license_text_rules meta rd cf st d f st' t :
  st !! meta = Some (OVal (VMap d)) ->
  foreign E d "The recipe license cannot" ->
  foreign E d "The recipe `license`" ->
  sec_get d "about" "license" (VStr "") = VStr t ->
  lintify E meta rd cf st = ROk tt f st' ->
  List.filter (has_prefix "The recipe license cannot") (lints f)
    = (if String.eqb "unknown" (strip (lower t)) then [license_unknown_msg] else []) /\
  List.filter (has_prefix "The recipe `license`") (lints f)
    = (if contains "license" (lower t) then [license_word_msg] else []).
Proof.
  intros Hm Hf1 Hf2 Ht Hl. split.
  - at_block 6. apply only_bind_l; [by apply only_license_unknown|rest_tags].
  - at_block 11. apply only_bind_l; [by apply only_license_word|rest_tags].
Qed.

End LicenseRules.

(** ** Rule 13: the recipe name *)

(** A name of lowercase letters, digits, underscores, hyphens and dots,
    with at least one character. *)
Definition valid_name (s : string) : bool :=
  negb (String.eqb s "") && forallb name_char (list_ascii_of_string s).

Lemma rstrip_end s b c : rstrip s = b +:+ String c "" -> py_isspace c = false.
Proof.
  revert b. induction s as [|a s IH]; intros b; cbn [rstrip].
  - destruct b; discriminate.
  - destruct (rstrip s) as [|x r] eqn:Hr.
    + destruct (py_isspace a) eqn:Ha; intros H.
      * destruct b; discriminate.
      * destruct b as [|b0 b]; cbn in H; [by injection H as ->|].
        injection H as _ H. destruct b; discriminate.
    + intros H. destruct b as [|b0 b]; cbn in H; [discriminate|].
      injection H as _ H. by eapply IH.
Qed.

(** A text that does not end in a newline. *)
Definition open_ended (s : string) : Prop := forall b, s <> b +:+ String nl "".

Lemma strip_open_ended s : open_ended (strip s).
Proof.
  intros b H. unfold strip in H. by apply rstrip_end in H.
Qed.

Lemma many_at_end p s k :
  (forall s', k s' = at_end s') -> open_ended s ->
  many p s k = forallb p (list_ascii_of_string s).
Proof.
  intros Hk. induction s as [|c s IH]; intros Ho; cbn [many].
  - by rewrite Hk.
  - rewrite Hk.
    assert (at_end (String c s) = false) as ->.
    { destruct s as [|c' s]; [|done]. cbn.
      destruct (Ascii.eqb_spec c nl) as [->|]; [|done].
      by destruct (Ho ""). }
    cbn [list_ascii_of_string forallb]. destruct (p c); [|done].
    apply IH. intros b ->. by apply (Ho (String c b)).
Qed.

(** The pattern of the names, on a text that does not end in a
    newline: it accepts the valid names. *)
Lemma matches_name_pat s : open_ended s -> matches name_pat s = valid_name s.
Proof.
  intros Ho. unfold matches, name_pat, valid_name. cbn [seq Many1 run].
  destruct s as [|c s]; [done|]. cbn [String.eqb negb andb list_ascii_of_string forallb].
  destruct (name_char c); [|done]. cbn [andb].
  apply many_at_end.
  - intros s'. by destruct (at_end s').
  - intros b ->. by apply (Ho (String c b)).
Qed.

Section RecipeNameRule.

Context (E : Env).

Lemma only_recipe_name d n :
  sec_get d "package" "name" (VStr "") = VStr n ->
  only Lints (has_prefix "Recipe name has")
       (lint_recipe_name (section_of d "package"))
       (if valid_name (strip n) then [] else [recipe_name_msg]).
Proof.
  intros Hn a f. unfold lint_recipe_name.
  rewrite py_get_section by done. rewrite W_ret_bind, Hn.
  unfold py_strip. rewrite W_ret_bind.
  rewrite matches_name_pat by apply strip_open_ended.
  destruct (valid_name _); by intros [= <- <-].
Qed.

(** Rule 13 in the result of [lintify], for a package name that is the
    text [n] (the empty text when the package section has none): there
    is no error on the name exactly when [n], without the white space
    around it, has at least one character and all its characters are
    lowercase letters, digits, underscores, hyphens or dots; otherwise
    there is exactly one.  A recipe without a name gets the error. *)
Theorem recipe_name_rule meta rd cf st d f st' n :
  st !! meta = Some (OVal (VMap d)) ->
  foreign E d "Recipe name has" ->
  sec_get d "package" "name" (VStr "") = VStr n ->
  lintify E meta rd cf st = ROk tt f st' ->
  let errors := List.filter (has_prefix "Recipe name has") (lints f) in
  errors = (if valid_name (strip n) then [] else [recipe_name_msg]) /\
  (field (section_of d "package") "name" = None -> errors = [recipe_name_msg]).
Proof.
  intros Hm Hf Hn Hl errors.
  assert (errors = if valid_name (strip n) then [] else [recipe_name_msg]) as Herr.
  { unfold errors. at_block 14.
    apply only_bind_l; [by apply only_recipe_name|rest_tags]. }
  split; [exact Herr|].
  intros Hnone. rewrite Herr. unfold sec_get in Hn. rewrite Hnone in Hn.
  by injection Hn as <-.
Qed.

End RecipeNameRule.

(** ** The hint on pip *)

(** [needle in v], when it returns. *)
Definition holds (needle : string) (v : value) : bool :=
  match v with
  | VStr s => contains needle s
  | VList l => existsb (eq_str needle) l
  | VMap m => mem needle (dict_keys m)
  | _ => false
  end.

(** The scripts of a build section: a single text is one script. *)
Definition scripts_of (build : value) : list value :=
  match field build "script" with
  | Some (VStr s) => [VStr s]
  | Some (VList l) => l
  | Some (VMap m) => map VStr (dict_keys m)
  | _ => []
  end.

Lemma only_py_in {A} c P needle v (k : bool -> W A) l :
  only c P (k (holds needle v)) l -> only c P (py_in needle v ≫= k) l.
Proof.
  intros H. destruct v; try apply only_raise; unfold py_in; intros a f;
    rewrite W_ret_bind; apply H.
Qed.

Lemma dict_get_mem m k : dict_get m k = None <-> mem k (dict_keys m) = false.
Proof.
  unfold mem, dict_keys. induction m as [|[k' w] m IH]; [done|].
  cbn [map fst existsb dict_get]. rewrite (String.eqb_sym k k').
  destruct (String.eqb k' k); [done|]. apply IH.
Qed.

Section PipHint.

Context (E : Env).

Lemma only_hint_pip build :
  is_mapping build = true ->
  only Hints (has_prefix "Whenever possible") (hint_pip build)
       (map (fun _ => pip_hint)
            (List.filter (holds "python setup.py install") (scripts_of build))).
Proof.
  destruct build as [| | | | | |m]; try done. intros _.
  unfold hint_pip, scripts_of, field.
  change (py_in "script" (VMap m)) with (mret (mem "script" (dict_keys m)) : W bool).
  intros a f. rewrite W_ret_bind. revert a f.
  assert (forall items,
            only Hints (has_prefix "Whenever possible")
              (for_ items (fun script =>
                 b ← py_in "python setup.py install" script;
                 when b (tell_hint pip_hint)))
              (map (fun _ => pip_hint)
                   (List.filter (holds "python setup.py install") items))) as Hloop.
  { intros items.
    apply (only_for _ _ _ _ (holds "python setup.py install") (fun _ => pip_hint)).
    intros script.
    apply only_py_in. destruct (holds _ script); by intros a f [= <- <-]. }
  destruct (dict_get m "script") as [v|] eqn:Hv.
  - destruct (mem "script" (dict_keys m)) eqn:Hmem.
    2:{ apply dict_get_mem in Hmem. congruence. }
    cbn [when]. unfold py_getitem. rewrite Hv. intros a f. rewrite W_ret_bind.
    revert a f.
    destruct v as [| | | |t|l|m']; try done; cbn [is_str]; unfold py_iter;
      intros a f; rewrite W_ret_bind; apply Hloop.
  - apply dict_get_mem in Hv as ->. by intros a f [= <- <-].
Qed.

(** The hint on pip in the result of [lintify]: one hint for each
    script of the build section that contains
    [python setup.py install], and no other; a [script] that is a
    single text counts as one script, so a text and the one-element
    list of it get the same hints; a build section without [script]
    gets none. *)
Theorem pip_hint_rule meta rd cf st d f st' :
  st !! meta = Some (OVal (VMap d)) ->
  lintify E meta rd cf st = ROk tt f st' ->
  let build := section_of d "build" in
  let pip_hints := List.filter (has_prefix "Whenever possible") (hints f) in
  pip_hints = map (fun _ => pip_hint)
                  (List.filter (holds "python setup.py install") (scripts_of build)) /\
  (forall s, field build "script" = Some (VStr s) \/
             field build "script" = Some (VList [VStr s]) ->
     pip_hints = if contains "python setup.py install" s then [pip_hint] else []) /\
  (field build "script" = None -> pip_hints = []).
Proof.
  intros Hm Hl build pip_hints.
  assert (pip_hints
          = map (fun _ => pip_hint)
                (List.filter (holds "python setup.py install") (scripts_of build)))
    as Hh.
  { unfold pip_hints. at_block 23.
    apply only_hint_pip. change (is_mapping (section_of d "build") = true).
    by destruct (section_is_map d "build" eq_refl eq_refl) as [m ->]. }
  split; [exact Hh|]. split.
  - intros s [Hs|Hs]; rewrite Hh; unfold scripts_of; rewrite Hs; cbn;
      by destruct (contains _ s).
  - intros Hs. rewrite Hh. unfold scripts_of. by rewrite Hs.
Qed.

End PipHint.

(** ** Rule 14: the conda-forge rules *)

Lemma raise_after {A B} (m : W A) (k1 k2 : A -> W B) e :
  returns (m ≫= k1) ->
  (forall a, returns (k1 a) -> k2 a = WRaise e) ->
  m ≫= k2 = WRaise e.
Proof.
  intros (b & f & (a & f1 & f2 & -> & Hk & _)%W_bind_ok) H.
  unfold mbind, W_bind. rewrite (H a); [done|]. by eexists _, _.
Qed.

Definition is_found (r : lookup) : bool :=
  match r with Found => true | _ => false end.

Definition is_unknown (r : lookup) : bool :=
  match r with Unknown => true | _ => false end.

(** [os.path.basename(recipe_dir) if recipe_dir else 'recipe'] *)
Definition recipe_dirname (recipe_dir : option string) : string :=
  match recipe_dir with
  | Some d => if String.eqb d "" then "recipe" else basename d
  | None => "recipe"
  end.

(** The recipe is one of staged-recipes and has a name. *)
Definition staged (recipe_dir : option string) (recipe_name : string) : bool :=
  negb (String.eqb (recipe_dirname recipe_dir) "recipe")
  && negb (String.eqb recipe_name "").

Section CondaForge.

Context (E : Env).

(** An individual that GitHub does not know; a name with a slash is a
    team and is not looked up. *)
Definition unknown_maintainer (maintainer : value) : bool :=
  negb (holds "/" maintainer) && is_unknown (gh_get_user E maintainer).

Lemma only_get_section {A} c t d name (k : value -> W A) l :
  apart t shape_tag = true ->
  only c (has_prefix t) (k (section_of d name)) l ->
  only c (has_prefix t) (get_section E (VMap d) name ≫= k) l.
Proof.
  intros Ht Hk. eapply only_bind_val; [|
    eapply emits_quiet; [apply emits_get_section|destruct c; simpl; by rewrite ?Ht]|
    exact Hk].
  intros a f. apply get_section_value.
Qed.

Lemma only_maintainer maintainer :
  only Lints (has_prefix "Recipe maintainer ")
    (team ← py_in "/" maintainer;
     if team : bool then mret tt
     else known ← try_find (gh_get_user E maintainer);
          when (negb known) (tell_lint (maintainer_msg E maintainer)))
    (if unknown_maintainer maintainer then [maintainer_msg E maintainer] else []).
Proof.
  apply only_py_in. unfold unknown_maintainer.
  destruct (holds "/" maintainer); [apply quiet_ret|].
  unfold try_find. destruct (gh_get_user E maintainer); try done;
    by intros a f [= <- <-].
Qed.

Lemma only_conda_forge_maintainers d rd ms :
  sec_get d "extra" "recipe-maintainers" (VList []) = VList ms ->
  only Lints (has_prefix "Recipe maintainer ")
       (run_conda_forge_specific E (VMap d) rd)
       (map (maintainer_msg E) (List.filter unknown_maintainer ms)).
Proof.
  intros Hms. unfold run_conda_forge_specific.
  destruct (environ E "GH_TOKEN"); [|apply only_raise].
  do 2 (apply only_get_section; [done|]).
  apply only_bind_r; [quiet_one|intros v].
  apply only_bind_r; [quiet_one|intros recipe_name].
  apply only_bind_r.
  { apply (emits_quiet _ _ ["Feedstock with"] ["Recipe with the same name"]);
      [emits_tac|done]. }
  intros _. intros a f.
  rewrite py_get_section by done. rewrite W_ret_bind, Hms.
  unfold py_iter. rewrite W_ret_bind. revert a f.
  apply only_bind_l.
  - apply only_for. intros maintainer. apply only_maintainer.
  - intros _. apply (emits_quiet _ _ ["Please move"] []); [emits_tac|done].
Qed.

(** The conda-forge check of the maintainers, in the result of
    [lintify] with the conda-forge rules on, for maintainers given as
    the list [ms]: one error for each entry that has no slash and that
    GitHub does not know, in the order of the list, and no other; an
    entry with a slash is a team, it is not looked up and never gets an
    error. *)
Theorem conda_forge_maintainers_rule meta rd st d f st' ms :
  st !! meta = Some (OVal (VMap d)) ->
  foreign E d "Recipe maintainer " ->
  sec_get d "extra" "recipe-maintainers" (VList []) = VList ms ->
  lintify E meta rd true st = ROk tt f st' ->
  let errors := List.filter (has_prefix "Recipe maintainer ") (lints f) in
  errors = map (maintainer_msg E)
               (List.filter (fun maintainer =>
                               negb (holds "/" maintainer)
                               && is_unknown (gh_get_user E maintainer)) ms) /\
  (Forall (fun maintainer => holds "/" maintainer = true) ms -> errors = []).
Proof.
  intros Hm Hf Hms Hl errors.
  assert (errors = map (maintainer_msg E) (List.filter unknown_maintainer ms)) as Herr.
  { unfold errors. at_block 15.
    apply only_bind_l; [by apply only_conda_forge_maintainers|rest_tags]. }
  split; [exact Herr|].
  intros Hteams. rewrite Herr.
  assert (List.filter unknown_maintainer ms = []) as ->; [|done].
  clear -Hteams. induction Hteams as [|m l Hteam _ IH]; [done|].
  cbn [List.filter]. unfold unknown_maintainer at 1. rewrite Hteam.
  exact IH.
Qed.

(** The block of the rule that asks GitHub about the name. *)
Lemma only_staged_block (b : bool) org recipe_name :
  let repo := gh_get_repo E org (recipe_name +:+ "-feedstock") in
  let recipes := gh_get_dir_contents E "bioconda" "bioconda-recipes"
                   ("recipes/" +:+ recipe_name) in
  let block :=
    when b
      (must_find (gh_get_user E (VStr org)) ;;
       feedstock_exists ← try_find repo;
       when feedstock_exists (tell_lint feedstock_exists_msg) ;;
       must_find (gh_get_user E (VStr "bioconda")) ;;
       must_find (gh_get_repo E "bioconda" "bioconda-recipes") ;;
       in_bioconda ← try_find recipes;
       when in_bioconda (tell_hint bioconda_hint)) in
  only Lints (has_prefix "Feedstock with") block
       (if b && is_found repo then [feedstock_exists_msg] else []) /\
  only Hints (has_prefix "Recipe with the same name") block
       (if b && is_found recipes then [bioconda_hint] else []).
Proof.
  intros repo recipes block. unfold block.
  destruct b; [|split; apply quiet_ret]. cbn [when andb].
  unfold must_find, try_find.
  split; intros a f;
    destruct (gh_get_user E (VStr org)); try done;
    destruct repo; try done;
    destruct (gh_get_user E (VStr "bioconda")); try done;
    destruct (gh_get_repo E "bioconda" "bioconda-recipes"); try done;
    destruct recipes; try done;
    by intros [= <- <-].
Qed.

Lemma only_conda_forge_staged d rd n :
  sec_get d "package" "name" (VStr "") = VStr n ->
  let org := default "conda-forge" (environ E "GH_ORG") in
  let repo := gh_get_repo E org (strip n +:+ "-feedstock") in
  let recipes := gh_get_dir_contents E "bioconda" "bioconda-recipes"
                   ("recipes/" +:+ strip n) in
  only Lints (has_prefix "Feedstock with") (run_conda_forge_specific E (VMap d) rd)
       (if staged rd (strip n) && is_found repo then [feedstock_exists_msg] else []) /\
  only Hints (has_prefix "Recipe with the same name")
       (run_conda_forge_specific E (VMap d) rd)
       (if staged rd (strip n) && is_found recipes then [bioconda_hint] else []).
Proof.
  intros Hn org repo recipes. unfold run_conda_forge_specific.
  destruct (environ E "GH_TOKEN"); [|split; apply only_raise].
  destruct (only_staged_block (staged rd (strip n)) org (strip n)) as [HL HH].
  assert (forall c t extra_section,
            forallb (apart t) (tags_of c ["Recipe maintainer "; "Please move"] []) = true ->
            quiet c (has_prefix t)
              (maintainers ← py_get extra_section "recipe-maintainers" (VList []);
               ms ← py_iter maintainers;
               for_ ms (fun maintainer =>
                 team ← py_in "/" maintainer;
                 if team : bool then mret tt
                 else
                   known ← try_find (gh_get_user E maintainer);
                   when (negb known) (tell_lint (maintainer_msg E maintainer))) ;;
               when (match rd with
                     | Some d => contains "recipes/example/" d
                     | None => false
                     end)
                    (tell_lint example_dir_msg))) as Hrest.
  { intros c t extra_section Ht.
    eapply emits_quiet; [|exact Ht]. unfold maintainer_msg. emits_tac. }
  split.
  - do 2 (apply only_get_section; [done|]).
    intros a f. rewrite (py_get_section d "package" "name") by done.
    rewrite W_ret_bind, Hn. unfold py_strip. rewrite W_ret_bind. revert a f.
    apply only_bind_l; [exact HL|]. intros _. by apply Hrest.
  - do 2 (apply only_get_section; [done|]).
    intros a f. rewrite (py_get_section d "package" "name") by done.
    rewrite W_ret_bind, Hn. unfold py_strip. rewrite W_ret_bind. revert a f.
    apply only_bind_l; [exact HH|]. intros _. by apply Hrest.
Qed.

(** [recipe_dir is not None and 'recipes/example/' in recipe_dir] *)
Definition in_example_dir (recipe_dir : option string) : bool :=
  match recipe_dir with
  | Some d => contains "recipes/example/" d
  | None => false
  end.

Lemma only_conda_forge_example d rd :
  only Lints (has_prefix "Please move") (run_conda_forge_specific E (VMap d) rd)
       (if in_example_dir rd then [example_dir_msg] else []).
Proof.
  unfold run_conda_forge_specific.
  destruct (environ E "GH_TOKEN"); [|apply only_raise].
  do 2 (apply only_get_section; [done|]).
  do 2 (apply only_bind_r; [quiet_one|intros ?]).
  apply only_bind_r.
  { apply (emits_quiet _ _ ["Feedstock with"] ["Recipe with the same name"]);
      [emits_tac|done]. }
  intros _. do 2 (apply only_bind_r; [quiet_one|intros ?]).
  apply only_bind_r.
  { apply (emits_quiet _ _ ["Recipe maintainer "] []);
      [unfold maintainer_msg; emits_tac|done]. }
  intros _. fold (in_example_dir rd).
  destruct (in_example_dir rd); by intros ? ? [= <- <-].
Qed.

(** The conda-forge checks on the directory and the name, in the result
    of [lintify] with the conda-forge rules on, for a package name that
    is the text [n]: GitHub is asked only for a recipe of
    staged-recipes, one whose directory has a base name other than
    [recipe], and only when the name without the white space around it
    is not empty.  Then there is one error when the organisation has a
    feedstock of that name, and one hint when bioconda has a recipe of
    that name.  In a feedstock, where the directory is [recipe] (or is
    not given), there is neither, whatever GitHub holds.  There is one
    error that the recipe is to be moved exactly when the path of the
    directory contains [recipes/example/]. *)
Theorem conda_forge_directory_rules meta rd st d f st' n :
  st !! meta = Some (OVal (VMap d)) ->
  foreign_all E d ["Feedstock with"; "Please move"] ->
  sec_get d "package" "name" (VStr "") = VStr n ->
  lintify E meta rd true st = ROk tt f st' ->
  let org := default "conda-forge" (environ E "GH_ORG") in
  let errors := List.filter (has_prefix "Feedstock with") (lints f) in
  let notes := List.filter (has_prefix "Recipe with the same name") (hints f) in
  errors = (if staged rd (strip n)
               && is_found (gh_get_repo E org (strip n +:+ "-feedstock"))
            then [feedstock_exists_msg] else []) /\
  notes = (if staged rd (strip n)
              && is_found (gh_get_dir_contents E "bioconda" "bioconda-recipes"
                             ("recipes/" +:+ strip n))
           then [bioconda_hint] else []) /\
  (recipe_dirname rd = "recipe" -> errors = [] /\ notes = []) /\
  List.filter (has_prefix "Please move") (lints f)
  = (if in_example_dir rd then [example_dir_msg] else []).
Proof.
  intros Hm Hf Hn Hl org errors notes.
  destruct (only_conda_forge_staged d rd n Hn) as [HL HH].
  assert (errors = if staged rd (strip n)
                      && is_found (gh_get_repo E org (strip n +:+ "-feedstock"))
                   then [feedstock_exists_msg] else []) as Herr.
  { unfold errors. at_block 15. apply only_bind_l; [exact HL|rest_tags]. }
  assert (notes = if staged rd (strip n)
                     && is_found (gh_get_dir_contents E "bioconda" "bioconda-recipes"
                                    ("recipes/" +:+ strip n))
                  then [bioconda_hint] else []) as Hnote.
  { unfold notes. at_block 15. apply only_bind_l; [exact HH|rest_tags]. }
  split; [exact Herr|]. split; [exact Hnote|]. split.
  - intros Hdir. rewrite Herr, Hnote. unfold staged. rewrite Hdir. by split.
  - at_block 15. apply only_bind_l; [apply only_conda_forge_example|rest_tags].
Qed.

(** With the conda-forge rules on and no [GH_TOKEN] in the environment,
    [lintify] raises [KeyError] on a document of the expected shape: it
    returns neither errors nor hints, not even those of the rules that
    come before. *)
Theorem conda_forge_needs_token meta rd st d :
  st !! meta = Some (OVal (VMap d)) ->
  well_shaped E d rd = true ->
  environ E "GH_TOKEN" = None ->
  lintify E meta rd true st = RRaise KeyError.
Proof.
  intros Hm Hw Henv. rewrite (lintify_run E _ _ _ _ _ Hm).
  enough (lintify_doc E d rd true = WRaise KeyError) as -> by done.
  assert (returns (lintify_doc E d rd false)) as Hret.
  { destruct (lintify_returns E meta rd st d Hm Hw) as (f & st' & Hl).
    rewrite (lintify_run E _ _ _ _ _ Hm) in Hl.
    destruct (lintify_doc E d rd false) as [a g|e]; [by exists a, g|done]. }
  unfold lintify_doc, lintify_rules in *.
  do 15 (eapply raise_after; [exact Hret|]; clear Hret; intros ? Hret;
         cbv beta in Hret).
  unfold when at 1, run_conda_forge_specific. by rewrite Henv.
Qed.

End CondaForge.

(** ** [main] on a recipe directory *)

Section MainRuns.

Context (E : Env).

Lemma lintify_not_mapping meta rd cf st doc :
  st !! meta = Some (OVal doc) -> is_mapping doc = false ->
  lintify E meta rd cf st = RRaise AttributeError.
Proof.
  intros Hm Hd. unfold lintify, mbind, M_bind, read_doc. rewrite Hm.
  by destruct doc.
Qed.

(** [main] on a directory that is there, with a recipe file that can be
    read, rendered and parsed into the mapping [d]: what it returns is
    what [lintify] finds in [d], with the absolute path of the directory
    as the recipe directory.  With [return_hints] off the result is the
    list of errors alone, and it is the list of errors that comes with
    the hints when [return_hints] is on.  An exception of [lintify] is
    the exception of [main].  The objects of the caller are left as
    they were. *)
Theorem main_runs_lintify dir cf rh st text content d :
  path_exists E (abspath E dir) = true ->
  read_text E (path_join (abspath E dir) "meta.yaml") = Some text ->
  render_meta_yaml E text = Some content ->
  yaml_load E content = Some (VMap d) ->
  match lintify_doc E d (Some (abspath E dir)) cf with
  | WOk _ f =>
      exists st',
        main E dir cf rh st
        = ROk (if rh then ResultsHints (lints f) (hints f) else Results (lints f))
              no_findings st' /\
        (forall r o, st !! r = Some o -> st' !! r = Some o)
  | WRaise e => main E dir cf rh st = RRaise e
  end.
Proof.
  intros He Hr Hc Hy. unfold main. rewrite He, Hr, Hc, Hy. cbn [negb].
  set (meta := fresh_loc st).
  assert (<[meta := OVal (VMap d)]> st !! meta = Some (OVal (VMap d))) as Hm
    by apply lookup_insert_eq.
  pose proof (lintify_run E meta (Some (abspath E dir)) cf _ d Hm) as Hrun.
  destruct (lintify_doc E d (Some (abspath E dir)) cf) as [[] f|e].
  - rewrite Hrun. eexists. split; [reflexivity|].
    intros r o Hro.
    assert (meta <> r) as Hne by (by eapply fresh_loc_ne).
    assert (<[meta := OVal (VMap d)]> st !! r = Some o) as Hro'
      by (by rewrite lookup_insert_ne).
    by destruct (lintify_leaves_document_findings E _ _ _ _ _ _ _ Hm Hrun)
      as (_ & Hframe & _); apply Hframe.
  - by rewrite Hrun.
Qed.

(** A recipe file whose YAML is not a mapping (an empty file, which
    parses to null, a list, a scalar): [main] raises [AttributeError],
    whatever the flags, and returns no finding. *)
Theorem main_rejects_non_mapping dir cf rh st text content doc :
  path_exists E (abspath E dir) = true ->
  read_text E (path_join (abspath E dir) "meta.yaml") = Some text ->
  render_meta_yaml E text = Some content ->
  yaml_load E content = Some doc ->
  is_mapping doc = false ->
  main E dir cf rh st = RRaise AttributeError.
Proof.
  intros He Hr Hc Hy Hd. unfold main. rewrite He, Hr, Hc, Hy. cbn [negb].
  rewrite (lintify_not_mapping _ _ _ _ doc); [done| |done].
  apply lookup_insert_eq.
Qed.

End MainRuns.

(** ** A license that is not a text *)

(** A block that returns, or raises [AttributeError]. *)
Definition returns_or_aborts {A} (w : W A) : Prop :=
  returns w \/ w = WRaise AttributeError.

Lemma aborts_bind {A B} (m : W A) (k : A -> W B) :
  returns_or_aborts m -> (forall a, k a = WRaise AttributeError) ->
  m ≫= k = WRaise AttributeError.
Proof.
  intros [(a & f & ->)| ->] Hk; [|done].
  unfold mbind, W_bind. by rewrite Hk.
Qed.

Lemma returns_or_aborts_bind {A B} (m : W A) (k : A -> W B) :
  returns_or_aborts m -> (forall a, returns_or_aborts (k a)) ->
  returns_or_aborts (m ≫= k).
Proof.
  intros [(a & f & ->)| ->] Hk; [|by right].
  destruct (Hk a) as [(b & g & Hb)|Hb]; unfold mbind, W_bind; rewrite Hb.
  - left. by eexists _, _.
  - by right.
Qed.

Section LicenseShape.

Context (E : Env).

Lemma get_section_not_mapping parent name :
  is_mapping parent = false -> get_section E parent name = WRaise AttributeError.
Proof.
  intros Hp. destruct parent; try done;
    unfold get_section, get_list_section, py_get; by repeat case_match.
Qed.

Lemma scan_outputs_returns_or_aborts outs has hs :
  returns_or_aborts (scan_outputs E outs has hs).
Proof.
  revert has hs. induction outs as [|out outs IH]; intros has hs; cbn [scan_outputs].
  - left. apply returns_ret.
  - destruct (is_mapping out) eqn:Ho.
    + destruct out as [| | | | | |m]; try done.
      destruct (get_section_returns E m "test") as [f Hg].
      rewrite (W_bind_WOk _ _ _ _ Hg).
      rewrite any_test_key_section, W_ret_bind.
      assert (returns_or_aborts
                (if has_tests (dict_get m "test")
                 then scan_outputs E outs true hs
                 else name ← py_get (VMap m) "name" (VStr "???");
                      scan_outputs E outs has (hs ++ [no_test_hint E name]))) as Hk.
      { destruct (has_tests _); [apply IH|].
        unfold py_get. rewrite W_ret_bind. apply IH. }
      destruct Hk as [(r & g & ->)| ->]; [left; by eexists _, _|by right].
    + right. by rewrite get_section_not_mapping.
Qed.

Lemma lint_tests_returns_or_aborts rd d :
  returns_or_aborts (lint_tests E rd (section_of d "test") (section_of d "outputs")).
Proof.
  unfold lint_tests. rewrite any_test_key_section, W_ret_bind.
  destruct (negb _); [|left; apply returns_ret].
  destruct (negb _); [|left; apply returns_ret]. cbn [when].
  apply returns_or_aborts_bind.
  - destruct (section_is_list d "outputs") as [l ->]; [by right|].
    destruct (truthy (VList l)); [|left; apply returns_ret].
    unfold py_iter. rewrite W_ret_bind. apply scan_outputs_returns_or_aborts.
  - intros [[] r]; left; [apply returns_tell_hints|apply returns_tell_lint].
Qed.

(** A license that is there and is not a text (a number, a list, a
    null) stops the pass: [lintify] raises [AttributeError] and returns
    neither errors nor hints, whatever the rest of the document, the
    recipe directory and the mode. *)
Theorem non_text_license_aborts meta rd cf st d v :
  st !! meta = Some (OVal (VMap d)) ->
  field (section_of d "about") "license" = Some v ->
  is_str v = false ->
  lintify E meta rd cf st = RRaise AttributeError.
Proof.
  intros Hm Hv Hs. rewrite (lintify_run E _ _ _ _ _ Hm).
  enough (lintify_doc E d rd cf = WRaise AttributeError) as -> by done.
  unfold lintify_doc.
  destruct (get_sections_returns E d) as [f0 Hsec].
  rewrite (W_bind_WOk _ _ _ _ Hsec).
  enough ((lint_unexpected (dict_keys d) ;;
           lintify_rules E d (List.filter expected (dict_keys d)) (sections_of d) rd cf)
          = WRaise AttributeError) as -> by done.
  apply aborts_bind; [left; rewrite lint_unexpected_eq; by eexists _, _|intros _].
  unfold lintify_rules.
  cbn [about_section extra_section test_section outputs_section sections_of].
  apply aborts_bind; [left|intros _].
  { unfold lint_section_order. apply returns_bind; [apply returns_sorted|].
    intros. apply returns_when, returns_tell_lint. }
  apply aborts_bind; [left|intros _].
  { unfold lint_about_contents. apply returns_for. intros.
    rewrite py_get_section by done. rewrite W_ret_bind.
    apply returns_when, returns_tell_lint. }
  apply aborts_bind; [left|intros _].
  { unfold lint_maintainers. rewrite !py_get_section by done.
    rewrite W_ret_bind.
    apply returns_bind; [apply returns_when, returns_tell_lint|intros _].
    rewrite W_ret_bind. apply returns_when, returns_tell_lint. }
  apply aborts_bind; [apply lint_tests_returns_or_aborts|intros _].
  unfold lint_license_unknown. rewrite py_get_section by done.
  rewrite W_ret_bind. unfold sec_get. rewrite Hv. by destruct v.
Qed.

End LicenseShape.

(** ** What the rules do not look at *)

(** Two sets of collaborators that differ at most in the environment of
    the process, in the GitHub client and in what [main] alone uses. *)
Definition same_local (E1 E2 : Env) : Prop :=
  type_name E1 = type_name E2 /\ type_module E1 = type_module E2 /\
  py_repr E1 = py_repr E2 /\ cbfields E1 = cbfields E2 /\
  ensure_valid_license_family E1 = ensure_valid_license_family E2 /\
  VersionOrder E1 = VersionOrder E2 /\
  path_exists E1 = path_exists E2 /\ read_text E1 = read_text E2.

(** With the conda-forge rules off, [lintify] asks nothing of GitHub
    and reads nothing of the environment of the process: with another
    client and another environment it returns the same errors and the
    same hints, or raises the same exception, and leaves the same
    store. *)
Theorem lintify_offline E1 E2 meta rd st :
  same_local E1 E2 ->
  lintify E1 meta rd false st = lintify E2 meta rd false st.
Proof.
  intros (H1 & H2 & H3 & H4 & H5 & H6 & H7 & H8).
  destruct E1, E2. cbn in *. subst. reflexivity.
Qed.

Lemma for_ext_in {A} (l : list A) (b1 b2 : A -> W unit) :
  (forall x, In x l -> b1 x = b2 x) -> for_ l b1 = for_ l b2.
Proof.
  induction l as [|x l IH]; simpl; intros H; [done|].
  rewrite (H x) by (by left). rewrite IH; [done|].
  intros y Hy. apply H. by right.
Qed.

Section UnexpectedKeys.

Context (E : Env).

Lemma lintify_doc_same_expected d1 d2 rd cf :
  (forall name, expected name = true ->
     get_section E (VMap d1) name = get_section E (VMap d2) name) ->
  dict_keys d1 = dict_keys d2 ->
  ensure_valid_license_family E d1 = ensure_valid_license_family E d2 ->
  lintify_doc E d1 rd cf = lintify_doc E d2 rd cf.
Proof.
  intros Hs Hk He. unfold lintify_doc.
  assert (get_sections E (VMap d1) = get_sections E (VMap d2)) as ->.
  { unfold get_sections. by rewrite !Hs. }
  rewrite Hk.
  assert (lint_license_family E d1 = lint_license_family E d2) as Hlic.
  { unfold lint_license_family. by rewrite He. }
  assert (run_conda_forge_specific E (VMap d1) rd
          = run_conda_forge_specific E (VMap d2) rd) as Hcf.
  { unfold run_conda_forge_specific. by rewrite !Hs. }
  assert (lint_subsections E (VMap d1) (List.filter expected (dict_keys d2))
          = lint_subsections E (VMap d2) (List.filter expected (dict_keys d2)))
    as Hsub.
  { unfold lint_subsections. apply for_ext_in. intros section [_ Hx]%filter_In.
    by rewrite Hs. }
  apply W_bind_ext. intros s. apply W_bind_ext. intros _.
  unfold lintify_rules. by rewrite Hlic, Hcf, Hsub.
Qed.

(** What is under a top-level key outside the vocabulary of sections
    is never looked at: with another value there, [lintify] returns the
    same errors and the same hints in the same order (or raises the
    same exception), provided conda-build's license-family validator,
    which is handed the whole document, says the same of both. *)
Theorem unexpected_key_content_ignored m1 m2 rd cf st1 st2 D k v1 v2 :
  expected k = false ->
  st1 !! m1 = Some (OVal (VMap (dict_set D k v1))) ->
  st2 !! m2 = Some (OVal (VMap (dict_set D k v2))) ->
  ensure_valid_license_family E (dict_set D k v1)
  = ensure_valid_license_family E (dict_set D k v2) ->
  outcome (lintify E m1 rd cf st1) = outcome (lintify E m2 rd cf st2).
Proof.
  intros Hk H1 H2 He.
  rewrite (lintify_outcome E _ _ _ _ _ H1), (lintify_outcome E _ _ _ _ _ H2).
  apply lintify_doc_same_expected; [|apply dict_keys_set|done].
  intros name Hname.
  assert (k <> name) as Hne by (intros ->; congruence).
  unfold get_section, get_list_section, py_get.
  by rewrite !(dict_get_set_ne _ k) by done.
Qed.

End UnexpectedKeys.

(** ** The rules on the recipe file, without a recipe file *)

Section NoRecipeFile.

Context (E : Env).

Definition file_rule_tags : list string :=
  [selectors_tag; end_of_file_tag; jinja_tag].

(** The three rules that read the text of the recipe (the tidy form of
    selectors, the empty line at the end, the tidy form of Jinja2
    definitions) give nothing when no recipe directory is given, and
    nothing when the directory has no [meta.yaml]. *)
Theorem file_rules_need_recipe_file meta rd cf st d f st' :
  st !! meta = Some (OVal (VMap d)) ->
  foreign_all E d file_rule_tags ->
  rd = None \/ path_exists E (meta_fname rd) = false ->
  lintify E meta rd cf st = ROk tt f st' ->
  List.filter (tagged file_rule_tags) (lints f) = [].
Proof.
  intros Hm Hf Hrd Hl.
  assert (recipe_file_at E rd = false) as Hrf.
  { destruct Hrd as [->|Hrd]; [done|]. unfold recipe_file_at.
    by destruct rd. }
  change (lints f) with (pr Lints f).
  eapply lintify_only; [exact Hm| |exact Hl].
  unfold lintify_doc, lintify_rules, lint_selectors, lint_end_of_file, lint_jinja.
  rewrite Hrf. cbn [when].
  match goal with |- only ?c ?P ?w [] => change (quiet c P w) end.
  rest_tags.
Qed.

End NoRecipeFile.

(** ** The line numbers that the generators yield *)

Lemma yields_sorted {A} (g : A -> bool) i (l : list A) :
  let r := map snd (flat_map (fun '(i, line) => if g line then [(line, i)] else [])
                             (enumerate_from i l)) in
  StronglySorted lt r /\ Forall (le i) r.
Proof.
  revert i. induction l as [|x l IH]; intros i; cbn [enumerate_from flat_map].
  - split; constructor.
  - destruct (IH (S i)) as [Hs Hf]. cbn zeta.
    assert (Forall (le i) (map snd (flat_map
              (fun '(i, line) => if g line then [(line, i)] else [])
              (enumerate_from (S i) l)))) as Hf'.
    { eapply Forall_impl; [exact Hf|]. cbn. lia. }
    destruct (g x); cbn [app map snd]; [|done].
    split; constructor; try done.
Qed.

Lemma StronglySorted_map_filter {A B} (R : B -> B -> Prop) (f : A -> B) q l :
  StronglySorted R (map f l) -> StronglySorted R (map f (List.filter q l)).
Proof.
  induction l as [|x l IH]; [done|]. cbn [map List.filter].
  intros H. apply StronglySorted_inv in H as [Hs Hf].
  destruct (q x); [|by apply IH]. cbn [map]. constructor; [by apply IH|].
  rewrite List.Forall_forall in *. intros y (z & <- & [Hz _]%filter_In)%in_map_iff.
  apply Hf. by apply in_map.
Qed.

(** [selector_lines] and [jinja_lines] go through the file once, from
    its first line: the line numbers they yield are strictly
    increasing, so no line is yielded twice, and each is below the
    number of lines.  The numbers that rules 6 and 20 report, those of
    the yielded lines that are not tidy, are strictly increasing too. *)
Theorem yielded_line_numbers_increase (lines : list string) :
  StronglySorted lt (map snd (selector_lines lines)) /\
  StronglySorted lt (map snd (jinja_lines lines)) /\
  Forall (fun n => n < length lines) (map snd (selector_lines lines)) /\
  Forall (fun n => n < length lines) (map snd (jinja_lines lines)) /\
  StronglySorted lt (map snd (bad_selectors lines)) /\
  StronglySorted lt (map snd (bad_jinja lines)).
Proof.
  assert (StronglySorted lt (map snd (selector_lines lines))) as Hs
    by apply (yields_sorted is_selector_line 0 lines).
  assert (StronglySorted lt (map snd (jinja_lines lines))) as Hj
    by apply (yields_sorted is_jinja_line 0 lines).
  split; [exact Hs|]. split; [exact Hj|]. split; [|split; [|split]].
  - apply List.Forall_forall. intros n ([line i] & <- & Hin)%in_map_iff.
    apply In_selector_lines in Hin as [Hn _]. apply nth_error_Some. cbn.
    by rewrite Hn.
  - apply List.Forall_forall. intros n ([line i] & <- & Hin)%in_map_iff.
    apply In_jinja_lines in Hin as [Hn _]. apply nth_error_Some. cbn.
    by rewrite Hn.
  - by apply StronglySorted_map_filter.
  - by apply StronglySorted_map_filter.
Qed.

(** ** The kinds of hints *)

Definition hints_of_kind {A} (TH : list string) (w : W A) : Prop :=
  forall a f, w = WOk a f -> Forall (fun m => tagged TH m = true) (hints f).

Lemma hints_kind_emits {A} TL TH TH' (w : W A) :
  emits TL TH w -> incl TH TH' -> hints_of_kind TH' w.
Proof.
  intros Hw Hi a f Hf. destruct (Hw _ _ Hf) as [_ Hh].
  eapply Forall_impl; [exact Hh|]. intros m. by apply tagged_mono.
Qed.

Lemma hints_kind_bind {A B} TH (m : W A) (k : A -> W B) :
  hints_of_kind TH m -> (forall a, hints_of_kind TH (k a)) ->
  hints_of_kind TH (m ≫= k).
Proof.
  intros Hm Hk b f (a & f1 & f2 & H1 & H2 & ->)%W_bind_ok. simpl.
  apply Forall_app. split; [by eapply Hm|by eapply Hk].
Qed.

Lemma hints_kind_license_family E TH d : hints_of_kind TH (lint_license_family E d).
Proof.
  intros a f Hf.
  pose proof (quiet_license_family_hints E (fun _ => true) d a f Hf) as H.
  simpl in H. assert (hints f = []) as ->; [|constructor].
  destruct (hints f); [done|discriminate].
Qed.

Ltac incl_tags :=
  let x := fresh in
  let H := fresh in
  intros x H; vm_compute in H;
  repeat (destruct H as [<-|H]; [in_tags|]); destruct H.

Ltac hints_block :=
  first
    [ apply hints_kind_license_family
    | apply (hints_kind_emits [] []);
      [ apply silent_emits; solve [auto with silent_db] | intros ? [] ]
    | eapply hints_kind_emits;
      [ first [ solve [eauto with emits_db] | apply emits_conda_forge ]
      | incl_tags ] ].

Section HintKinds.

Context (E : Env).

(** Every hint [lintify] returns is of one of three kinds: that an
    output has no tests, that pip should be used, or, with the
    conda-forge rules on only, that bioconda has a recipe of the same
    name. *)
Theorem hints_are_of_three_kinds meta rd cf st d f st' :
  st !! meta = Some (OVal (VMap d)) ->
  lintify E meta rd cf st = ROk tt f st' ->
  Forall (fun h =>
            has_prefix "It looks like the '" h = true \/
            has_prefix "Whenever possible" h = true \/
            (cf = true /\ has_prefix "Recipe with the same name" h = true))
         (hints f).
Proof.
  intros Hm Hl. apply List.Forall_forall. intros h Hh.
  pose proof (lintify_outcome E meta rd cf st d Hm) as Ho. rewrite Hl in Ho.
  cbn [outcome] in Ho. symmetry in Ho.
  destruct cf.
  - assert (hints_of_kind
              [no_test_hint_tag; "Whenever possible"; "Recipe with the same name"]
              (lintify_doc E d rd true)) as Hk.
    { unfold lintify_doc, lintify_rules. cbn [when].
      repeat first [hints_block | apply hints_kind_bind; [hints_block|intros ?]]. }
    specialize (Hk _ _ Ho). rewrite List.Forall_forall in Hk.
    specialize (Hk _ Hh). unfold tagged in Hk. cbn [existsb] in Hk.
    apply orb_prop in Hk as [Hk|Hk]; [by left|].
    apply orb_prop in Hk as [Hk|Hk]; [by right; left|].
    rewrite orb_false_r in Hk. by right; right.
  - assert (hints_of_kind [no_test_hint_tag; "Whenever possible"]
              (lintify_doc E d rd false)) as Hk.
    { unfold lintify_doc, lintify_rules. cbn [when].
      repeat first [hints_block | apply hints_kind_bind; [hints_block|intros ?]]. }
    specialize (Hk _ _ Ho). rewrite List.Forall_forall in Hk.
    specialize (Hk _ Hh). unfold tagged in Hk. cbn [existsb] in Hk.
    apply orb_prop in Hk as [Hk|Hk]; [by left|].
    rewrite orb_false_r in Hk. by right; left.
Qed.

End HintKinds.

(** ** Rule 4, when the recipe has tests *)

Section TestsSatisfied.

Context (E : Env).

Lemma lint_tests_satisfied rd d :
  has_tests (dict_get d "test") = true \/ a_test_file_exists E rd = true ->
  lint_tests E rd (section_of d "test") (section_of d "outputs") = mret tt.
Proof.
  intros H. unfold lint_tests. rewrite any_test_key_section, W_ret_bind.
  destruct H as [-> | ->]; [done|]. by destruct (negb _).
Qed.

(** Rule 4 in the result of [lintify], for a recipe with tests: when
    the test section has [imports] or [commands], or one of the known
    test scripts is next to the recipe, there is no error that the
    recipe must have some tests, and the outputs are not looked at:
    there is no hint on an output without tests. *)
Theorem tests_rule_satisfied meta rd cf st d f st' :
  st !! meta = Some (OVal (VMap d)) ->
  foreign E d tests_msg ->
  has_tests (dict_get d "test") = true \/ a_test_file_exists E rd = true ->
  lintify E meta rd cf st = ROk tt f st' ->
  List.filter (has_prefix tests_msg) (lints f) = [] /\
  List.filter (has_prefix no_test_hint_tag) (hints f) = [].
Proof.
  intros Hm Hf Ht Hl. split.
  - at_block 5. apply only_bind_l; [|rest_tags].
    cbn [test_section outputs_section sections_of].
    rewrite lint_tests_satisfied by done. apply quiet_ret.
  - at_block 5. apply only_bind_l; [|rest_tags].
    cbn [test_section outputs_section sections_of].
    rewrite lint_tests_satisfied by done. apply quiet_ret.
Qed.

End TestsSatisfied.

(** ** Rule 17, without [noarch] *)

Section NoarchOff.

Context (E : Env).

(** Rule 17 applies to noarch packages only: when the build section
    has no [noarch], or has a null there, or when there is no recipe
    file, there is no noarch-selector error, whatever selectors the
    recipe has. *)
Theorem noarch_rule_needs_noarch meta rd cf st d f st' :
  st !! meta = Some (OVal (VMap d)) ->
  foreign E d noarch_tag ->
  is_none (sec_get d "build" "noarch" VNone) = true
  \/ path_exists E (meta_fname rd) = false ->
  lintify E meta rd cf st = ROk tt f st' ->
  List.filter (has_prefix noarch_tag) (lints f) = [].
Proof.
  intros Hm Hf Hn Hl. at_block 19. apply only_bind_l; [|rest_tags].
  cbn [build_section sections_of]. unfold lint_noarch.
  intros r0 f0. rewrite py_get_section by done. rewrite W_ret_bind.
  assert (negb (is_none (sec_get d "build" "noarch" VNone))
          && path_exists E (meta_fname rd) = false) as ->.
  { destruct Hn as [-> | ->]; [done|apply andb_false_r]. }
  by intros [= <- <-].
Qed.

End NoarchOff.

(** ** Rule 19: the version *)

Section VersionRule.

Context (E : Env).

(** Rule 19 in the result of [lintify]: a version that is not there or
    is null is not checked; any other is printed as [str] prints it and
    handed to conda's [VersionOrder], and there is one error, naming
    the printed version, exactly when [VersionOrder] raises. *)
Theorem version_rule meta rd cf st d f st' :
  st !! meta = Some (OVal (VMap d)) ->
  foreign E d "Package version " ->
  lintify E meta rd cf st = ROk tt f st' ->
  let version := sec_get d "package" "version" VNone in
  List.filter (has_prefix "Package version ") (lints f)
  = if is_none version then []
    else match VersionOrder E (py_str E version) with
         | Some _ => [version_msg (py_str E version)]
         | None => []
         end.
Proof.
  intros Hm Hf Hl version. at_block 20. apply only_bind_l; [|rest_tags].
  cbn [package_section sections_of]. unfold lint_version.
  intros r0 f0. rewrite !py_get_section by done. rewrite W_ret_bind.
  fold version. destruct (is_none version); [by intros [= <- <-]|].
  cbn [negb when]. rewrite W_ret_bind.
  destruct (VersionOrder E _); by intros [= <- <-].
Qed.

End VersionRule.

(** ** Rules 15 and 21: legacy patterns *)

Section LegacyRules.

Context (E : Env).

Lemma only_legacy t v token msg :
  has_prefix t msg = true ->
  only Lints (has_prefix t) (lint_legacy v token msg)
       (if truthy v && holds token v then [msg] else []).
Proof.
  intros Ht. unfold lint_legacy, build_reqs_has.
  destruct (truthy v); cbn [andb].
  - apply only_py_in. destruct (holds token v); intros a f [= <- <-]; [|done].
    simpl. by rewrite Ht.
  - intros a f. rewrite W_ret_bind. by intros [= <- <-].
Qed.

(** Rules 15 and 21 in the result of [lintify], on what the
    requirements section has under [build]: there is one error on
    pinned numpy exactly when that value is true and [numpy x.x] is in
    it, and one error on the toolchain exactly when it is true and
    [toolchain] is in it.  In a list, being in it is being equal to an
    entry; requirements without [build], or with nothing there, get
    neither. *)
Theorem legacy_patterns_rule meta rd cf st d f st' :
  st !! meta = Some (OVal (VMap d)) ->
  foreign_all E d ["Using pinned"; "Using toolchain"] ->
  lintify E meta rd cf st = ROk tt f st' ->
  let build_reqs := sec_get d "requirements" "build" VNone in
  List.filter (has_prefix "Using pinned") (lints f)
    = (if truthy build_reqs && holds "numpy x.x" build_reqs then [numpy_msg] else []) /\
  List.filter (has_prefix "Using toolchain") (lints f)
    = (if truthy build_reqs && holds "toolchain" build_reqs then [toolchain_msg] else []).
Proof.
  intros Hm Hf Hl build_reqs. split.
  - at_block 16. cbn [requirements_section sections_of].
    intros r0 f0. rewrite py_get_section by done. rewrite W_ret_bind. revert r0 f0.
    apply only_bind_l; [by apply only_legacy|rest_tags].
  - at_block 16. cbn [requirements_section sections_of].
    intros r0 f0. rewrite py_get_section by done. rewrite W_ret_bind. revert r0 f0.
    do 5 skip_tags.
    apply only_bind_l; [by apply only_legacy|rest_tags].
Qed.

End LegacyRules.

(** ** Rule 16: the names of the subsections *)

(** The sections whose keys are checked one by one. *)
Definition plain_sections : list string :=
  ["package"; "build"; "requirements"; "test"; "app"; "about"; "extra"].

Definition subsection_tag (section : string) : string :=
  "The " +:+ section +:+ " section contained".

(** The keys of a section of the document. *)
Definition section_keys (d : dict) (section : string) : list string :=
  match section_of d section with
  | VMap m => dict_keys m
  | _ => []
  end.

Lemma quiet_for {A} c P (l : list A) (body : A -> W unit) :
  (forall x, In x l -> quiet c P (body x)) -> quiet c P (for_ l body).
Proof.
  induction l as [|x l IH]; simpl; intros H; [apply quiet_ret|].
  apply quiet_bind; [apply H; by left|]. intros _. apply IH.
  intros y Hy. apply H. by right.
Qed.

(** In a loop over distinct elements, the findings of a kind that one
    iteration alone can give. *)
Lemma only_for_one c P (l : list string) (body : string -> W unit) s L :
  List.NoDup l ->
  (forall x, In x l -> x <> s -> quiet c P (body x)) ->
  only c P (body s) L ->
  (~ In s l -> L = []) ->
  only c P (for_ l body) L.
Proof.
  intros Hnd Hq Hs Hnil. induction Hnd as [|x l Hx Hnd IH]; cbn [for_].
  - rewrite Hnil by tauto. apply quiet_ret.
  - destruct (String.eqb_spec x s) as [->|Hne].
    + apply only_bind_l; [exact Hs|]. intros _. apply quiet_for.
      intros y Hy. apply Hq; [by right|]. by intros ->.
    + apply only_bind_r; [apply Hq; [by left|done]|]. intros _. apply IH.
      * intros y Hy. apply Hq. by right.
      * intros Hin. apply Hnil. by intros [?|?].
Qed.

Lemma NoDup_filter_keys (q : string -> bool) l :
  List.NoDup l -> List.NoDup (List.filter q l).
Proof.
  induction 1 as [|x l Hx _ IH]; cbn [List.filter]; [constructor|].
  destruct (q x); [|done]. constructor; [|done].
  by intros [? _]%filter_In.
Qed.

Lemma filter_map_VStr (q : string -> bool) (g : value -> bool) l :
  (forall k, g (VStr k) = q k) ->
  List.filter g (map VStr l) = map VStr (List.filter q l).
Proof.
  intros H. induction l as [|k l IH]; [done|]. cbn [map List.filter].
  rewrite H, IH. by destruct (q k).
Qed.

Lemma length_append a b :
  String.length (a +:+ b) = String.length a + String.length b.
Proof.
  induction a as [|x a IH]; [done|].
  change (S (String.length (a +:+ b)) = S (String.length a) + String.length b).
  by rewrite IH.
Qed.

Lemma append_inv_tail a b c : a +:+ c = b +:+ c -> a = b.
Proof.
  revert b. induction a as [|x a IH]; intros [|y b] H; [done| | |].
  - apply (f_equal String.length) in H. rewrite !length_append in H.
    simpl in H. lia.
  - apply (f_equal String.length) in H. rewrite !length_append in H.
    simpl in H. lia.
  - change (String x (a +:+ c) = String y (b +:+ c)) in H.
    injection H as -> H. f_equal. by apply IH.
Qed.

Section SubsectionRule.

Context (E : Env).

(** The messages of rule 16 on a section. *)
Definition unexpected_subsections (d : dict) (section : string) : list string :=
  match fields_get (FIELDS E) section with
  | [] => []
  | fs => map (fun k => subsection_msg E section (VStr k))
              (List.filter (fun k => negb (mem k fs)) (section_keys d section))
  end.

(** The body of the loop of rule 16. *)
Definition subsections_of_section (meta : value) (section : string) : W unit :=
  let expected_subsections := fields_get (FIELDS E) section in
  match expected_subsections with
  | [] => mret tt
  | _ =>
      sec ← get_section E meta section;
      subs ← py_iter sec;
      for_ subs (fun subsection =>
        unexpected ←
          and_then (negb (String.eqb section "source")
                    && negb (String.eqb section "outputs"))
                   (py_not_in_set expected_subsections subsection);
        if unexpected : bool
        then tell_lint (subsection_msg E section subsection)
        else if String.eqb section "source" || String.eqb section "outputs"
        then
          items ← py_iter subsection;
          for_ items (fun source_subsection =>
            unexpected ← py_not_in_set expected_subsections source_subsection;
            when unexpected
                 (tell_lint (subsection_msg E section source_subsection)))
        else mret tt)
  end.

Lemma lint_subsections_loop meta ms :
  lint_subsections E meta ms = for_ ms (subsections_of_section meta).
Proof. reflexivity. Qed.

Lemma emits_subsections_of_section meta section :
  In section EXPECTED_SECTION_ORDER ->
  emits [shape_tag; subsection_tag section] [] (subsections_of_section meta section).
Proof.
  intros Hin. unfold subsections_of_section.
  destruct (fields_get (FIELDS E) section) eqn:Hf; [apply emits_ret|].
  apply emits_bind; [apply emits_get_section_in; by left|intros ?].
  unfold subsection_msg, subsection_tag.
  simpl in Hin.
  repeat (destruct Hin as [<-|Hin]; [emits_tac|]); done.
Qed.

Lemma apart_subsection_tags s x :
  In s plain_sections -> In x EXPECTED_SECTION_ORDER -> x <> s ->
  forallb (apart (subsection_tag s)) [shape_tag; subsection_tag x] = true.
Proof.
  intros Hs Hx Hne. simpl in Hs, Hx.
  repeat (destruct Hs as [<-|Hs]; [|]); try done;
    repeat (destruct Hx as [<-|Hx]; [|]); try done; reflexivity.
Qed.

Lemma only_subsections_of_section d section :
  In section plain_sections ->
  only Lints (has_prefix (subsection_tag section))
       (subsections_of_section (VMap d) section)
       (unexpected_subsections d section).
Proof.
  intros Hs. unfold subsections_of_section, unexpected_subsections, section_keys.
  destruct (fields_get (FIELDS E) section) as [|x fs] eqn:Hf; [apply quiet_ret|].
  set (table := x :: fs).
  assert (list_like section = false) as Hplain.
  { simpl in Hs. by repeat (destruct Hs as [<-|Hs]; [done|]). }
  assert (apart (subsection_tag section) shape_tag = true) as Hapart.
  { simpl in Hs. by repeat (destruct Hs as [<-|Hs]; [done|]). }
  assert (forall sub, has_prefix (subsection_tag section)
                        (subsection_msg E section sub) = true) as Htag.
  { intros sub. unfold subsection_tag, subsection_msg.
    simpl in Hs. by repeat (destruct Hs as [<-|Hs]; [done|]). }
  apply only_get_section; [exact Hapart|].
  unfold list_like in Hplain. apply orb_false_elim in Hplain as [Hsrc Hout].
  destruct (section_is_map d section Hsrc Hout) as [m ->].
  unfold py_iter. intros a f. rewrite W_ret_bind. revert a f.
  rewrite Hsrc, Hout. cbn [negb andb orb and_then].
  rewrite (for_ext_in (map VStr (dict_keys m)) _
             (fun sub => if negb (in_strs table sub)
                         then tell_lint (subsection_msg E section sub)
                         else mret tt)).
  2: { intros sub (k & <- & _)%in_map_iff.
       by rewrite py_not_in_set_str, W_ret_bind. }
  rewrite <- (map_map VStr (subsection_msg E section)).
  rewrite <- (filter_map_VStr (fun k => negb (mem k table))
                 (fun sub => negb (in_strs table sub))) by done.
  apply only_for. intros sub.
  destruct (negb (in_strs table sub)); intros a f [= <- <-]; [|done].
  cbn [pr lints List.filter]. by rewrite Htag.
Qed.

Lemma plain_sections_expected section :
  In section plain_sections -> expected section = true /\ list_like section = false.
Proof.
  intros Hs. simpl in Hs.
  by repeat (destruct Hs as [<-|Hs]; [done|]).
Qed.

Lemma only_lint_subsections d section :
  In section plain_sections ->
  List.NoDup (dict_keys d) ->
  only Lints (has_prefix (subsection_tag section))
       (lint_subsections E (VMap d) (List.filter expected (dict_keys d)))
       (unexpected_subsections d section).
Proof.
  intros Hs Hnd. rewrite lint_subsections_loop.
  destruct (plain_sections_expected _ Hs) as [Hexp Hplain].
  apply (only_for_one _ _ _ _ section).
  - by apply NoDup_filter_keys.
  - intros x [_ Hx%mem_In]%filter_In Hne.
    eapply emits_quiet; [by apply emits_subsections_of_section|].
    by apply apart_subsection_tags.
  - by apply only_subsections_of_section.
  - intros Hnot. unfold unexpected_subsections, section_keys.
    destruct (fields_get (FIELDS E) section); [done|].
    assert (dict_get d section = None) as Hnone.
    { apply dict_get_mem. destruct (mem section (dict_keys d)) eqn:Hk; [|done].
      destruct Hnot. apply filter_In. split; [by apply mem_In|done]. }
    unfold list_like in Hplain. apply orb_false_elim in Hplain as [Hsrc Hout].
    unfold section_of, dict_section. by rewrite Hsrc, Hout, Hnone.
Qed.

(** Rule 16 in the result of [lintify], for a section other than
    [source] and [outputs], in a document whose keys are distinct:
    when the table of fields has no entry for the section, or an empty
    one, the section is not checked; otherwise there is one error for
    each key of the section that is not in the table, in the order of
    the keys, and no other error on the section.  A section that is not
    a mapping is checked as an empty one.  [recipe-maintainers] in
    [extra] never gets the error. *)
Theorem subsection_names_rule meta rd cf st d f st' section :
  st !! meta = Some (OVal (VMap d)) ->
  In section plain_sections ->
  List.NoDup (dict_keys d) ->
  foreign E d (subsection_tag section) ->
  lintify E meta rd cf st = ROk tt f st' ->
  let errors := List.filter (has_prefix (subsection_tag section)) (lints f) in
  errors = match fields_get (FIELDS E) section with
           | [] => []
           | fs => map (fun k => subsection_msg E section (VStr k))
                       (List.filter (fun k => negb (mem k fs))
                                    (section_keys d section))
           end /\
  (section = "extra" ->
   ~ In (subsection_msg E "extra" (VStr "recipe-maintainers")) errors).
Proof.
  intros Hm Hs Hnd Hf Hl errors.
  assert (errors = unexpected_subsections d section) as Herr.
  { unfold errors. pose proof Hs as Hs'. simpl in Hs'.
    repeat (destruct Hs' as [<-|Hs'];
            [at_block 18;
             (apply only_bind_l; [by apply only_lint_subsections|rest_tags])|]).
    done. }
  split; [exact Herr|].
  intros -> Hin. rewrite Herr in Hin. unfold unexpected_subsections in Hin.
  destruct (fields_get (FIELDS E) "extra") as [|x fs] eqn:Hfs; [done|].
  apply in_map_iff in Hin as (k & Hk & [_ Hno]%filter_In).
  assert (k = "recipe-maintainers") as ->.
  { unfold subsection_msg in Hk. cbn [py_str] in Hk.
    do 4 apply String.app_inj in Hk. by apply append_inv_tail in Hk. }
  assert (mem "recipe-maintainers" (x :: fs) = true) as Hmem.
  { apply mem_In. rewrite <- Hfs. apply fields_get_add_extra. by left. }
  by rewrite Hmem in Hno.
Qed.

End SubsectionRule.

(** ** What the patterns accept *)

Lemma str_app_nil_l b : "" +:+ b = b.
Proof. reflexivity. Qed.

Lemma str_app_cons c a b : String c a +:+ b = String c (a +:+ b).
Proof. reflexivity. Qed.

Lemma str_app_nil_r a : a +:+ "" = a.
Proof. induction a as [|c a IH]; [done|]. by rewrite str_app_cons, IH. Qed.

Lemma str_app_assoc a b c : (a +:+ b) +:+ c = a +:+ (b +:+ c).
Proof. induction a as [|x a IH]; [done|]. by rewrite !str_app_cons, IH. Qed.

(** Every character of the text is of the class. *)
Fixpoint all (p : ascii -> bool) (s : string) : bool :=
  match s with
  | EmptyString => true
  | String c s' => p c && all p s'
  end.

Lemma all_app p a b : all p (a +:+ b) = all p a && all p b.
Proof.
  induction a as [|c a IH]; [done|].
  rewrite str_app_cons. cbn [all]. by rewrite IH, andb_assoc.
Qed.

Lemma all_impl (p q : ascii -> bool) s :
  (forall c, p c = true -> q c = true) -> all p s = true -> all q s = true.
Proof.
  intros H. induction s as [|c s IH]; [done|]. cbn [all].
  intros [Hc Hs]%andb_prop. by rewrite (H _ Hc), IH.
Qed.

Lemma many_spec p s k :
  many p s k = true <->
  exists a s', s = a +:+ s' /\ all p a = true /\ k s' = true.
Proof.
  split.
  - induction s as [|c s IH]; cbn [many].
    + destruct (k "") eqn:Hk; [|done]. intros _. by exists "", "".
    + destruct (k (String c s)) eqn:Hk.
      * intros _. by exists "", (String c s).
      * destruct (p c) eqn:Hp; [|done].
        intros (a & s' & -> & Ha & Hs')%IH. exists (String c a), s'.
        split; [done|]. split; [|done]. cbn [all]. by rewrite Hp.
  - intros (a & s' & -> & Ha & Hk). induction a as [|c a IH].
    + rewrite str_app_nil_l. destruct s'; cbn [many]; by rewrite Hk.
    + rewrite str_app_cons. cbn [all] in Ha. apply andb_prop in Ha as [Hc Ha].
      cbn [many]. destruct (k (String c (a +:+ s'))); [done|].
      rewrite Hc. by apply IH.
Qed.

(** What a pattern takes off the front of a text: [den r gs a s' gs']
    when [r], with the groups [gs] set, can take [a] with [s'] left
    after it, and leaves the groups [gs'] set. *)
Fixpoint den (r : re) (gs : list nat) (a s' : string) (gs' : list nat) : Prop :=
  match r with
  | Chr p => exists c, a = String c "" /\ p c = true /\ gs' = gs
  | Many p => all p a = true /\ gs' = gs
  | Cat x y =>
      exists a1 a2 g1,
        a = a1 +:+ a2 /\ den x gs a1 (a2 +:+ s') g1 /\ den y g1 a2 s' gs'
  | Group g x => exists g1, den x gs a s' g1 /\ gs' = g :: g1
  | Opt x => den x gs a s' gs' \/ (a = "" /\ gs' = gs)
  | IfGroup g x =>
      if existsb (Nat.eqb g) gs then den x gs a s' gs' else a = "" /\ gs' = gs
  | Eos => a = "" /\ gs' = gs /\ at_end s' = true
  | Eps => a = "" /\ gs' = gs
  end.

(** The matcher finds a way exactly when there is one. *)
Lemma run_den r : forall s gs k,
  run r s gs k = true <->
  exists a s' gs', s = a +:+ s' /\ den r gs a s' gs' /\ k s' gs' = true.
Proof.
  induction r as [p|p|x IHx y IHy|g x IHx|x IHx|g x IHx| |]; intros s gs k;
    cbn [run den].
  - split.
    + destruct s as [|c s]; [done|]. destruct (p c) eqn:Hp; [|done].
      intros Hk. exists (String c ""), s, gs. eauto 10.
    + intros (a & s' & gs' & -> & (c & -> & Hp & ->) & Hk).
      rewrite str_app_cons, str_app_nil_l. by rewrite Hp.
  - rewrite many_spec. split.
    + intros (a & s' & -> & Ha & Hk). by exists a, s', gs.
    + intros (a & s' & gs' & -> & [Ha ->] & Hk). by exists a, s'.
  - rewrite IHx. split.
    + intros (a1 & s1 & g1 & -> & H1 & (a2 & s' & gs' & -> & H2 & Hk)%IHy).
      exists (a1 +:+ a2), s', gs'. split; [by rewrite str_app_assoc|].
      split; [|done]. by exists a1, a2, g1.
    + intros (a & s' & gs' & -> & (a1 & a2 & g1 & -> & H1 & H2) & Hk).
      exists a1, (a2 +:+ s'), g1. split; [by rewrite str_app_assoc|].
      split; [done|]. apply IHy. by exists a2, s', gs'.
  - rewrite IHx. split.
    + intros (a & s' & g1 & -> & H1 & Hk). exists a, s', (g :: g1). eauto.
    + intros (a & s' & gs' & -> & (g1 & H1 & ->) & Hk). by exists a, s', g1.
  - destruct (run x s gs k) eqn:Hx.
    + split; [intros _|done]. apply IHx in Hx as (a & s' & gs' & -> & H1 & Hk).
      exists a, s', gs'. eauto.
    + split.
      * intros Hk. exists "", s, gs. eauto.
      * intros (a & s' & gs' & -> & [H1| [-> ->]] & Hk); [|done].
        assert (run x (a +:+ s') gs k = true) as Hrun
          by (apply IHx; by exists a, s', gs').
        congruence.
  - destruct (existsb (Nat.eqb g) gs); [apply IHx|]. split.
    + intros Hk. by exists "", s, gs.
    + by intros (a & s' & gs' & -> & [-> ->] & Hk).
  - split.
    + destruct (at_end s) eqn:He; [|done]. intros Hk. by exists "", s, gs.
    + intros (a & s' & gs' & -> & (-> & -> & He) & Hk).
      rewrite str_app_nil_l. by rewrite He.
  - split.
    + intros Hk. by exists "", s, gs.
    + by intros (a & s' & gs' & -> & [-> ->] & Hk).
Qed.

Lemma matches_den r s :
  matches r s = true <-> exists a s' gs', s = a +:+ s' /\ den r [] a s' gs'.
Proof.
  unfold matches. rewrite run_den. split.
  - intros (a & s' & gs' & ? & ? & _). eauto.
  - intros (a & s' & gs' & ? & ?). by exists a, s', gs'.
Qed.

Lemma den_Lit w gs a s' gs' : den (Lit w) gs a s' gs' <-> a = w /\ gs' = gs.
Proof.
  revert gs a s' gs'. induction w as [|c w IH]; intros gs a s' gs'; cbn [Lit den].
  - done.
  - split.
    + intros (a1 & a2 & g1 & -> & (c' & -> & ->%Ascii.eqb_eq & ->) & [-> ->]%IH).
      done.
    + intros [-> ->]. exists (String c ""), w, gs. split; [done|].
      split; [|by apply IH]. exists c. unfold lit. by rewrite Ascii.eqb_refl.
Qed.

Lemma den_Many1 p gs a s' gs' :
  den (Many1 p) gs a s' gs' <-> a <> "" /\ all p a = true /\ gs' = gs.
Proof.
  unfold Many1. cbn [den]. split.
  - intros (a1 & a2 & g1 & -> & (c & -> & Hp & ->) & [Ha ->]).
    split; [done|]. split; [|done]. rewrite str_app_cons. cbn [all].
    by rewrite Hp.
  - intros (Hne & Ha & ->). destruct a as [|c a]; [done|].
    cbn [all] in Ha. apply andb_prop in Ha as [Hc Ha].
    exists (String c ""), a, gs. split; [done|]. split; [by exists c|done].
Qed.

(** ** Texts and white space *)

Lemma rstrip_spaces s : all py_isspace s = true -> rstrip s = "".
Proof.
  induction s as [|c s IH]; [done|]. cbn [all rstrip].
  intros [Hc Hs]%andb_prop. by rewrite IH, Hc.
Qed.

Lemma rstrip_app x y : rstrip y <> "" -> rstrip (x +:+ y) = x +:+ rstrip y.
Proof.
  intros Hy. induction x as [|c x IH]; [done|].
  rewrite !str_app_cons. cbn [rstrip]. rewrite IH.
  destruct (x +:+ rstrip y) eqn:Hx; [|done].
  destruct x; [|done]. by rewrite str_app_nil_l in Hx.
Qed.

Lemma lstrip_app x y : lstrip x <> "" -> lstrip (x +:+ y) = lstrip x +:+ y.
Proof.
  induction x as [|c x IH]; [done|]. rewrite str_app_cons. cbn [lstrip].
  destruct (py_isspace c); [exact IH|done].
Qed.

Lemma lstrip_empty s : lstrip s = "" -> all py_isspace s = true.
Proof.
  induction s as [|c s IH]; [done|]. cbn [all lstrip].
  destruct (py_isspace c); [exact IH|done].
Qed.

(** ** Which lines are selector lines *)

(** A text with no newline, and one with no bracket. *)
Definition one_line (s : string) : bool := all dot s.
Definition bracket_free (s : string) : bool := all (none_of "[]") s.

Lemma rstrip_keep x c ws :
  py_isspace c = false -> all py_isspace ws = true ->
  rstrip (x +:+ String c ws) = x +:+ String c "".
Proof.
  intros Hc Hws.
  assert (rstrip (String c ws) = String c "") as Hr.
  { cbn [rstrip]. by rewrite (rstrip_spaces _ Hws), Hc. }
  rewrite rstrip_app; by rewrite Hr.
Qed.

Lemma selector_line_necessary line :
  is_selector_line line = true ->
  has_prefix "#" (lstrip (rstrip line)) = false /\
  exists a e b,
    rstrip line = a +:+ "[" +:+ e +:+ "]" +:+ b /\
    a <> "" /\ e <> "" /\ bracket_free e = true.
Proof.
  unfold is_selector_line, startswith.
  destruct (has_prefix "#" (lstrip (rstrip line))); [done|].
  intros (a & s' & gs' & Hs & Hd)%matches_den. split; [done|].
  unfold sel_pat in Hd. cbn [seq den] in Hd.
  destruct Hd as (a1 & r1 & g1 & -> & (g1' & (Hne1 & _ & _)%den_Many1 & _) & Hd).
  destruct Hd as (a2 & r2 & g2 & -> & _ & Hd).
  destruct Hd as (a3 & r3 & g3 & -> & _ & Hd).
  destruct Hd as (a4 & r4 & g4 & -> & [-> _]%den_Lit & Hd).
  destruct Hd as (a5 & r5 & g5 & -> & (g5' & (Hne5 & Hall5 & _)%den_Many1 & _) & Hd).
  destruct Hd as (a6 & r6 & g6 & -> & [-> _]%den_Lit & _).
  exists (a1 +:+ a2 +:+ a3), a5, (r6 +:+ s'). rewrite Hs.
  split; [by rewrite !str_app_assoc|]. split; [|done].
  destruct a1; [done|]. by rewrite str_app_cons.
Qed.

Lemma selector_line_sufficient a e ws :
  lstrip a <> "" -> has_prefix "#" (lstrip a) = false -> one_line a = true ->
  e <> "" -> bracket_free e = true -> all py_isspace ws = true ->
  is_selector_line (a +:+ "[" +:+ e +:+ "]" +:+ ws) = true.
Proof.
  intros Ha Hc Hline He Hfree Hws. unfold is_selector_line, startswith.
  assert (rstrip (a +:+ "[" +:+ e +:+ "]" +:+ ws) = a +:+ "[" +:+ e +:+ "]") as ->.
  { replace (a +:+ "[" +:+ e +:+ "]" +:+ ws)
      with ((a +:+ "[" +:+ e) +:+ String "]" ws) by (by rewrite !str_app_assoc).
    rewrite rstrip_keep by done. by rewrite !str_app_assoc. }
  rewrite lstrip_app by done.
  assert (has_prefix "#" (lstrip a +:+ "[" +:+ e +:+ "]") = false) as ->.
  { destruct (lstrip a) as [|c l]; [done|]. exact Hc. }
  apply matches_den.
  exists (a +:+ "[" +:+ e +:+ "]"), "", [3; 1]. split; [by rewrite str_app_nil_r|].
  unfold sel_pat. cbn [seq den].
  exists a, ("[" +:+ e +:+ "]"), [1]. split; [done|]. split.
  { exists []. split; [|done]. apply den_Many1. split; [|done].
    intros ->. by destruct Ha. }
  exists "", ("[" +:+ e +:+ "]"), [1]. split; [done|]. split; [done|].
  exists "", ("[" +:+ e +:+ "]"), [1]. split; [done|]. split; [by right|].
  exists "[", (e +:+ "]"), [1]. split; [done|]. split; [by apply den_Lit|].
  exists e, "]", [3; 1]. split; [done|]. split.
  { exists [1]. split; [|done]. by apply den_Many1. }
  exists "]", "", [3; 1]. split; [done|]. split; [by apply den_Lit|].
  exists "", "", [3; 1]. done.
Qed.

(** What [is_selector_line] needs, and what is enough for it.  A
    selector line, with the white space at its end left out, is not a
    comment, and has a bracketed expression, not empty and free of
    brackets, after at least one character.  A line that is not a
    comment and ends, white space apart, with such an expression after
    text without a newline, is a selector line: no comment sign is
    needed before the bracket. *)
Theorem selector_line_shape :
  (forall line, is_selector_line line = true ->
     has_prefix "#" (lstrip (rstrip line)) = false /\
     exists a e b,
       rstrip line = a +:+ "[" +:+ e +:+ "]" +:+ b /\
       a <> "" /\ e <> "" /\ bracket_free e = true) /\
  (forall a e ws,
     lstrip a <> "" -> has_prefix "#" (lstrip a) = false -> one_line a = true ->
     e <> "" -> bracket_free e = true -> all py_isspace ws = true ->
     is_selector_line (a +:+ "[" +:+ e +:+ "]" +:+ ws) = true).
Proof.
  split; [apply selector_line_necessary|apply selector_line_sufficient].
Qed.

(** ** The tidy form of a selector *)

(** What the pattern of the tidy form needs: at least two white space
    characters before a comment sign, and one between it and the
    bracket. *)
Lemma good_selector_shape line :
  matches good_selectors_pat line = true ->
  exists pre w w3 post,
    line = (pre +:+ w) +:+ String "#" (String w3 ("[" +:+ post)) /\
    pre <> "" /\ 2 <= String.length w /\ all py_isspace w = true /\
    py_isspace w3 = true.
Proof.
  intros (a & s' & gs' & -> & Hd)%matches_den.
  unfold good_selectors_pat in Hd. cbn [seq den] in Hd.
  destruct Hd as (a1 & r1 & g1 & -> & (g1' & (Hne1 & _ & _)%den_Many1 & _) & Hd).
  destruct Hd as (a2 & r2 & g2 & -> & (c2 & -> & Hc2 & _) & Hd).
  destruct Hd as (a3 & r3 & g3 & -> & (Hne3 & Hall3 & _)%den_Many1 & Hd).
  destruct Hd as (a4 & r4 & g4 & -> & [-> _]%den_Lit & Hd).
  destruct Hd as (a5 & r5 & g5 & -> & (c5 & -> & Hc5 & _) & Hd).
  destruct Hd as (a6 & r6 & g6 & -> & [-> _]%den_Lit & _).
  exists a1, (String c2 a3), c5, (r6 +:+ s').
  split; [by rewrite !str_app_assoc|]. split; [done|]. split.
  { destruct a3; [done|]. cbn. lia. }
  split; [|done]. cbn [all]. unfold space in Hc2. by rewrite Hc2.
Qed.

(** A character that is neither a newline nor a comment sign. *)
Definition plain_char (c : ascii) : bool := dot c && negb (Ascii.eqb c "#").

Lemma unique_split x y x' y' :
  all (fun c => negb (Ascii.eqb c "#")) x = true ->
  all (fun c => negb (Ascii.eqb c "#")) y = true ->
  x +:+ String "#" y = x' +:+ String "#" y' -> x = x'.
Proof.
  intros Hx Hy. revert x'. induction x as [|c x IH]; intros [|c' x'] H.
  - done.
  - rewrite str_app_nil_l, str_app_cons in H. injection H as <- H.
    rewrite H, all_app in Hy. cbn in Hy. by rewrite andb_false_r in Hy.
  - rewrite str_app_nil_l, str_app_cons in H. injection H as -> H.
    by cbn in Hx.
  - rewrite !str_app_cons in H. injection H as -> H.
    cbn [all] in Hx. apply andb_prop in Hx as [_ Hx]. f_equal. by apply IH.
Qed.

Lemma last_char s : s <> "" -> exists p x, s = p +:+ String x "".
Proof.
  induction s as [|c s IH]; [done|]. intros _.
  destruct s as [|c' s]; [by exists "", c|].
  destruct IH as (p & x & Hs); [done|]. exists (String c p), x.
  by rewrite str_app_cons, <- Hs.
Qed.

Lemma ends_with_space pre z q w :
  pre +:+ String z "" = q +:+ w ->
  2 <= String.length w -> all py_isspace w = true ->
  exists p x, pre = p +:+ String x "" /\ py_isspace x = true.
Proof.
  intros H Hlen Hw. revert pre H. induction q as [|c q IH]; intros pre H.
  - rewrite str_app_nil_l in H.
    assert (pre <> "") as Hne.
    { intros ->. rewrite <- H, length_append in Hlen. cbn in Hlen. lia. }
    destruct (last_char pre Hne) as (p & x & ->). exists p, x. split; [done|].
    rewrite <- H, !all_app in Hw. cbn [all] in Hw.
    by repeat (apply andb_prop in Hw as [Hw ?]); destruct (py_isspace x).
  - destruct pre as [|c' pre].
    + rewrite str_app_nil_l, str_app_cons in H. injection H as _ H.
      apply (f_equal String.length) in H. rewrite length_append in H.
      cbn in H. lia.
    + rewrite !str_app_cons in H. injection H as -> H.
      destruct (IH _ H) as (p & x & -> & Hx). by exists (String c p), x.
Qed.

Lemma all_lstrip p s : all p s = true -> all p (lstrip s) = true.
Proof.
  induction s as [|c s IH]; [done|]. cbn [lstrip].
  destruct (py_isspace c); [|done]. cbn [all]. by intros [_ ?]%andb_prop; apply IH.
Qed.

Lemma lstrip_rstrip_fixed s : s <> "" -> rstrip s = s -> lstrip s <> "".
Proof.
  intros Hne Hr Hl. apply lstrip_empty, rstrip_spaces in Hl. congruence.
Qed.

(** The space before a selector comment.  For content [c], not empty,
    with no newline, no comment sign and no white space at its end, and
    an expression [e], not empty, with no newline, comment sign or
    bracket: the line [c  # [e]], with two spaces before the comment
    sign, is a selector line in the tidy form, so rule 6 does not report
    it; the line [c # [e]], with one space, is a selector line that is
    not tidy, so rule 6 reports it.  The newline at the end of the line
    makes no difference. *)
Theorem selector_comment_spacing c e ws :
  c <> "" -> rstrip c = c -> all plain_char c = true ->
  e <> "" -> all plain_char e = true -> bracket_free e = true ->
  ws = "" \/ ws = String nl "" ->
  untidy_selector (c +:+ "  # [" +:+ e +:+ "]" +:+ ws) = false /\
  is_selector_line (c +:+ "  # [" +:+ e +:+ "]" +:+ ws) = true /\
  untidy_selector (c +:+ " # [" +:+ e +:+ "]" +:+ ws) = true.
Proof.
  intros Hc Hr Hplain He Heplain Hfree Hws.
  assert (all py_isspace ws = true) as Hspace by (by destruct Hws as [-> | ->]).
  assert (at_end ws = true) as Hend by (by destruct Hws as [-> | ->]).
  assert (all dot c = true) as Hcdot.
  { eapply all_impl; [|exact Hplain]. unfold plain_char. by intros x [? _]%andb_prop. }
  assert (all dot e = true) as Hedot.
  { eapply all_impl; [|exact Heplain]. unfold plain_char. by intros x [? _]%andb_prop. }
  assert (all (fun x => negb (Ascii.eqb x "#")) c = true) as Hchash.
  { eapply all_impl; [|exact Hplain]. unfold plain_char. by intros x [_ ?]%andb_prop. }
  assert (all (fun x => negb (Ascii.eqb x "#")) e = true) as Hehash.
  { eapply all_impl; [|exact Heplain]. unfold plain_char. by intros x [_ ?]%andb_prop. }
  pose proof (lstrip_rstrip_fixed c Hc Hr) as Hl.
  assert (forall gap, gap = " " \/ gap = "  " ->
            is_selector_line (c +:+ gap +:+ "# [" +:+ e +:+ "]" +:+ ws) = true)
    as Hsel.
  { intros gap Hgap.
    replace (c +:+ gap +:+ "# [" +:+ e +:+ "]" +:+ ws)
      with ((c +:+ gap +:+ "# ") +:+ "[" +:+ e +:+ "]" +:+ ws)
      by (by rewrite !str_app_assoc).
    apply selector_line_sufficient; try done.
    - rewrite lstrip_app by done. by destruct (lstrip c).
    - rewrite lstrip_app by done.
      pose proof (all_lstrip _ _ Hchash) as Hh.
      destruct (lstrip c) as [|x l]; [done|]. cbn [all] in Hh.
      apply andb_prop in Hh as [Hx _]. rewrite str_app_cons. cbn [has_prefix].
      rewrite (Ascii.eqb_sym "#" x). apply negb_true_iff in Hx. by rewrite Hx.
    - unfold one_line. rewrite all_app, Hcdot.
      by destruct Hgap as [-> | ->]. }
  assert (matches good_selectors_pat (c +:+ "  # [" +:+ e +:+ "]" +:+ ws) = true)
    as Hgood.
  { apply matches_den.
    exists (c +:+ "  # [" +:+ e +:+ "]"), ws, [2; 1].
    split; [by rewrite !str_app_assoc|].
    unfold good_selectors_pat. cbn [seq den].
    exists c, ("  # [" +:+ e +:+ "]"), [1]. split; [done|]. split.
    { exists []. split; [|done]. by apply den_Many1. }
    exists " ", (" # [" +:+ e +:+ "]"), [1]. split; [done|]. split; [by exists " "%char|].
    exists " ", ("# [" +:+ e +:+ "]"), [1]. split; [done|].
    split; [by apply den_Many1|].
    exists "#", (" [" +:+ e +:+ "]"), [1]. split; [done|]. split; [by apply den_Lit|].
    exists " ", ("[" +:+ e +:+ "]"), [1]. split; [done|]. split; [by exists " "%char|].
    exists "[", (e +:+ "]"), [1]. split; [done|]. split; [by apply den_Lit|].
    exists e, "]", [2; 1]. split; [done|]. split.
    { exists [1]. split; [|done]. by apply den_Many1. }
    exists "]", "", [2; 1]. split; [done|]. split; [by apply den_Lit|].
    exists "", "", [2; 1]. done. }
  assert (matches good_selectors_pat (c +:+ " # [" +:+ e +:+ "]" +:+ ws) = false)
    as Hbad.
  { destruct (matches good_selectors_pat (c +:+ " # [" +:+ e +:+ "]" +:+ ws))
      eqn:Hm; [|done].
    exfalso.
    apply good_selector_shape in Hm
      as (pre & w & w3 & post & Heq & Hpre & Hlen & Hw & Hw3).
    assert (c +:+ " # [" +:+ e +:+ "]" +:+ ws
            = (c +:+ " ") +:+ String "#" (" [" +:+ e +:+ "]" +:+ ws)) as Hline
      by (by rewrite !str_app_assoc).
    rewrite Hline in Heq. apply unique_split in Heq.
    - apply ends_with_space in Heq as (p & x & Hp & Hx); [|done|done].
      rewrite Hp in Hr. apply rstrip_end in Hr. congruence.
    - rewrite all_app, Hchash. done.
    - change (" [" +:+ e +:+ "]" +:+ ws) with (String " " (String "[" (e +:+ "]" +:+ ws))).
      cbn [all]. rewrite !all_app, Hehash. cbn [all].
      by destruct Hws as [-> | ->]. }
  assert (is_selector_line (c +:+ "  # [" +:+ e +:+ "]" +:+ ws) = true) as Hsel2
    by exact (Hsel "  " (or_intror eq_refl)).
  assert (is_selector_line (c +:+ " # [" +:+ e +:+ "]" +:+ ws) = true) as Hsel1
    by exact (Hsel " " (or_introl eq_refl)).
  unfold untidy_selector. by rewrite Hsel1, Hsel2, Hgood, Hbad.
Qed.

(** ** The tidy form of a Jinja2 definition *)

(** What the pattern of the tidy form needs first: white space, the
    opening sign, and one white space character. *)
Lemma good_jinja_shape line :
  matches good_jinja_pat line = true ->
  exists lead w rest,
    line = lead +:+ "{%" +:+ String w rest /\
    all py_isspace lead = true /\ py_isspace w = true.
Proof.
  intros (a & s' & gs' & -> & Hd)%matches_den.
  unfold good_jinja_pat in Hd. cbn [seq den] in Hd.
  destruct Hd as (a1 & r1 & g1 & -> & [Hlead _] & Hd).
  destruct Hd as (a2 & r2 & g2 & -> & [-> _]%den_Lit & Hd).
  destruct Hd as (a3 & r3 & g3 & -> & (w & -> & Hw & _) & _).
  exists a1, w, (r3 +:+ s'). split; [by rewrite !str_app_assoc|]. done.
Qed.

(** The space after the opening sign of a Jinja2 definition.  For a
    name [n] and an expression [v], not empty and without white space:
    the line [{% set n = v %}], with one space at each place, is a
    definition in the tidy form, so rule 20 does not report it; the
    same line without the space after the opening sign is a definition
    that is not tidy, so rule 20 reports it.  The newline at the end of
    the line makes no difference. *)
Theorem jinja_definition_spacing n v ws :
  n <> "" -> all non_space n = true ->
  v <> "" -> all non_space v = true ->
  ws = "" \/ ws = String nl "" ->
  untidy_jinja ("{% set " +:+ n +:+ " = " +:+ v +:+ " %}" +:+ ws) = false /\
  is_jinja_line ("{% set " +:+ n +:+ " = " +:+ v +:+ " %}" +:+ ws) = true /\
  untidy_jinja ("{%set " +:+ n +:+ " = " +:+ v +:+ " %}" +:+ ws) = true.
Proof.
  intros Hn Hnn Hv Hvv Hws.
  assert (all py_isspace ws = true) as Hspace by (by destruct Hws as [-> | ->]).
  assert (forall open gap,
            gap = "" \/ gap = " " ->
            open = "{%" +:+ gap +:+ "set " ->
            is_jinja_line (open +:+ n +:+ " = " +:+ v +:+ " %}" +:+ ws) = true)
    as Hjin.
  { intros open gap Hgap ->. unfold is_jinja_line.
    replace (("{%" +:+ gap +:+ "set ") +:+ n +:+ " = " +:+ v +:+ " %}" +:+ ws)
      with ((("{%" +:+ gap +:+ "set ") +:+ n +:+ " = " +:+ v +:+ " %")
            +:+ String "}" ws)
      by (by rewrite !str_app_assoc).
    rewrite rstrip_keep by done.
    apply matches_den.
    exists ("{%" +:+ gap +:+ "set " +:+ n +:+ " = " +:+ v +:+ " %}"), "", [1].
    split; [by rewrite !str_app_assoc, str_app_nil_r|].
    unfold jinja_pat. cbn [seq den].
    exists "", ("{%" +:+ gap +:+ "set " +:+ n +:+ " = " +:+ v +:+ " %}"), [].
    split; [done|]. split; [done|].
    exists "{%", (gap +:+ "set " +:+ n +:+ " = " +:+ v +:+ " %}"), [].
    split; [done|]. split; [by apply den_Lit|].
    exists gap, ("set " +:+ n +:+ " = " +:+ v +:+ " %}"), [].
    split; [done|]. split; [by destruct Hgap as [-> | ->]|].
    exists "set", (" " +:+ n +:+ " = " +:+ v +:+ " %}"), [1].
    split; [done|]. split; [exists []; split; [by apply den_Lit|done]|].
    exists " ", (n +:+ " = " +:+ v +:+ " %}"), [1].
    split; [done|]. split; [by apply den_Many1|].
    exists n, (" = " +:+ v +:+ " %}"), [1].
    split; [done|]. split; [by apply den_Many1|].
    exists " ", ("= " +:+ v +:+ " %}"), [1]. split; [done|]. split; [done|].
    exists "=", (" " +:+ v +:+ " %}"), [1].
    split; [done|]. split; [by apply den_Lit|].
    exists " ", (v +:+ " %}"), [1]. split; [done|]. split; [done|].
    exists v, " %}", [1]. split; [done|]. split; [by apply den_Many1|].
    exists " ", "%}", [1]. split; [done|]. split; [done|].
    by apply den_Lit. }
  assert (is_jinja_line ("{% set " +:+ n +:+ " = " +:+ v +:+ " %}" +:+ ws) = true)
    as Hj1 by exact (Hjin _ " " (or_intror eq_refl) eq_refl).
  assert (is_jinja_line ("{%set " +:+ n +:+ " = " +:+ v +:+ " %}" +:+ ws) = true)
    as Hj0 by exact (Hjin _ "" (or_introl eq_refl) eq_refl).
  assert (matches good_jinja_pat ("{% set " +:+ n +:+ " = " +:+ v +:+ " %}" +:+ ws)
          = true) as Hgood.
  { apply matches_den.
    exists ("{% set " +:+ n +:+ " = " +:+ v +:+ " %}"), ws, [1].
    split; [by rewrite !str_app_assoc|].
    unfold good_jinja_pat. cbn [seq den].
    exists "", ("{% set " +:+ n +:+ " = " +:+ v +:+ " %}"), [].
    split; [done|]. split; [done|].
    exists "{%", (" set " +:+ n +:+ " = " +:+ v +:+ " %}"), [].
    split; [done|]. split; [by apply den_Lit|].
    exists " ", ("set " +:+ n +:+ " = " +:+ v +:+ " %}"), [].
    split; [done|]. split; [by exists " "%char|].
    exists "set", (" " +:+ n +:+ " = " +:+ v +:+ " %}"), [1].
    split; [done|]. split; [exists []; split; [by apply den_Lit|done]|].
    exists " ", (n +:+ " = " +:+ v +:+ " %}"), [1].
    split; [done|]. split; [by exists " "%char|].
    exists n, (" = " +:+ v +:+ " %}"), [1].
    split; [done|]. split; [by apply den_Many1|].
    exists " ", ("= " +:+ v +:+ " %}"), [1].
    split; [done|]. split; [by exists " "%char|].
    exists "=", (" " +:+ v +:+ " %}"), [1].
    split; [done|]. split; [by apply den_Lit|].
    exists " ", (v +:+ " %}"), [1]. split; [done|]. split; [by exists " "%char|].
    exists v, " %}", [1]. split; [done|]. split; [by apply den_Many1|].
    exists " ", "%}", [1]. split; [done|]. split; [by exists " "%char|].
    by apply den_Lit. }
  assert (matches good_jinja_pat ("{%set " +:+ n +:+ " = " +:+ v +:+ " %}" +:+ ws)
          = false) as Hbad.
  { destruct (matches good_jinja_pat
                ("{%set " +:+ n +:+ " = " +:+ v +:+ " %}" +:+ ws)) eqn:Hm; [|done].
    exfalso. apply good_jinja_shape in Hm as (lead & w & rest & Heq & Hlead & Hw).
    destruct lead as [|c lead].
    - rewrite str_app_nil_l in Heq.
      change ("{%set " +:+ n +:+ " = " +:+ v +:+ " %}" +:+ ws)
        with (String "{" (String "%" (String "s"
                (("et " +:+ n +:+ " = " +:+ v +:+ " %}" +:+ ws))))) in Heq.
      change ("{%" +:+ String w rest) with (String "{" (String "%" (String w rest)))
        in Heq.
      injection Heq as <- _. done.
    - change ("{%set " +:+ n +:+ " = " +:+ v +:+ " %}" +:+ ws)
        with (String "{" ("%set " +:+ n +:+ " = " +:+ v +:+ " %}" +:+ ws)) in Heq.
      rewrite str_app_cons in Heq. injection Heq as <- _.
      cbn [all] in Hlead. by apply andb_prop in Hlead as [? _]. }
  unfold untidy_jinja. by rewrite Hj1, Hj0, Hgood, Hbad.
Qed.

(** * More recipes to run the linter on *)

Module Trial.

(** A recipe with something for most rules: the name has a capital and
    a space, the version is empty, the first source has no checksum,
    the script calls [setup.py], there is no build number, the build
    requirements pin numpy and name the toolchain, the about section
    has no home, an empty summary, an unknown license and a key that is
    not a field, and the maintainers are a text. *)
Definition doc : dict :=
  [ ("package", VMap [("name", VStr "Foo Bar"); ("version", VStr "")]);
    ("source", VList [ VMap [("url", VStr "http://a.example/a.tar.gz")];
                       VMap [("url", VStr "http://b.example/b.tar.gz");
                             ("md5", VStr "0")];
                       VMap [("path", VStr "../src")] ]);
    ("build", VMap [("script", VStr "python setup.py install")]);
    ("requirements", VMap [("build", VList [VStr "numpy x.x"; VStr "toolchain";
                                            VStr "python"])]);
    ("test", VMap [("imports", VList [VStr "foo"])]);
    ("about", VMap [("license", VStr " Unknown "); ("summary", VStr "");
                    ("licence", VStr "MIT")]);
    ("extra", VMap [("recipe-maintainers", VStr "someone")]) ].

(** No file is there. *)
Definition E : Env := Demo.env [].

Definition meta : loc := 1%positive.

Definition st : store := {[ meta := OVal (VMap doc) ]}.

Definition found : findings :=
  Eval vm_compute in
    match outcome (lintify E meta None false st) with
    | WOk _ f => f
    | WRaise _ => no_findings
    end.

Lemma run_ok : lintify E meta None false st = ROk tt found (final_store st doc).
Proof. vm_compute. reflexivity. Qed.

Lemma doc_stored : st !! meta = Some (OVal (VMap doc)).
Proof. reflexivity. Qed.

(** The validator has nothing to say of this document. *)
Lemma doc_foreign t : foreign E doc t.
Proof. intros msg H. vm_compute in H. discriminate H. Qed.

Lemma foreign_all_doc T : foreign_all E doc T.
Proof. intros t _. apply doc_foreign. Qed.

Lemma keys_distinct : List.NoDup (dict_keys doc).
Proof.
  repeat (constructor; [cbn; intros H; repeat (destruct H as [H|H]; [discriminate H|]);
                        exact H|]).
  constructor.
Qed.

(** The same collaborators with a token in the environment, and a
    GitHub that knows every user but [ghost], has a feedstock and a
    bioconda recipe for [foo], and nothing else. *)
Definition github (E0 : Env) : Env := {|
  type_name := type_name E0;
  type_module := type_module E0;
  py_repr := py_repr E0;
  cbfields := cbfields E0;
  ensure_valid_license_family := ensure_valid_license_family E0;
  VersionOrder := VersionOrder E0;
  path_exists := path_exists E0;
  read_text := read_text E0;
  abspath := abspath E0;
  environ := fun k => if String.eqb k "GH_TOKEN" then Some "token" else None;
  gh_get_user := fun user => if eq_str "ghost" user then Unknown else Found;
  gh_get_repo := fun _ name =>
    if mem name ["foo-feedstock"; "bioconda-recipes"] then Found else Unknown;
  gh_get_dir_contents := fun _ _ path =>
    if String.eqb path "recipes/foo" then Found else Unknown;
  render_meta_yaml := render_meta_yaml E0;
  yaml_load := yaml_load E0
|}.

Definition forge_E : Env := github E.

(** A recipe of staged-recipes, left in the example directory. *)
Definition forge_doc : dict :=
  [ ("package", VMap [("name", VStr " foo ")]);
    ("extra", VMap [("recipe-maintainers",
                     VList [VStr "someone"; VStr "ghost"; VStr "conda-forge/core"])]) ].

Definition forge_dir : option string := Some "recipes/example/foo".

Definition forge_st : store := {[ meta := OVal (VMap forge_doc) ]}.

Definition forge_found : findings :=
  Eval vm_compute in
    match outcome (lintify forge_E meta forge_dir true forge_st) with
    | WOk _ f => f
    | WRaise _ => no_findings
    end.

Lemma forge_run :
  lintify forge_E meta forge_dir true forge_st
  = ROk tt forge_found (final_store forge_st forge_doc).
Proof. vm_compute. reflexivity. Qed.

Lemma forge_foreign t : foreign forge_E forge_doc t.
Proof. intros msg H. vm_compute in H. discriminate H. Qed.

(** The collaborators of [Demo.E] with a loader that gives [v] for
    every text. *)
Definition loading (v : value) : Env := {|
  type_name := type_name Demo.E;
  type_module := type_module Demo.E;
  py_repr := py_repr Demo.E;
  cbfields := cbfields Demo.E;
  ensure_valid_license_family := ensure_valid_license_family Demo.E;
  VersionOrder := VersionOrder Demo.E;
  path_exists := path_exists Demo.E;
  read_text := read_text Demo.E;
  abspath := abspath Demo.E;
  environ := environ Demo.E;
  gh_get_user := gh_get_user Demo.E;
  gh_get_repo := gh_get_repo Demo.E;
  gh_get_dir_contents := gh_get_dir_contents Demo.E;
  render_meta_yaml := render_meta_yaml Demo.E;
  yaml_load := fun _ => Some v
|}.

End Trial.

(** * The further properties on the recipes *)

Lemma about_contents_rule_witness :
  List.filter (tagged about_tags) (lints Trial.found)
  = ["The home item is expected in the about section.";
     "The summary item is expected in the about section."].
Proof.
  exact (about_contents_rule Trial.E Trial.meta None false Trial.st Trial.doc
           Trial.found _ Trial.doc_stored (Trial.foreign_all_doc _) Trial.run_ok).
Defined.

Lemma maintainers_rule_witness :
  List.filter (tagged maintainers_tags) (lints Trial.found)
  = ["Recipe maintainers should be a json list."].
Proof.
  exact (proj1 (maintainers_rule Trial.E Trial.meta None false Trial.st Trial.doc
                  Trial.found _ Trial.doc_stored (Trial.foreign_all_doc _)
                  Trial.run_ok)).
Defined.

Lemma build_number_rule_witness :
  List.filter (has_prefix "The recipe must have a `build/number`") (lints Trial.found)
  = ["The recipe must have a `build/number` section."]
  /\ List.filter (has_prefix "The recipe must have a `build/number`")
       (lints Demo.found) = [].
Proof.
  split.
  - exact (proj1 (build_number_rule Trial.E Trial.meta None false Trial.st Trial.doc
                    Trial.found _ Trial.doc_stored (Trial.doc_foreign _)
                    Trial.run_ok)).
  - exact (proj2 (build_number_rule Demo.E Demo.meta (Some "recipe") false Demo.st
                    Demo.doc Demo.found _ Demo.doc_at_meta
                    (Demo.foreign_doc "The recipe must have a `build/number`" eq_refl)
                    Demo.run) eq_refl).
Defined.

Lemma checksum_rule_witness :
  List.filter (has_prefix "When defining") (lints Trial.found)
  = ["When defining a source/url please add a sha256, sha1 or md5 checksum (sha256 preferably)."].
Proof.
  exact (checksum_rule Trial.E Trial.meta None false Trial.st Trial.doc
           Trial.found _ Trial.doc_stored (Trial.doc_foreign _) Trial.run_ok).
Defined.

Lemma license_text_rules_witness :
  List.filter (has_prefix "The recipe license cannot") (lints Trial.found)
    = ["The recipe license cannot be unknown."] /\
  List.filter (has_prefix "The recipe `license`") (lints Trial.found) = [].
Proof.
  exact (license_text_rules Trial.E Trial.meta None false Trial.st Trial.doc
           Trial.found _ " Unknown " Trial.doc_stored (Trial.doc_foreign _)
           (Trial.doc_foreign _) eq_refl Trial.run_ok).
Defined.

Lemma recipe_name_rule_witness :
  List.filter (has_prefix "Recipe name has") (lints Trial.found)
    = ["Recipe name has invalid characters. only lowercase alpha, numeric, underscores, hyphens and dots allowed"] /\
  List.filter (has_prefix "Recipe name has") (lints Demo.found) = [].
Proof.
  split.
  - exact (proj1 (recipe_name_rule Trial.E Trial.meta None false Trial.st Trial.doc
                    Trial.found _ "Foo Bar" Trial.doc_stored (Trial.doc_foreign _)
                    eq_refl Trial.run_ok)).
  - exact (proj1 (recipe_name_rule Demo.E Demo.meta (Some "recipe") false Demo.st
                    Demo.doc Demo.found _ "foo" Demo.doc_at_meta
                    (Demo.foreign_doc "Recipe name has" eq_refl) eq_refl Demo.run)).
Defined.

Lemma pip_hint_rule_witness :
  List.filter (has_prefix "Whenever possible") (hints Trial.found)
  = ["Whenever possible python packages should use pip. See https://conda-forge.org/docs/meta.html#use-pip"].
Proof.
  exact (proj1 (pip_hint_rule Trial.E Trial.meta None false Trial.st Trial.doc
                  Trial.found _ Trial.doc_stored Trial.run_ok)).
Defined.

Lemma conda_forge_maintainers_rule_witness :
  List.filter (has_prefix "Recipe maintainer ") (lints Trial.forge_found)
  = ["Recipe maintainer " +:+ dq +:+ "ghost" +:+ dq +:+ " does not exist"].
Proof.
  exact (proj1 (conda_forge_maintainers_rule Trial.forge_E Trial.meta Trial.forge_dir
                  Trial.forge_st Trial.forge_doc Trial.forge_found _
                  [VStr "someone"; VStr "ghost"; VStr "conda-forge/core"]
                  eq_refl (Trial.forge_foreign _) eq_refl Trial.forge_run)).
Defined.

Lemma conda_forge_directory_rules_witness :
  List.filter (has_prefix "Feedstock with") (lints Trial.forge_found)
    = ["Feedstock with the same name exists in conda-forge"] /\
  List.filter (has_prefix "Recipe with the same name") (hints Trial.forge_found)
    = ["Recipe with the same name exists in bioconda: please discuss with @conda-forge/bioconda-recipes."] /\
  List.filter (has_prefix "Please move") (lints Trial.forge_found)
    = ["Please move the recipe out of the example dir and into its own dir."].
Proof.
  destruct (conda_forge_directory_rules Trial.forge_E Trial.meta Trial.forge_dir
              Trial.forge_st Trial.forge_doc Trial.forge_found _ " foo "
              eq_refl (fun t _ => Trial.forge_foreign t) eq_refl Trial.forge_run)
    as (H1 & H2 & _ & H3).
  split; [exact H1|]. split; [exact H2|exact H3].
Defined.

Lemma conda_forge_needs_token_witness :
  lintify Demo.E Demo.meta (Some "recipe") true Demo.st = RRaise KeyError.
Proof.
  exact (conda_forge_needs_token Demo.E Demo.meta (Some "recipe") Demo.st Demo.doc
           Demo.doc_at_meta Demo.doc_well_shaped eq_refl).
Defined.

Lemma main_runs_lintify_witness :
  exists st',
    main Demo.E "recipe" false false ∅
    = ROk (Results ["The home item is expected in the about section.";
                    "The license item is expected in the about section.";
                    "The summary item is expected in the about section.";
                    "The recipe could do with some maintainers listed in the `extra/recipe-maintainers` section.";
                    "The recipe must have some tests.";
                    "Selectors are suggested to take a ``<two spaces>#<one space>[<expression>]`` form. See lines [10]";
                    "The recipe must have a `build/number` section.";
                    "There are 2 too many lines.  There should be one empty line at the end of the file.";
                    "Recipe name has invalid characters. only lowercase alpha, numeric, underscores, hyphens and dots allowed";
                    "Jinja2 variable definitions are suggested to take a ``{%<one space>set<one space><variable name><one space>=<one space><expression><one space>%}`` form. See lines [1]"])
          no_findings st' /\
    (forall r o, (∅ : store) !! r = Some o -> st' !! r = Some o).
Proof.
  exact (main_runs_lintify Demo.E "recipe" false false ∅ Demo.meta_yaml Demo.meta_yaml
           [] eq_refl eq_refl eq_refl eq_refl).
Defined.

Lemma main_rejects_non_mapping_witness :
  main (Trial.loading VNone) "recipe" false true ∅ = RRaise AttributeError.
Proof.
  exact (main_rejects_non_mapping (Trial.loading VNone) "recipe" false true ∅
           Demo.meta_yaml Demo.meta_yaml VNone eq_refl eq_refl eq_refl eq_refl eq_refl).
Defined.

Lemma non_text_license_aborts_witness :
  lintify Demo.E Demo.meta None false
    {[ Demo.meta := OVal (VMap [("about", VMap [("license", VNone)])]) ]}
  = RRaise AttributeError.
Proof.
  exact (non_text_license_aborts Demo.E Demo.meta None false
           {[ Demo.meta := OVal (VMap [("about", VMap [("license", VNone)])]) ]}
           [("about", VMap [("license", VNone)])] VNone eq_refl eq_refl eq_refl).
Defined.

Lemma lintify_offline_witness :
  lintify Trial.E Trial.meta None false Trial.st
  = lintify Trial.forge_E Trial.meta None false Trial.st.
Proof.
  apply lintify_offline. repeat split.
Defined.

Lemma unexpected_key_content_ignored_witness :
  outcome (lintify Demo.E Demo.meta (Some "recipe") false
             {[ Demo.meta := OVal (VMap (dict_set Demo.doc "bogus" (VInt 3))) ]})
  = outcome (lintify Demo.E Demo.meta (Some "recipe") false
               {[ Demo.meta := OVal (VMap (dict_set Demo.doc "bogus"
                                             (VMap [("about", VStr "x")]))) ]}).
Proof.
  apply (unexpected_key_content_ignored Demo.E Demo.meta Demo.meta (Some "recipe")
           false _ _ Demo.doc "bogus" (VInt 3) (VMap [("about", VStr "x")]));
    reflexivity.
Defined.

Lemma file_rules_need_recipe_file_witness :
  List.filter (tagged file_rule_tags) (lints Trial.found) = [].
Proof.
  exact (file_rules_need_recipe_file Trial.E Trial.meta None false Trial.st Trial.doc
           Trial.found _ Trial.doc_stored (Trial.foreign_all_doc _)
           (or_introl eq_refl) Trial.run_ok).
Defined.

Lemma hints_are_of_three_kinds_witness :
  Forall (fun h =>
            has_prefix "It looks like the '" h = true \/
            has_prefix "Whenever possible" h = true \/
            (true = true /\ has_prefix "Recipe with the same name" h = true))
         (hints Trial.forge_found).
Proof.
  exact (hints_are_of_three_kinds Trial.forge_E Trial.meta Trial.forge_dir true
           Trial.forge_st Trial.forge_doc Trial.forge_found _ eq_refl Trial.forge_run).
Defined.

Lemma tests_rule_satisfied_witness :
  List.filter (has_prefix tests_msg) (lints Trial.found) = [] /\
  List.filter (has_prefix no_test_hint_tag) (hints Trial.found) = [].
Proof.
  exact (tests_rule_satisfied Trial.E Trial.meta None false Trial.st Trial.doc
           Trial.found _ Trial.doc_stored (Trial.doc_foreign _)
           (or_introl eq_refl) Trial.run_ok).
Defined.

Lemma noarch_rule_needs_noarch_witness :
  List.filter (has_prefix noarch_tag) (lints Trial.found) = [].
Proof.
  exact (noarch_rule_needs_noarch Trial.E Trial.meta None false Trial.st Trial.doc
           Trial.found _ Trial.doc_stored (Trial.doc_foreign _)
           (or_introl eq_refl) Trial.run_ok).
Defined.

Lemma version_rule_witness :
  List.filter (has_prefix "Package version ") (lints Trial.found)
  = ["Package version  doesn't match conda spec"].
Proof.
  exact (version_rule Trial.E Trial.meta None false Trial.st Trial.doc
           Trial.found _ Trial.doc_stored (Trial.doc_foreign _) Trial.run_ok).
Defined.

Lemma legacy_patterns_rule_witness :
  List.filter (has_prefix "Using pinned") (lints Trial.found)
    = ["Using pinned numpy packages is a deprecated pattern.  Consider using the method outlined [here](https://conda-forge.org/docs/meta.html#building-against-numpy)."] /\
  List.filter (has_prefix "Using toolchain") (lints Trial.found)
    = ["Using toolchain directly in this manner is deprecated.  Consider using the compilers outlined [here](https://conda-forge.org/docs/meta.html#compilers)."].
Proof.
  exact (legacy_patterns_rule Trial.E Trial.meta None false Trial.st Trial.doc
           Trial.found _ Trial.doc_stored (Trial.foreign_all_doc _) Trial.run_ok).
Defined.

Lemma subsection_names_rule_witness :
  List.filter (has_prefix (subsection_tag "about")) (lints Trial.found)
  = ["The about section contained an unexpected subsection name. licence is not a valid subsection name."].
Proof.
  exact (proj1 (subsection_names_rule Trial.E Trial.meta None false Trial.st Trial.doc
                  Trial.found _ "about" Trial.doc_stored
                  (or_intror (or_intror (or_intror (or_intror (or_intror
                     (or_introl eq_refl))))))
                  Trial.keys_distinct (Trial.doc_foreign _) Trial.run_ok)).
Defined.

Lemma selector_comment_spacing_witness :
  untidy_selector (Demo.line "    - bar  # [win]") = false /\
  is_selector_line (Demo.line "    - bar  # [win]") = true /\
  untidy_selector (Demo.line "    - baz # [osx]") = true.
Proof.
  destruct (selector_comment_spacing "    - bar" "win" Demo.lf) as (H1 & H2 & _);
    try (reflexivity || discriminate); [by right|].
  destruct (selector_comment_spacing "    - baz" "osx" Demo.lf) as (_ & _ & H3);
    try (reflexivity || discriminate); [by right|].
  split; [exact H1|]. split; [exact H2|exact H3].
Defined.

Lemma jinja_definition_spacing_witness :
  untidy_jinja (Demo.line "{% set version = 1.0 %}") = false /\
  is_jinja_line (Demo.line "{% set version = 1.0 %}") = true /\
  untidy_jinja (Demo.line "{%set version = 1.0 %}") = true.
Proof.
  destruct (jinja_definition_spacing "version" "1.0" Demo.lf) as (H1 & H2 & H3);
    try (reflexivity || discriminate); [by right|].
  split; [exact H1|]. split; [exact H2|exact H3].
Defined.
